(** * App.jsx: the client-side synchronisation layer

    A shallow embedding of the data-synchronisation core of [src/App.jsx]:
    the time-bounded cache ([dataCache]), the fetch coordinator
    ([fetchData] with its helper [safeFetch] and the collection-switch
    effect), the mutation gateway ([handleRequest], [handleCreate],
    [handleUpdate]) and the attachment handlers of the detail modal
    ([handleFileChange], [handleRemoveFile]).

    React state is modelled by a record of the [useState] cells.  A handler
    reads the cells through the snapshot of the render that created it (its
    closure) and writes them through the setters, which act on the live
    state; the two are kept apart because several claims depend on the
    difference.  Asynchronous functions are split at their [await]s into
    the part that runs when they are called and the continuation that runs
    when the awaited promise settles. *)

From Stdlib Require Import ZArith String Ascii List PrimFloat.
From stdpp Require Import base option list gmap strings pretty.

Local Open Scope string_scope.
Local Open Scope Z_scope.

#[local] Set Warnings "-register-all".

(** ** JavaScript values *)

Module Js.

(** A [File] picked in a file input: the code only reads [name]. *)
Record File := mkFile { file_name : string; file_bytes : list Byte.byte }.

Inductive Value :=
| VUndefined
| VNull
| VBool (b : bool)
| VNum (n : float)
| VStr (s : string)
| VFile (f : File)
| VArr (l : list Value).

(** A plain object: its own enumerable string keys in insertion order. *)
Definition Obj := list (string * Value).

(** [o[k]] *)
Fixpoint get (o : Obj) (k : string) : Value :=
  match o with
  | [] => VUndefined
  | (k', v) :: o' => if String.eqb k' k then v else get o' k
  end.

Fixpoint has (o : Obj) (k : string) : bool :=
  match o with
  | [] => false
  | (k', _) :: o' => String.eqb k' k || has o' k
  end.

(** [{ ...o, [k]: v }] and [acc[k] = v]: an existing key keeps its place. *)
Fixpoint set (o : Obj) (k : string) (v : Value) : Obj :=
  match o with
  | [] => [(k, v)]
  | (k', v') :: o' =>
      if String.eqb k' k then (k', v) :: o' else (k', v') :: set o' k v
  end.

(** [delete o[k]] *)
Definition remove (o : Obj) (k : string) : Obj :=
  List.filter (fun kv => negb (String.eqb (fst kv) k)) o.

(** [Object.keys(o)] *)
Definition keys (o : Obj) : list string := List.map fst o.

(** [!!v] *)
Definition truthy (v : Value) : bool :=
  match v with
  | VUndefined | VNull => false
  | VBool b => b
  | VNum n => negb (PrimFloat.is_zero n || PrimFloat.is_nan n)
  | VStr s => negb (String.eqb s "")
  | VFile _ | VArr _ => true
  end.

(** [Array.isArray(v)] *)
Definition isArray (v : Value) : bool :=
  match v with VArr _ => true | _ => false end.

(** [v instanceof File] *)
Definition isFile (v : Value) : bool :=
  match v with VFile _ => true | _ => false end.

(** [s.includes(sub)] *)
Definition includes (s sub : string) : bool :=
  match String.index 0 sub s with Some _ => true | None => false end.

(** [s.startsWith(p)] *)
Definition startsWith (s p : string) : bool := String.prefix p s.

(** [l.includes(x)] on an array of strings *)
Definition mem (x : string) (l : list string) : bool :=
  List.existsb (String.eqb x) l.

(** [l.join(sep)] on an array of strings *)
Fixpoint join (sep : string) (l : list string) : string :=
  match l with
  | [] => ""
  | [x] => x
  | x :: l' => x ++ sep ++ join sep l'
  end.

(** [l.filter((_, index) => index !== i)] *)
Fixpoint dropAt {A} (i : nat) (l : list A) : list A :=
  match l, i with
  | [], _ => []
  | _ :: l', O => l'
  | x :: l', S i' => x :: dropAt i' l'
  end.

End Js.

Import Js.

(** ** Configuration: [initialCollections] *)

Definition EXCLUDED_INTERNAL_COLUMNS : list string :=
  ["created_at"; "created_by"; "updated_at"; "updated_by"; "password_hash";
   "product_line_id"].

Record CollectionDescriptor := mkCollection {
  name : string;
  apiPath : string;
  fields : list string;
  requiredFields : list string;
  defaultValues : Obj
}.

(** The keys of [initialCollections]. *)
Inductive CollectionKey := product_lines | products | users.

Definition key_string (k : CollectionKey) : string :=
  match k with
  | product_lines => "product_lines"
  | products => "products"
  | users => "users"
  end.

Definition CollectionKey_eqb (a b : CollectionKey) : bool :=
  match a, b with
  | product_lines, product_lines | products, products | users, users => true
  | _, _ => false
  end.

Definition initialCollections (k : CollectionKey) : CollectionDescriptor :=
  match k with
  | product_lines =>
      {| name := "Product Lines";
         apiPath := "/api/product_lines";
         fields :=
           ["id"; "name"; "type_of_products"; "manufacturing_locations";
            "design_center"; "product_line_manager"; "history";
            "type_of_customers"; "metiers"; "strength"; "weakness";
            "perspectives"; "compliance_resource_id"; "attachments_raw"]
           ++ EXCLUDED_INTERNAL_COLUMNS;
         requiredFields := ["name"; "product_line_manager"];
         defaultValues :=
           [("name", VStr ""); ("type_of_products", VStr "");
            ("product_line_manager", VStr ""); ("strength", VStr "");
            ("weakness", VStr ""); ("attachments_raw", VArr [])] |}
  | products =>
      {| name := "Products";
         apiPath := "/api/products";
         fields :=
           ["id"; "product_name"; "product_line"; "description";
            "product_definition"; "operating_environment";
            "technical_parameters"; "machines_and_tooling";
            "manufacturing_strategy"; "purchasing_strategy";
            "prototypes_ppap_and_sop"; "engineering_and_testing"; "capacity";
            "our_advantages"; "gmdc_pct"; "product_line_id";
            "customers_in_production"; "customer_in_development";
            "level_of_interest_and_why"; "estimated_price_per_product";
            "prod_if_customer_in_china"; "costing_data"; "product_pictures"]
           ++ EXCLUDED_INTERNAL_COLUMNS;
         requiredFields := ["product_name"; "product_line"];
         defaultValues :=
           [("product_name", VStr ""); ("product_line", VStr "");
            ("description", VStr ""); ("capacity", VStr "");
            ("gmdc_pct", VNum 0%float); ("product_pictures", VArr [])] |}
  | users =>
      {| name := "Users";
         apiPath := "/api/users";
         fields :=
           ["id"; "email"; "displayName"; "user_role"]
           ++ EXCLUDED_INTERNAL_COLUMNS;
         requiredFields := ["email"; "password"; "displayName"];
         defaultValues :=
           [("email", VStr ""); ("displayName", VStr "");
            ("user_role", VStr "user")] |}
  end.

(** [Object.keys(initialCollections).filter(k => k !== 'users')] *)
Definition collectionKeys : list CollectionKey :=
  List.filter (fun k => negb (CollectionKey_eqb k users))
    [product_lines; products; users].

Definition LOGS_API_PATH : string := "/api/audit_logs".
Definition BASE_API_URL : string := "https://product-db-back.azurewebsites.net".

(** ** [getFieldType] *)

Definition getFieldType (field : string) : string :=
  if List.existsb (includes field)
       ["history"; "description"; "strategy"; "capacity"; "parameters";
        "tooling"; "advantages"; "costing_data"; "definition"; "environment";
        "locations"; "center"; "metiers"; "strength"; "weakness";
        "perspectives"; "customers"; "prototypes_ppap_and_sop";
        "engineering_and_testing"; "type_of_products"]
  then "textarea"
  else if includes field "gmdc_pct" || includes field "estimated_price"
  then "number"
  else if includes field "prod_if_customer_in_china" then "checkbox"
  else if includes field "product_pictures" then "file_image"
  else if includes field "attachments_raw" then "file_attachment"
  else "text".

(** [getFieldType(field).includes('file')] *)
Definition isFileField (field : string) : bool :=
  includes (getFieldType field) "file".

(** ** Application state: the [useState] cells of [App] *)

(** [{ data, timestamp }] *)
Record CacheEntry := mkEntry { data : list Obj; timestamp : Z }.

(** [{ data: [], timestamp: 0 }] *)
Definition emptyEntry : CacheEntry := {| data := []; timestamp := 0 |}.

Definition productLinesList : string := "productLinesList".

(** The initial value of [dataCache], restored by [handleLogout]. *)
Definition initialDataCache : gmap string CacheEntry :=
  <[key_string product_lines := emptyEntry]>
    (<[key_string products := emptyEntry]>
       (<[productLinesList := emptyEntry]> ∅)).

Record AppState := mkApp {
  authToken : option string;
  userData : option Obj;
  isInitialLoad : bool;
  items : list Obj;
  allProductLines : list Obj;
  logs : list Obj;
  activeCollectionKey : CollectionKey;
  newItemData : Obj;
  isLoading : bool;
  apiError : option string;
  dataCache : gmap string CacheEntry;
  isModalOpen : bool;
  modalData : option Obj;
  isFormVisible : bool
}.

(** One entry appended to a [FormData]: a file with its file name, or a
    value, which the browser sends as text. *)
Inductive Part :=
| PartFile (field : string) (f : File) (filename : string)
| PartValue (field : string) (v : Value).

(** What [handleRequest] builds for the body, and the content type sent with
    it: the [FormData], or [jsonBody], the object that is then handed to
    [JSON.stringify] ([requestBody] below gives the body as sent). *)
Inductive Encoded :=
| Multipart (parts : list Part)         (* a FormData body, no Content-Type *)
| JsonBody (jsonBody : option Obj).     (* Content-Type: application/json *)

(** What a handler does to the outside world, in call order. *)
Inductive Action :=
| AFetch (url : string)                                   (* GET of safeFetch *)
| ARequest (method : string) (url : string) (body : Encoded)
| ALogoutRequest
| ASwal (title text icon : string)
| ASuccessCallback
| ACallFetchData (isUserAction : bool)
| ACallHandleLogout
| AStorageRemove (key : string).

(** [depsChanged] records that a cell on which [fetchData] or the
    collection-switch effect depends was given a new value since the last
    render: React then runs the effect again after the next render. *)
Record World := mkWorld {
  app : AppState;
  trace : list Action;
  depsChanged : bool
}.

(** Handlers are state transformers over the live state and the trace. *)
Definition M (A : Type) : Type := World -> A * World.

#[global] Instance M_ret : MRet M := fun A (a : A) w => (a, w).
#[global] Instance M_bind : MBind M :=
  fun A B (f : A -> M B) (m : M A) w => let (a, w') := m w in f a w'.

Definition modify (f : AppState -> AppState) : M unit :=
  fun w => (tt, {| app := f (app w); trace := trace w;
                   depsChanged := depsChanged w |}).

Definition emit (a : Action) : M unit :=
  fun w => (tt, {| app := app w; trace := trace w ++ [a];
                   depsChanged := depsChanged w |}).

Definition touch : M unit :=
  fun w => (tt, {| app := app w; trace := trace w; depsChanged := true |}).

(** The live state, for functional updates [setX(prev => ...)]. *)
Definition live : M AppState := fun w => (app w, w).

Definition when (b : bool) (m : M unit) : M unit := if b then m else mret tt.

Definition is_Some_b {A} (o : option A) : bool :=
  match o with Some _ => true | None => false end.

Definition exec {A} (m : M A) (w : World) : World := snd (m w).
Definition eval {A} (m : M A) (w : World) : A := fst (m w).

(** Setters.  Cells holding a primitive ([authToken],
    [activeCollectionKey], [isInitialLoad]) change when the value differs;
    cells holding an object or an array ([dataCache], [logs], [userData])
    change whenever they are given a new object. *)
Section Setters.
Definition put_authToken v : M unit := modify (fun s =>
  mkApp v (userData s) (isInitialLoad s) (items s) (allProductLines s)
    (logs s) (activeCollectionKey s) (newItemData s) (isLoading s)
    (apiError s) (dataCache s) (isModalOpen s) (modalData s)
    (isFormVisible s)).
Definition put_userData v : M unit := modify (fun s =>
  mkApp (authToken s) v (isInitialLoad s) (items s) (allProductLines s)
    (logs s) (activeCollectionKey s) (newItemData s) (isLoading s)
    (apiError s) (dataCache s) (isModalOpen s) (modalData s)
    (isFormVisible s)).
Definition put_isInitialLoad v : M unit := modify (fun s =>
  mkApp (authToken s) (userData s) v (items s) (allProductLines s)
    (logs s) (activeCollectionKey s) (newItemData s) (isLoading s)
    (apiError s) (dataCache s) (isModalOpen s) (modalData s)
    (isFormVisible s)).
Definition setItems v : M unit := modify (fun s =>
  mkApp (authToken s) (userData s) (isInitialLoad s) v (allProductLines s)
    (logs s) (activeCollectionKey s) (newItemData s) (isLoading s)
    (apiError s) (dataCache s) (isModalOpen s) (modalData s)
    (isFormVisible s)).
Definition setAllProductLines v : M unit := modify (fun s =>
  mkApp (authToken s) (userData s) (isInitialLoad s) (items s) v
    (logs s) (activeCollectionKey s) (newItemData s) (isLoading s)
    (apiError s) (dataCache s) (isModalOpen s) (modalData s)
    (isFormVisible s)).
Definition put_logs v : M unit := modify (fun s =>
  mkApp (authToken s) (userData s) (isInitialLoad s) (items s)
    (allProductLines s) v (activeCollectionKey s) (newItemData s)
    (isLoading s) (apiError s) (dataCache s) (isModalOpen s) (modalData s)
    (isFormVisible s)).
Definition put_activeCollectionKey v : M unit := modify (fun s =>
  mkApp (authToken s) (userData s) (isInitialLoad s) (items s)
    (allProductLines s) (logs s) v (newItemData s) (isLoading s)
    (apiError s) (dataCache s) (isModalOpen s) (modalData s)
    (isFormVisible s)).
Definition setNewItemData v : M unit := modify (fun s =>
  mkApp (authToken s) (userData s) (isInitialLoad s) (items s)
    (allProductLines s) (logs s) (activeCollectionKey s) v (isLoading s)
    (apiError s) (dataCache s) (isModalOpen s) (modalData s)
    (isFormVisible s)).
Definition setIsLoading v : M unit := modify (fun s =>
  mkApp (authToken s) (userData s) (isInitialLoad s) (items s)
    (allProductLines s) (logs s) (activeCollectionKey s) (newItemData s) v
    (apiError s) (dataCache s) (isModalOpen s) (modalData s)
    (isFormVisible s)).
Definition setApiError v : M unit := modify (fun s =>
  mkApp (authToken s) (userData s) (isInitialLoad s) (items s)
    (allProductLines s) (logs s) (activeCollectionKey s) (newItemData s)
    (isLoading s) v (dataCache s) (isModalOpen s) (modalData s)
    (isFormVisible s)).
Definition put_dataCache (f : gmap string CacheEntry -> gmap string CacheEntry)
  : M unit := modify (fun s =>
  mkApp (authToken s) (userData s) (isInitialLoad s) (items s)
    (allProductLines s) (logs s) (activeCollectionKey s) (newItemData s)
    (isLoading s) (apiError s) (f (dataCache s)) (isModalOpen s)
    (modalData s) (isFormVisible s)).
Definition setIsModalOpen v : M unit := modify (fun s =>
  mkApp (authToken s) (userData s) (isInitialLoad s) (items s)
    (allProductLines s) (logs s) (activeCollectionKey s) (newItemData s)
    (isLoading s) (apiError s) (dataCache s) v (modalData s)
    (isFormVisible s)).
Definition setModalData v : M unit := modify (fun s =>
  mkApp (authToken s) (userData s) (isInitialLoad s) (items s)
    (allProductLines s) (logs s) (activeCollectionKey s) (newItemData s)
    (isLoading s) (apiError s) (dataCache s) (isModalOpen s) v
    (isFormVisible s)).
Definition setIsFormVisible v : M unit := modify (fun s =>
  mkApp (authToken s) (userData s) (isInitialLoad s) (items s)
    (allProductLines s) (logs s) (activeCollectionKey s) (newItemData s)
    (isLoading s) (apiError s) (dataCache s) (isModalOpen s) (modalData s)
    v).

Definition setAuthToken (v : option string) : M unit :=
  cur ← live;
  put_authToken v ;;
  when (negb (bool_decide (authToken cur = v))) touch.
Definition setUserData (v : option Obj) : M unit :=
  cur ← live;
  put_userData v ;;
  when (is_Some_b v || is_Some_b (userData cur)) touch.
Definition setIsInitialLoad (v : bool) : M unit :=
  cur ← live;
  put_isInitialLoad v ;;
  when (negb (Bool.eqb (isInitialLoad cur) v)) touch.
Definition setActiveCollectionKey (v : CollectionKey) : M unit :=
  cur ← live;
  put_activeCollectionKey v ;;
  when (negb (CollectionKey_eqb (activeCollectionKey cur) v)) touch.
Definition setLogs (v : list Obj) : M unit := put_logs v ;; touch.
(** [setDataCache(prev => f(prev))] *)
Definition setDataCache
  (f : gmap string CacheEntry -> gmap string CacheEntry) : M unit :=
  put_dataCache f ;; touch.
End Setters.

(** [!!authToken]: a string from session storage or [null]. *)
Definition tokenPresent (t : option string) : bool :=
  match t with Some s => negb (String.eqb s "") | None => false end.

(** ** Network outcomes *)

(** The result of [response.json()]. *)
Inductive Parsed (A : Type) :=
| Json (a : A)
| SyntaxError (message : string).
Arguments Json {A} a.
Arguments SyntaxError {A} message.

(** How one [fetch] can end.  A 2xx body is the array of records the API
    returns for a GET; of the body of another status the code reads only
    [message], here [None] when it is absent or falsy. *)
Inductive FetchOutcome :=
| NetworkError (message : string)
| Ok (status : Z) (body : Parsed (list Obj))
| NotOk (status : Z) (body : Parsed (option string)).

(** What the promise returned by [safeFetch] settles to. *)
Inductive Settled :=
| Fulfilled (rows : list Obj)
| RejectedWith (message : string).

(** ** [handleLogout] *)

(** After the awaited logout request (or at once, without a token). *)
Definition handleLogout_teardown : M unit :=
  setAuthToken None ;;
  setUserData None ;;
  emit (AStorageRemove "authToken") ;;
  emit (AStorageRemove "userData") ;;
  setItems [] ;;
  setLogs [] ;;
  setDataCache (fun _ => initialDataCache).

(** The call itself; [true] when the teardown waits for the network. *)
Definition handleLogout (env : AppState) : M bool :=
  emit ACallHandleLogout ;;
  if tokenPresent (authToken env)
  then emit ALogoutRequest ;; mret true
  else handleLogout_teardown ;; mret false.

(** ** [safeFetch] *)

Inductive Source := SrcMain | SrcLogs | SrcProductLines.

(** The synchronous part: the request leaves. *)
Definition safeFetch_call (url : string) : M unit := emit (AFetch url).

(** The part after [await fetch(url, options)].  Every exception raised
    inside the [try] is caught and turned into [[]]; [return response.json()]
    hands the parsing promise to the caller without awaiting it, so a body
    that does not parse settles the returned promise as rejected. *)
Definition safeFetch_settle (errorMessage : string) (o : FetchOutcome)
  : M Settled :=
  match o with
  | NetworkError msg => setApiError (Some msg) ;; mret (Fulfilled [])
  | NotOk status body =>
      match (if status =? 204 then Json None else body) with
      | Json message =>
          setApiError (Some (default errorMessage message)) ;;
          mret (Fulfilled [])
      | SyntaxError msg => setApiError (Some msg) ;; mret (Fulfilled [])
      end
  | Ok _ (Json rows) => mret (Fulfilled rows)
  | Ok _ (SyntaxError msg) => mret (RejectedWith msg)
  end.

(** ** [fetchData] *)

Definition cacheTTL : Z := 300000.

(** One call of [fetchData]: the render snapshot its closure reads,
    its argument and the value [Date.now()] returned. *)
Record FetchCall := mkCall {
  env : AppState;
  isUserAction : bool;
  currentTimestamp : Z
}.

Definition cachedKey (c : FetchCall) : string :=
  key_string (activeCollectionKey (env c)).

(** [!dataCache[k] || (currentTimestamp - dataCache[k].timestamp) > cacheTTL] *)
Definition expired (cache : gmap string CacheEntry) (k : string) (now : Z)
  : bool :=
  match cache !! k with
  | None => true
  | Some e => now - timestamp e >? cacheTTL
  end.

Definition shouldFetchMainData (c : FetchCall) : bool :=
  isUserAction c || expired (dataCache (env c)) (cachedKey c) (currentTimestamp c).

Definition shouldFetchProductLines (c : FetchCall) : bool :=
  isUserAction c
  || expired (dataCache (env c)) productLinesList (currentTimestamp c).

Definition shouldFetchLogs (c : FetchCall) : bool := isUserAction c.

(** Whether the promise pushed for a source is a [safeFetch]. *)
Definition needed (c : FetchCall) (src : Source) : bool :=
  match src with
  | SrcMain => shouldFetchMainData c
  | SrcLogs => shouldFetchLogs c || isInitialLoad (env c)
  | SrcProductLines => shouldFetchProductLines c
  end.

(** [dataCache[k]?.data || []] *)
Definition cachedData (cache : gmap string CacheEntry) (k : string)
  : list Obj :=
  match cache !! k with Some e => data e | None => [] end.

(** The value of [Promise.resolve(...)] pushed for a source not needed. *)
Definition resolvedFromCache (c : FetchCall) (src : Source) : list Obj :=
  match src with
  | SrcMain => cachedData (dataCache (env c)) (cachedKey c)
  | SrcLogs => logs (env c)
  | SrcProductLines => cachedData (dataCache (env c)) productLinesList
  end.

Definition sourceUrl (c : FetchCall) (src : Source) : string :=
  match src with
  | SrcMain =>
      BASE_API_URL ++ apiPath (initialCollections (activeCollectionKey (env c)))
  | SrcLogs => BASE_API_URL ++ LOGS_API_PATH
  | SrcProductLines =>
      BASE_API_URL ++ apiPath (initialCollections product_lines)
  end.

Definition sourceErrorMessage (c : FetchCall) (src : Source) : string :=
  match src with
  | SrcMain =>
      "Failed to fetch "
      ++ name (initialCollections (activeCollectionKey (env c))) ++ " data."
  | SrcLogs => "Failed to fetch Audit Logs."
  | SrcProductLines => "Failed to fetch Product Lines data."
  end.

(** The call up to [await Promise.all(fetchPromises)]; [None] when it
    returns at the guard. *)
Definition fetchData (e : AppState) (userAction : bool) (now : Z)
  : M (option FetchCall) :=
  emit (ACallFetchData userAction) ;;
  if negb (tokenPresent (authToken e)) || negb (is_Some_b (userData e))
  then setIsLoading false ;; mret None
  else
    let c := {| env := e; isUserAction := userAction;
                currentTimestamp := now |} in
    when (isInitialLoad e || userAction) (setIsLoading true) ;;
    setApiError None ;;
    when (needed c SrcMain) (safeFetch_call (sourceUrl c SrcMain)) ;;
    when (needed c SrcLogs) (safeFetch_call (sourceUrl c SrcLogs)) ;;
    when (needed c SrcProductLines)
      (safeFetch_call (sourceUrl c SrcProductLines)) ;;
    mret (Some c).

(** [finally] *)
Definition fetchData_finally (c : FetchCall) : M unit :=
  when (isInitialLoad (env c) || isUserAction c)
    (setIsLoading false ;; setIsInitialLoad false).

(** The [try] block after [await Promise.all] fulfilled. *)
Definition fetchData_merge (c : FetchCall)
  (fetchedItems fetchedLogs fetchedProductLines : list Obj) : M unit :=
  let finalItems :=
    if (0 <? length fetchedItems)%nat then fetchedItems
    else cachedData (dataCache (env c)) (cachedKey c) in
  setItems finalItems ;;
  when (shouldFetchMainData c && (0 <? length fetchedItems)%nat)
    (setDataCache (fun prev =>
       <[cachedKey c := {| data := fetchedItems;
                           timestamp := currentTimestamp c |}]> prev)) ;;
  let finalProductLines :=
    if (0 <? length fetchedProductLines)%nat then fetchedProductLines
    else cachedData (dataCache (env c)) productLinesList in
  setAllProductLines finalProductLines ;;
  when (shouldFetchProductLines c && (0 <? length fetchedProductLines)%nat)
    (setDataCache (fun prev =>
       <[productLinesList := {| data := fetchedProductLines;
                                timestamp := currentTimestamp c |}]> prev)) ;;
  when (shouldFetchLogs c || isInitialLoad (env c)) (setLogs fetchedLogs).

(** The [catch] block after [await Promise.all] rejected; [true] when a
    logout was started whose teardown waits for the network. *)
Definition fetchData_catch (c : FetchCall) (message : string) : M bool :=
  if includes message "Failed to fetch"
     || includes message "Invalid or expired token"
  then
    pending ← handleLogout (env c);
    setApiError
      (Some "Session expired or API unreachable. Please log in again.") ;;
    mret pending
  else
    setApiError
      (Some (if String.eqb message ""
             then "Failed to fetch data from API. Check server status."
             else message)) ;;
    mret false.

Definition fetchData_fulfilled (c : FetchCall)
  (fetchedItems fetchedLogs fetchedProductLines : list Obj) : M unit :=
  fetchData_merge c fetchedItems fetchedLogs fetchedProductLines ;;
  fetchData_finally c.

Definition fetchData_rejected (c : FetchCall) (message : string) : M bool :=
  pending ← fetchData_catch c message;
  fetchData_finally c ;;
  mret pending.

(** ** The collection-switch effect and [handleCollectionSwitch] *)

(** The body of the effect with dependencies
    [[activeCollectionKey, dataCache, fetchData]], run with the snapshot of
    the render that scheduled it. *)
Definition switchEffect (e : AppState) (now : Z) : M (option FetchCall) :=
  setNewItemData (defaultValues (initialCollections (activeCollectionKey e))) ;;
  setIsFormVisible false ;;
  let rows := cachedData (dataCache e) (key_string (activeCollectionKey e)) in
  if (0 <? length rows)%nat
  then setItems rows ;; fetchData e false now
  else fetchData e true now.

(** The filter cells it also resets are presentation state. *)
Definition handleCollectionSwitch (key : CollectionKey) : M unit :=
  setActiveCollectionKey key ;;
  setIsFormVisible false.

(** ** [handleRequest] *)

Inductive Method := POST | PUT | DELETE.

Definition method_string (m : Method) : string :=
  match m with POST => "POST" | PUT => "PUT" | DELETE => "DELETE" end.

Definition fileFields : list string := ["attachments_raw"; "product_pictures"].

(** [typeof f === 'string' && f.startsWith('uploads/')] *)
Definition isUploadPath (v : Value) : bool :=
  match v with VStr p => startsWith p "uploads/" | _ => false end.

(** [Array.isArray(v) && v.some(f => f instanceof File)] *)
Definition someFile (v : Value) : bool :=
  match v with VArr l => List.existsb isFile l | _ => false end.

Definition hasFile (body : option Obj) : bool :=
  match body with
  | Some b => List.existsb (fun field => someFile (get b field)) fileFields
  | None => false
  end.

(** What one element of a file field appends to the form data. *)
Definition appendFileOrPath (key : string) (fileOrPath : Value) : list Part :=
  match fileOrPath with
  | VFile f => [PartFile key f (file_name f)]
  | VStr p =>
      if startsWith p "uploads/" then [PartValue (key ++ "_retained") (VStr p)]
      else []
  | _ => []
  end.

Definition isNull (v : Value) : bool :=
  match v with VNull => true | _ => false end.

(** The elements of an array, for the loops guarded by [Array.isArray]. *)
Definition elements (v : Value) : list Value :=
  match v with VArr l => l | _ => [] end.

(** What one iteration of [for (const key in body)] appends. *)
Definition appendKey (body : Obj) (key : string) : list Part :=
  if mem key fileFields && isArray (get body key)
  then List.flat_map (appendFileOrPath key) (elements (get body key))
  else if negb (mem key fileFields) && negb (isNull (get body key))
          && negb (String.eqb key "id")
  then [PartValue key (get body key)]
  else [].

Definition formDataOf (body : Obj) : list Part :=
  List.flat_map (appendKey body) (keys body).

(** One step of the [reduce] that builds [jsonBody]. *)
Definition jsonStep (body : Obj) (acc : Obj) (key : string) : Obj :=
  if negb (String.eqb key "id")
  then
    if mem key fileFields && isArray (get body key)
    then Js.set acc key
           (VArr (List.filter isUploadPath (elements (get body key))))
    else Js.set acc key (get body key)
  else acc.

Definition jsonBodyOf (body : Obj) : Obj :=
  List.fold_left (jsonStep body) (keys body) [].

(** The [FormData] or the [jsonBody] of the call, with the headers that go
    with it. *)
Definition encodeBody (body : option Obj) : Encoded :=
  if hasFile body
  then Multipart (match body with Some b => formDataOf b | None => [] end)
  else JsonBody (jsonBodyOf <$> body).

(** ** [JSON.stringify] and the body as sent

    The text that [JSON.stringify] returns is given by the JSON value it
    denotes, the members of an object in the order they are written. *)

Inductive JsonValue :=
| JNull
| JBool (b : bool)
| JNum (n : float)
| JStr (s : string)
| JArr (l : list JsonValue)
| JObj (members : list (string * JsonValue)).

(** What a value is serialised to; [None] is [undefined], for which an
    object leaves the key out and an array writes [null].  A number that is
    not finite is written [null], a zero of either sign [0]; a [File] has no
    enumerable property of its own and is written as the empty object. *)
Fixpoint stringifyValue (v : Value) : option JsonValue :=
  match v with
  | VUndefined => None
  | VNull => Some JNull
  | VBool b => Some (JBool b)
  | VNum n =>
      Some (if PrimFloat.is_nan n || PrimFloat.is_infinity n then JNull
            else if PrimFloat.is_zero n then JNum 0%float
            else JNum n)
  | VStr s => Some (JStr s)
  | VFile _ => Some (JObj [])
  | VArr l =>
      Some (JArr (List.map (fun x => default JNull (stringifyValue x)) l))
  end.

(** [JSON.stringify(o)] for a plain object. *)
Definition JSON_stringify (o : Obj) : JsonValue :=
  JObj (List.flat_map
          (fun k =>
             match stringifyValue (get o k) with
             | Some j => [(k, j)]
             | None => []
             end)
          (keys o)).

(** The member of a JSON object under a key. *)
Fixpoint lookupMember (members : list (string * JsonValue)) (k : string)
  : option JsonValue :=
  match members with
  | [] => None
  | (k', j) :: members' =>
      if String.eqb k' k then Some j else lookupMember members' k
  end.

Definition member (j : JsonValue) (k : string) : option JsonValue :=
  match j with JObj members => lookupMember members k | _ => None end.

(** [requestBody]: the [FormData], or
    [jsonBody ? JSON.stringify(jsonBody) : null]. *)
Inductive RequestBody :=
| FormDataBody (parts : list Part)
| TextBody (json : JsonValue)
| NullBody.

Definition requestBody (e : Encoded) : RequestBody :=
  match e with
  | Multipart parts => FormDataBody parts
  | JsonBody (Some jsonBody) => TextBody (JSON_stringify jsonBody)
  | JsonBody None => NullBody
  end.

(** [s.slice(0, -1)] *)
Fixpoint dropLast (s : string) : string :=
  match s with
  | EmptyString => EmptyString
  | String c EmptyString => EmptyString
  | String c s' => String c (dropLast s')
  end.

(** One call of [handleRequest], kept while its request is in flight. *)
Record RequestCall := mkRequest {
  renv : AppState;
  method : Method;
  path : string;
  successCallback : M unit
}.

(** The call up to [await fetch(...)]; [None] when it returns at the guard. *)
Definition handleRequest (e : AppState) (m : Method) (p : string)
  (body : option Obj) (callback : M unit) : M (option RequestCall) :=
  if negb (tokenPresent (authToken e)) then mret None
  else
    setIsLoading true ;;
    setApiError None ;;
    emit (ARequest (method_string m) (BASE_API_URL ++ p) (encodeBody body)) ;;
    mret (Some {| renv := e; method := m; path := p;
                  successCallback := callback |}).

Definition successNotice (r : RequestCall) : M unit :=
  let what := dropLast (name (initialCollections (activeCollectionKey (renv r)))) in
  match method r with
  | POST => emit (ASwal "Created!" (what ++ " successfully created.") "success")
  | PUT => emit (ASwal "Updated!" (what ++ " successfully updated.") "success")
  | DELETE => emit (ASwal "Deleted!" (what ++ " permanently removed.") "success")
  end.

(** The two entries a successful mutation resets. *)
Definition invalidate (key : string) (prev : gmap string CacheEntry)
  : gmap string CacheEntry :=
  <[productLinesList := emptyEntry]> (<[key := emptyEntry]> prev).

(** The [catch] block of [handleRequest]. *)
Definition handleRequest_failed (message : string) : M unit :=
  emit (ASwal "Error!" message "error") ;;
  setApiError
    (Some (if String.eqb message ""
           then "An unknown error occurred during API operation."
           else message)).

(** The part after [await fetch(...)]; a successful one ends by calling
    [fetchData(true)], whose call record is returned. *)
Definition handleRequest_settle (r : RequestCall) (o : FetchOutcome) (now : Z)
  : M (option FetchCall) :=
  match o with
  | Ok _ _ =>
      successNotice r ;;
      setDataCache (invalidate (key_string (activeCollectionKey (renv r)))) ;;
      emit ASuccessCallback ;;
      successCallback r ;;
      c ← fetchData (renv r) true now;
      setIsLoading false ;;
      mret c
  | NetworkError msg =>
      handleRequest_failed msg ;; setIsLoading false ;; mret None
  | NotOk status body =>
      match (if status =? 204 then Json None else body) with
      | Json message =>
          handleRequest_failed
            (default ("API call failed with status " ++ pretty status ++ ".")
                     message)
      | SyntaxError msg => handleRequest_failed msg
      end ;;
      setIsLoading false ;; mret None
  end.

(** ** The event loop

    The browser runs one task at a time.  A task is a user event or the
    arrival of a response; the state updates it makes are applied together,
    the component renders, and the collection-switch effect runs again when
    one of its dependencies changed. *)

(** A call of [fetchData] suspended at [await Promise.all]: for each source
    what its promise has settled to, [None] while the request is out. *)
Record Flight := mkFlight {
  call : FetchCall;
  itemsPromise : option Settled;
  logsPromise : option Settled;
  productLinesPromise : option Settled;
  resumed : bool
}.

Definition promiseOf (f : Flight) (src : Source) : option Settled :=
  match src with
  | SrcMain => itemsPromise f
  | SrcLogs => logsPromise f
  | SrcProductLines => productLinesPromise f
  end.

Definition settlePromise (f : Flight) (src : Source) (r : Settled) : Flight :=
  match src with
  | SrcMain =>
      mkFlight (call f) (Some r) (logsPromise f) (productLinesPromise f)
        (resumed f)
  | SrcLogs =>
      mkFlight (call f) (itemsPromise f) (Some r) (productLinesPromise f)
        (resumed f)
  | SrcProductLines =>
      mkFlight (call f) (itemsPromise f) (logsPromise f) (Some r) (resumed f)
  end.

Definition markResumed (f : Flight) : Flight :=
  mkFlight (call f) (itemsPromise f) (logsPromise f) (productLinesPromise f)
    true.

Definition initialPromise (c : FetchCall) (src : Source) : option Settled :=
  if needed c src then None else Some (Fulfilled (resolvedFromCache c src)).

Definition launch (c : FetchCall) : Flight :=
  {| call := c;
     itemsPromise := initialPromise c SrcMain;
     logsPromise := initialPromise c SrcLogs;
     productLinesPromise := initialPromise c SrcProductLines;
     resumed := false |}.

(** [Promise.all]: rejected as soon as one promise is, fulfilled once all
    are.  Returns the flight and whether a logout request was started. *)
Definition resume (f : Flight) : M (Flight * bool) :=
  if resumed f then mret (f, false)
  else
    match itemsPromise f, logsPromise f, productLinesPromise f with
    | Some (RejectedWith msg), _, _
    | _, Some (RejectedWith msg), _
    | _, _, Some (RejectedWith msg) =>
        pending ← fetchData_rejected (call f) msg;
        mret (markResumed f, pending)
    | Some (Fulfilled fetchedItems), Some (Fulfilled fetchedLogs),
      Some (Fulfilled fetchedProductLines) =>
        fetchData_fulfilled (call f) fetchedItems fetchedLogs
          fetchedProductLines ;;
        mret (markResumed f, false)
    | _, _, _ => mret (f, false)
    end.

Record Sys := mkSys {
  world : World;
  flights : list Flight;
  requests : list (RequestCall * bool);  (* the flag: still in flight *)
  logouts : nat                          (* logout requests in flight *)
}.

Inductive Event :=
| Render
| SwitchTab (key : CollectionKey)
| Arrive (fid : nat) (src : Source) (o : FetchOutcome)
| Request (m : Method) (p : string) (body : option Obj) (callback : M unit)
| Respond (rid : nat) (o : FetchOutcome)
| ClickLogout
| LogoutDone.

Definition b2n (b : bool) : nat := if b then 1%nat else 0%nat.

(** A new call of [fetchData] joins the flights; with no request out its
    [Promise.all] is already fulfilled and it resumes in the same task. *)
Definition takeOff (oc : option FetchCall) (s : Sys) : Sys :=
  match oc with
  | None => s
  | Some c =>
      let '((f, pending), w) := resume (launch c) (world s) in
      mkSys w (flights s ++ [f]) (requests s) (logouts s + b2n pending)
  end.

Definition handle (ev : Event) (now : Z) (s : Sys) : Sys :=
  match ev with
  | Render => s
  | SwitchTab key =>
      (* the tab buttons are [disabled={isLoading}] *)
      if isLoading (app (world s)) then s
      else mkSys (exec (handleCollectionSwitch key) (world s))
                 (flights s) (requests s) (logouts s)
  | Arrive fid src o =>
      match flights s !! fid with
      | Some f =>
          match promiseOf f src with
          | Some _ => s
          | None =>
              let (r, w) :=
                safeFetch_settle (sourceErrorMessage (call f) src) o (world s)
              in
              let '((f', pending), w') := resume (settlePromise f src r) w in
              mkSys w' (<[fid := f']> (flights s)) (requests s)
                    (logouts s + b2n pending)
          end
      | None => s
      end
  | Request m p body callback =>
      let (or, w) := handleRequest (app (world s)) m p body callback (world s) in
      match or with
      | Some r => mkSys w (flights s) (requests s ++ [(r, true)]) (logouts s)
      | None => mkSys w (flights s) (requests s) (logouts s)
      end
  | Respond rid o =>
      match requests s !! rid with
      | Some (r, true) =>
          let (oc, w) := handleRequest_settle r o now (world s) in
          takeOff oc
            (mkSys w (flights s) (<[rid := (r, false)]> (requests s))
                   (logouts s))
      | _ => s
      end
  | ClickLogout =>
      let (pending, w) := handleLogout (app (world s)) (world s) in
      mkSys w (flights s) (requests s) (logouts s + b2n pending)
  | LogoutDone =>
      match logouts s with
      | O => s
      | S n =>
          mkSys (exec handleLogout_teardown (world s)) (flights s)
                (requests s) n
      end
  end.

(** The render that follows a task. *)
Definition render (now : Z) (s : Sys) : Sys :=
  if depsChanged (world s)
  then
    let w := {| app := app (world s); trace := trace (world s);
                depsChanged := false |} in
    let (oc, w') := switchEffect (app w) now w in
    takeOff oc (mkSys w' (flights s) (requests s) (logouts s))
  else s.

Definition step (s : Sys) (ev : Event * Z) : Sys :=
  render (snd ev) (handle (fst ev) (snd ev) s).

Definition run (evs : list (Event * Z)) (s : Sys) : Sys :=
  List.fold_left step evs s.

(** The requests still in flight, with the collection key they act on. *)
Definition pendingRequests (s : Sys) : list RequestCall :=
  List.map fst (List.filter snd (requests s)).

(** ** [handleCreate], [handleUpdate], [handleDelete] *)

Definition createCallback (e : AppState) : M unit :=
  setNewItemData (defaultValues (initialCollections (activeCollectionKey e))) ;;
  setIsFormVisible false.

Definition updateCallback : M unit :=
  setModalData None ;;
  setIsModalOpen false.

(** The default [successCallback = () => {}]. *)
Definition noCallback : M unit := mret tt.

(** The callback each caller of [handleRequest] passes. *)
Definition callbackOf (m : Method) (e : AppState) : M unit :=
  match m with
  | POST => createCallback e
  | PUT => updateCallback
  | DELETE => noCallback
  end.

(** The predicate of [requiredFields.every(...)] in [handleCreate]. *)
Definition requiredPresent (key : CollectionKey) (item : Obj) (field : string)
  : bool :=
  let value := get item field in
  if CollectionKey_eqb key products
     && String.eqb field "prod_if_customer_in_china"
  then true
  else if isFileField field
  then isArray value && (0 <? length (elements value))%nat
  else truthy value.

(** The predicate of [requiredFields.filter(...)] that builds the message. *)
Definition reportedMissing (key : CollectionKey) (item : Obj) (field : string)
  : bool :=
  let value := get item field in
  if CollectionKey_eqb key products
     && String.eqb field "prod_if_customer_in_china"
  then false
  else if isFileField field
  then isArray value && (length (elements value) =? 0)%nat
  else negb (truthy value).

Definition missingMessage (key : CollectionKey) (required : list string)
  (item : Obj) : string :=
  "Missing required fields: "
  ++ join ", " (List.filter (reportedMissing key item) required).

Section Forms.

(** The built-in [parseFloat], whose result no claim depends on. *)
Variable parseFloat : Value -> Value.

(** The [reduce] shared by [handleCreate] and [handleUpdate]. *)
Definition payloadStep (allowedFields : list string) (source : Obj)
  (acc : Obj) (key : string) : Obj :=
  if mem key allowedFields
  then
    let value := get source key in
    if isFileField key
    then Js.set acc key (if isArray value then value else VArr [])
    else if String.eqb key "gmdc_pct" || String.eqb key "estimated_price"
    then Js.set acc key (parseFloat value)
    else Js.set acc key value
  else acc.

Definition allowedFieldsOf (d : CollectionDescriptor) : list string :=
  List.filter (fun field => negb (mem field EXCLUDED_INTERNAL_COLUMNS))
    (fields d).

Definition finalPayloadOf (d : CollectionDescriptor) (source : Obj) : Obj :=
  List.fold_left (payloadStep (allowedFieldsOf d) source) (keys source) [].

Definition handleCreate (e : AppState) : M (option RequestCall) :=
  let key := activeCollectionKey e in
  let activeCollection := initialCollections key in
  let requiredCheck :=
    List.forallb (requiredPresent key (newItemData e))
      (requiredFields activeCollection) in
  if negb requiredCheck
  then
    setApiError
      (Some (missingMessage key (requiredFields activeCollection)
               (newItemData e))) ;;
    mret None
  else
    let finalPayload :=
      Js.remove (finalPayloadOf activeCollection (newItemData e)) "id" in
    handleRequest e POST (apiPath activeCollection) (Some finalPayload)
      (createCallback e).

(** [id] is the text that [`${id}`] evaluates to. *)
Definition handleUpdate (e : AppState) (id : string) (formData : Obj)
  : M (option RequestCall) :=
  let activeCollection := initialCollections (activeCollectionKey e) in
  handleRequest e PUT (apiPath activeCollection ++ "/" ++ id)
    (Some (finalPayloadOf activeCollection formData)) updateCallback.

End Forms.

(** After the confirmation dialog resolved with [isConfirmed]. *)
Definition handleDelete (e : AppState) (id : string)
  : M (option RequestCall) :=
  handleRequest e DELETE
    (apiPath (initialCollections (activeCollectionKey e)) ++ "/" ++ id)
    None noCallback.

(** ** Attachment handlers of [DetailModal]

    [formData] is the modal's own state cell; a handler reads it through
    the render snapshot and updates it with [setFormData(prev => ...)].
    The result is the new value of the cell, [None] when the handler throws
    (calling [.filter] on something that is not an array). *)

Module DetailModal.

Definition handleFileChange (formData : Obj) (field : string)
  (fileOrFiles : Value) (prev : Obj) : option Obj :=
  match fileOrFiles with
  | VArr files =>
      match get formData field with
      | VArr current =>
          let existingPaths := List.filter isUploadPath current in
          let newFiles := List.filter isFile files in
          Some (Js.set prev field (VArr (existingPaths ++ newFiles)))
      | _ => None
      end
  | _ => Some (Js.set prev field (VArr []))
  end.

Definition handleRemoveFile (formData : Obj) (field : string)
  (indexToRemove : nat) (isNewFile : bool) (prev : Obj) : Obj :=
  let fileDataArray := elements (get formData field) in
  let existingPaths := List.filter isUploadPath fileDataArray in
  let newFiles := List.filter isFile fileDataArray in
  if isNewFile
  then Js.set prev field (VArr (existingPaths ++ dropAt indexToRemove newFiles))
  else Js.set prev field (VArr (dropAt indexToRemove existingPaths ++ newFiles)).

End DetailModal.

(** ** The form of [DetailModal]: reset, field changes, submit *)

Section ModalForm.

(** The built-ins [parseFloat] and the conversion of a value to text in a
    template literal, whose results no property depends on. *)
Variable parseFloat : Value -> Value.
Variable idText : Value -> string.

(** [Array.isArray(v) ? v : (v ? [v] : [])] *)
Definition asArray (v : Value) : Value :=
  if isArray v then v else if truthy v then VArr [v] else VArr [].

(** The value the effect on [[item, isOpen]] gives to [formData]. *)
Definition resetFormData (item : Obj) : Obj :=
  Js.set
    (Js.set
       (Js.set item "gmdc_pct"
          (if truthy (get item "gmdc_pct")
           then parseFloat (get item "gmdc_pct")
           else VNum 0%float))
       "attachments_raw" (asArray (get item "attachments_raw")))
    "product_pictures" (asArray (get item "product_pictures")).

(** The predicate of [requiredFields.every(...)] in [handleSubmit]. *)
Definition submitPresent (required : list string) (formData : Obj)
  (field : string) : bool :=
  let value := get formData field in
  if isFileField field
  then
    if mem field required
    then isArray value && (0 <? length (elements value))%nat
    else true
  else if mem field required then truthy value else true.

(** The predicate of [requiredFields.filter(...)] that builds the message. *)
Definition submitMissing (formData : Obj) (field : string) : bool :=
  let value := get formData field in
  if isFileField field
  then isArray value && (length (elements value) =? 0)%nat
  else negb (truthy value).

(** [handleSubmit], with the snapshot of the render that passed
    [activeCollection] and [handleUpdate] to the modal. *)
Definition handleSubmit (e : AppState) (formData : Obj)
  : M (option RequestCall) :=
  let required := requiredFields (initialCollections (activeCollectionKey e)) in
  let requiredCheck :=
    List.forallb (submitPresent required formData) required in
  if negb requiredCheck
  then
    emit (ASwal "Validation Error"
            ("Missing required fields: "
             ++ join ", " (List.filter (submitMissing formData) required))
            "warning") ;;
    mret None
  else handleUpdate parseFloat e (idText (get formData "id")) formData.

End ModalForm.

(** ** [handleAuth] of [LoginScreen]

    The screen writes the session through the setters it receives from
    [App], keeps the error it shows in a cell of its own and copies the
    session to [sessionStorage]. *)

Module LoginScreen.

(** Of the body of a response the code reads [message], [token] and
    [user]; a field is [None] when it is absent ([message]: or falsy). *)
Record AuthData := mkAuthData {
  message : option string;
  token : option string;
  user : option Obj
}.

(** How [fetch] followed by [response.json()] can end.  A body that parses
    to [null] makes the first read of a field throw into the same [catch]
    as a body that does not parse: it is a [SyntaxError] here, with the
    message of that exception. *)
Inductive AuthOutcome :=
| AuthNetworkError (msg : string)
| AuthResponse (ok : bool) (status : Z) (body : Parsed AuthData).

(** What the call did outside the state of [App]: the argument of
    [setError], when it was called, and the [setItem] calls in order. *)
Record AuthEffect := mkAuthEffect {
  shownError : option string;
  setItemCalls : list (string * string)
}.

(** The call up to [await fetch(...)]; [setError(null)] is the screen's. *)
Definition handleAuth_call : M unit := setIsLoading true.

(** The [catch] block, then [finally]. *)
Definition handleAuth_failed (msg : string) : M AuthEffect :=
  setIsLoading false ;;
  mret {| shownError :=
            Some (if String.eqb msg "" then "An unknown error occurred."
                  else msg);
          setItemCalls := [] |}.

Section Auth.

(** The text that [setItem] stores for [JSON.stringify(data.user)]. *)
Variable stringify : option Obj -> string.

(** The part after [await fetch(...)]. *)
Definition handleAuth_settle (o : AuthOutcome) : M AuthEffect :=
  match o with
  | AuthNetworkError msg => handleAuth_failed msg
  | AuthResponse _ _ (SyntaxError msg) => handleAuth_failed msg
  | AuthResponse ok status (Json data) =>
      if negb ok
      then
        match message data with
        | Some m =>
            if includes m "secretOrPrivateKey"
            then handleAuth_failed
                   "Authentication failed. Backend JWT_SECRET not configured."
            else handleAuth_failed m
        | None =>
            handleAuth_failed
              ("Authentication failed with status " ++ pretty status)
        end
      else
        setAuthToken (token data) ;;
        setUserData (user data) ;;
        setIsLoading false ;;
        mret {| shownError := None;
                setItemCalls :=
                  [("authToken", default "undefined" (token data));
                   ("userData", stringify (user data))] |}
  end.

End Auth.

End LoginScreen.

(** ** Vocabulary of the properties *)

(** A fetch that failed: no response, or a response that is not ok. *)
Definition isFailure (o : FetchOutcome) : bool :=
  match o with
  | NetworkError _ | NotOk _ _ => true
  | Ok _ _ => false
  end.

(** Actions of a trace, by kind. *)
Definition isLogoutCall (a : Action) : bool :=
  match a with ACallHandleLogout | ALogoutRequest => true | _ => false end.



Definition isNotice (a : Action) : bool :=
  match a with ASwal _ _ "success" => true | _ => false end.


(** Some attachment field of the payload holds a [File]. *)
Definition hasLocalEntry (body : Obj) : Prop :=
  exists key l f,
    In key fileFields /\ get body key = VArr l /\ In (VFile f) l.

(** What the [reduce] of [jsonStep] leaves under a key of the payload. *)
Definition jsonValue (body : Obj) (key : string) : Value :=
  if mem key fileFields && isArray (get body key)
  then VArr (List.filter isUploadPath (elements (get body key)))
  else get body key.

(** A required field is missing from the form: it holds no value, or, for
    an attachment field, the empty array. *)
Definition isMissing (item : Obj) (field : string) : bool :=
  if isFileField field
  then match get item field with VArr [] => true | _ => false end
  else negb (truthy (get item field)).

(** The field the check of [handleCreate] passes over. *)
Definition exempt (key : CollectionKey) (field : string) : bool :=
  CollectionKey_eqb key products
  && String.eqb field "prod_if_customer_in_china".

(** A session as [fetchData] requires it: a token and a user. *)
Definition hasSession (e : AppState) : bool :=
  tokenPresent (authToken e) && is_Some_b (userData e).

(** The requests of the three sources of a call, in the order sent. *)
Definition allRequests (c : FetchCall) : list Action :=
  [AFetch (sourceUrl c SrcMain); AFetch (sourceUrl c SrcLogs);
   AFetch (sourceUrl c SrcProductLines)].

(** The upload paths among the entries of an attachment field. *)
Definition pathStrings (l : list Value) : list string :=
  List.flat_map
    (fun v =>
       match v with
       | VStr p => if startsWith p "uploads/" then [p] else []
       | _ => []
       end) l.

(** An authentication that the server accepted with a body that parses. *)
Definition signsIn (o : LoginScreen.AuthOutcome) : bool :=
  match o with
  | LoginScreen.AuthResponse true _ (Json _) => true
  | _ => false
  end.

(** ** Sample data for the concrete runs *)

Module Sample.

Definition record (id : string) : Obj := [("id", VStr id)].

Definition user : Obj :=
  [("displayName", VStr "Ann"); ("user_role", VStr "admin")].

(** A signed-in session showing [key], idle, with the given cache. *)
Definition signedIn (key : CollectionKey) (shown audit : list Obj)
  (cache : gmap string CacheEntry) : AppState :=
  {| authToken := Some "token";
     userData := Some user;
     isInitialLoad := false;
     items := shown;
     allProductLines := cachedData cache productLinesList;
     logs := audit;
     activeCollectionKey := key;
     newItemData := defaultValues (initialCollections key);
     isLoading := false;
     apiError := None;
     dataCache := cache;
     isModalOpen := false;
     modalData := None;
     isFormVisible := false |}.

Definition idle (a : AppState) : Sys :=
  {| world := {| app := a; trace := []; depsChanged := false |};
     flights := []; requests := []; logouts := 0 |}.

(** Both collections were loaded long ago (at 1 s and 2 s). *)
Definition oldCache : gmap string CacheEntry :=
  <["product_lines" := {| data := [record "line-old"]; timestamp := 1000 |}]>
    (<["products" := {| data := [record "product-old"]; timestamp := 2000 |}]>
       (<[productLinesList :=
            {| data := [record "line-old"]; timestamp := 1000 |}]> ∅)).

(** Only the product lines were loaded, a moment ago. *)
Definition linesOnlyCache : gmap string CacheEntry :=
  <["product_lines" := {| data := [record "line-1"]; timestamp := 1000 |}]>
    (<["products" := emptyEntry]>
       (<[productLinesList :=
            {| data := [record "line-1"]; timestamp := 1000 |}]> ∅)).

(** Just after login: nothing loaded yet, the first render is due. *)
Definition justSignedIn : Sys :=
  {| world :=
       {| app :=
            {| authToken := Some "token";
               userData := Some user;
               isInitialLoad := true;
               items := [];
               allProductLines := [];
               logs := [];
               activeCollectionKey := product_lines;
               newItemData := defaultValues (initialCollections product_lines);
               isLoading := false;
               apiError := None;
               dataCache := initialDataCache;
               isModalOpen := false;
               modalData := None;
               isFormVisible := false |};
          trace := [];
          depsChanged := true |};
     flights := []; requests := []; logouts := 0 |}.

(** Everything was loaded a moment ago (at 9 s). *)
Definition freshCache : gmap string CacheEntry :=
  <["product_lines" := {| data := [record "line-1"]; timestamp := 9000 |}]>
    (<["products" := {| data := [record "product-1"]; timestamp := 9000 |}]>
       (<[productLinesList :=
            {| data := [record "line-1"]; timestamp := 9000 |}]> ∅)).

Definition ok (rows : list Obj) : FetchOutcome := Ok 200 (Json rows).

(** The answer to a DELETE: 204 without a body. *)
Definition noContent : FetchOutcome :=
  Ok 204 (SyntaxError "Unexpected end of JSON input").

Definition unauthorized : FetchOutcome :=
  NotOk 401 (Json (Some "Invalid or expired token")).

End Sample.

(** * Properties *)

Example getFieldType_samples :
  getFieldType "product_pictures" = "file_image" /\
  getFieldType "attachments_raw" = "file_attachment" /\
  getFieldType "product_name" = "text" /\
  getFieldType "gmdc_pct" = "number" /\
  getFieldType "customers_in_production" = "textarea" /\
  isFileField "product_pictures" = true /\
  isFileField "product_line" = false.
Proof. vm_compute. repeat split. Qed.

(** ** Evaluating handlers *)

Ltac run_handler :=
  unfold exec, eval, when;
  unfold mbind, M_bind, mret, M_ret, modify, emit, touch, live; cbn.

Ltac unfold_setters :=
  unfold setAuthToken, setUserData, setIsInitialLoad, setItems,
    setAllProductLines, setLogs, setActiveCollectionKey, setNewItemData,
    setIsLoading, setApiError, setDataCache, setIsModalOpen, setModalData,
    setIsFormVisible, put_authToken, put_userData, put_isInitialLoad,
    put_logs, put_activeCollectionKey, put_dataCache.

Section Cache.

Implicit Types (cache : gmap string CacheEntry) (k : string) (now : Z).

Lemma expired_spec cache k e now :
  cache !! k = Some e ->
  expired cache k now = false <-> now - timestamp e <= cacheTTL.
Proof.
  intros Hk. unfold expired. rewrite Hk.
  destruct (Z.gtb_spec (now - timestamp e) cacheTTL); split; intros; try lia;
    try reflexivity; discriminate.
Qed.

Lemma key_string_not_list key : key_string key <> productLinesList.
Proof. destruct key; discriminate. Qed.

Lemma key_string_inj a b : key_string a = key_string b -> a = b.
Proof. destruct a, b; (reflexivity || discriminate). Qed.

End Cache.

(** C4, counterexample.  An entry written at 0 and read at exactly 300000
    is not refetched by a background resync, although its age is not below
    300000. *)
Lemma cache_served_at_exactly_ttl :
  let cache : gmap string CacheEntry :=
    <["products" := {| data := [[("id", VStr "p1")]]; timestamp := 0 |}]> ∅ in
  expired cache "products" 300000 = false
  /\ ~ (expired cache "products" 300000 = false <-> 300000 - 0 < 300000).
Proof.
  cbn zeta. split; [reflexivity|].
  intros [H _]. specialize (H eq_refl). lia.
Qed.

(** C4, as amended.  The entry for a key is served without a network read
    by a resync that is not a user action exactly when its age is at most
    300000 ms: an entry written at 0 is fresh at 299999 and at 300000 and is
    refetched from 300001 on. *)
Theorem cache_fresh_iff_age_at_most_ttl
  (c : FetchCall) (k : string) (e : CacheEntry) :
  dataCache (env c) !! k = Some e ->
  isUserAction c = false ->
  (expired (dataCache (env c)) k (currentTimestamp c) = false
   <-> currentTimestamp c - timestamp e <= 300000)
  /\ (k = cachedKey c ->
      (needed c SrcMain = false
       <-> currentTimestamp c - timestamp e <= 300000))
  /\ (k = productLinesList ->
      (needed c SrcProductLines = false
       <-> currentTimestamp c - timestamp e <= 300000))
  /\ (timestamp e = 0 ->
      expired (dataCache (env c)) k 299999 = false
      /\ expired (dataCache (env c)) k 300000 = false
      /\ expired (dataCache (env c)) k 300001 = true).
Proof.
  intros Hk Hua.
  pose proof (expired_spec _ _ _ (currentTimestamp c) Hk) as Hspec.
  change cacheTTL with 300000 in Hspec.
  split; [exact Hspec|].
  split.
  { intros ->. cbn. unfold shouldFetchMainData. rewrite Hua. exact Hspec. }
  split.
  { intros ->. cbn. unfold shouldFetchProductLines. rewrite Hua. exact Hspec. }
  intros Hzero. unfold expired. rewrite Hk, Hzero. repeat split.
Qed.

(** An entry written at 0 and read at 300000 by a background resync. *)
Lemma cache_fresh_iff_age_at_most_ttl_witness :
  let e := {| data := [Sample.record "p1"; Sample.record "p2"];
              timestamp := 0 |} in
  let c := {| env := Sample.signedIn products [] []
                       (<["products" := e]> Sample.freshCache);
              isUserAction := false; currentTimestamp := 300000 |} in
  dataCache (env c) !! "products" = Some e
  /\ needed c SrcMain = false
  /\ expired (dataCache (env c)) "products" 299999 = false
  /\ expired (dataCache (env c)) "products" 300001 = true.
Proof.
  cbn zeta. split; [reflexivity|].
  destruct (cache_fresh_iff_age_at_most_ttl
    {| env := Sample.signedIn products [] []
                (<["products" :=
                     {| data := [Sample.record "p1"; Sample.record "p2"];
                        timestamp := 0 |}]> Sample.freshCache);
       isUserAction := false; currentTimestamp := 300000 |}
    "products"
    {| data := [Sample.record "p1"; Sample.record "p2"]; timestamp := 0 |})
    as (_ & Hmain & _ & Hpoints); [reflexivity | reflexivity |].
  split; [apply (Hmain eq_refl); cbn; lia|].
  destruct (Hpoints eq_refl) as (H1 & _ & H3).
  split; [exact H1 | exact H3].
Defined.

(** ** What the continuation of [fetchData] writes *)

Ltac split_ifs :=
  repeat (match goal with
          | |- context [if ?b then _ else _] =>
              lazymatch b with
              | true => fail
              | false => fail
              | _ => destruct b eqn:?
              end
          end; cbn).

Section Merge.

Variables (c : FetchCall) (fetchedItems fetchedLogs fetchedProductLines : list Obj).
Variable w : World.

Let w' := exec (fetchData_merge c fetchedItems fetchedLogs fetchedProductLines) w.

Lemma merge_items :
  items (app w') =
    if (0 <? length fetchedItems)%nat then fetchedItems
    else cachedData (dataCache (env c)) (cachedKey c).
Proof. subst w'. unfold fetchData_merge, setItems, setAllProductLines,
  setDataCache, put_dataCache, setLogs, put_logs. run_handler.
  split_ifs; reflexivity. Qed.

Lemma merge_allProductLines :
  allProductLines (app w') =
    if (0 <? length fetchedProductLines)%nat then fetchedProductLines
    else cachedData (dataCache (env c)) productLinesList.
Proof. subst w'. unfold fetchData_merge, setItems, setAllProductLines,
  setDataCache, put_dataCache, setLogs, put_logs. run_handler.
  split_ifs; reflexivity. Qed.

Lemma merge_logs :
  logs (app w') =
    if shouldFetchLogs c || isInitialLoad (env c) then fetchedLogs
    else logs (app w).
Proof. subst w'. unfold fetchData_merge, setItems, setAllProductLines,
  setDataCache, put_dataCache, setLogs, put_logs. run_handler.
  split_ifs; reflexivity. Qed.

Lemma merge_dataCache :
  dataCache (app w') =
    (if shouldFetchProductLines c && (0 <? length fetchedProductLines)%nat
     then <[productLinesList :=
              {| data := fetchedProductLines;
                 timestamp := currentTimestamp c |}]>
     else id)
      ((if shouldFetchMainData c && (0 <? length fetchedItems)%nat
        then <[cachedKey c :=
                 {| data := fetchedItems; timestamp := currentTimestamp c |}]>
        else id) (dataCache (app w))).
Proof. subst w'. unfold fetchData_merge, setItems, setAllProductLines,
  setDataCache, put_dataCache, setLogs, put_logs. run_handler.
  split_ifs; reflexivity. Qed.

(** The continuation reads no cell of the live state and leaves the
    session, the active key and the trace alone. *)
Lemma merge_frame :
  activeCollectionKey (app w') = activeCollectionKey (app w)
  /\ authToken (app w') = authToken (app w)
  /\ userData (app w') = userData (app w)
  /\ apiError (app w') = apiError (app w)
  /\ trace w' = trace w.
Proof. subst w'. unfold fetchData_merge, setItems, setAllProductLines,
  setDataCache, put_dataCache, setLogs, put_logs. run_handler.
  split_ifs; repeat split. Qed.

End Merge.

Lemma finally_frame (c : FetchCall) (w : World) :
  let w' := exec (fetchData_finally c) w in
  items (app w') = items (app w)
  /\ allProductLines (app w') = allProductLines (app w)
  /\ logs (app w') = logs (app w)
  /\ dataCache (app w') = dataCache (app w)
  /\ activeCollectionKey (app w') = activeCollectionKey (app w)
  /\ authToken (app w') = authToken (app w)
  /\ apiError (app w') = apiError (app w)
  /\ trace w' = trace w.
Proof.
  unfold fetchData_finally, setIsLoading, setIsInitialLoad, put_isInitialLoad.
  run_handler. split_ifs; repeat split.
Qed.

Lemma fulfilled_exec (c : FetchCall) (fi fl fp : list Obj) (w : World) :
  exec (fetchData_fulfilled c fi fl fp) w
  = exec (fetchData_finally c) (exec (fetchData_merge c fi fl fp) w).
Proof.
  unfold fetchData_fulfilled, exec, mbind, M_bind.
  destruct (fetchData_merge c fi fl fp w) as [[] w1]. reflexivity.
Qed.

(** ** Stale responses *)

(** C1, counterexample.  The user, showing product lines with both caches
    older than the TTL, opens the products tab and returns to the product
    lines tab while both background fetches are out (the tabs stay enabled:
    no loading flag is raised).  The response for product lines arrives
    first, then the one tagged "products": its continuation replaces the
    view's items with products although the active key is product_lines,
    and writes the "products" cache entry, which is still there after the
    following render. *)
Lemma stale_response_is_applied :
  let now := 1000000 in
  let s :=
    run [(SwitchTab products, now);
         (SwitchTab product_lines, now + 500);
         (Arrive 1 SrcMain (Sample.ok [Sample.record "line-new"]), now + 900);
         (Arrive 1 SrcProductLines (Sample.ok [Sample.record "line-new"]),
          now + 901);
         (Arrive 0 SrcProductLines (Sample.ok [Sample.record "line-new"]),
          now + 950)]
      (Sample.idle
         (Sample.signedIn product_lines [Sample.record "line-old"] []
            Sample.oldCache)) in
  let arrival := Arrive 0 SrcMain (Sample.ok [Sample.record "product-new"]) in
  let t := handle arrival (now + 951) s in
  (cachedKey ∘ call) <$> flights s !! 0%nat = Some "products"
  /\ (cachedKey ∘ call) <$> flights s !! 1%nat = Some "product_lines"
  /\ resumed <$> flights s !! 0%nat = Some false
  /\ activeCollectionKey (app (world s)) = product_lines
  /\ items (app (world s)) = [Sample.record "line-new"]
  /\ dataCache (app (world s)) !! "products"
     = Some {| data := [Sample.record "product-old"]; timestamp := 2000 |}
  /\ activeCollectionKey (app (world t)) = product_lines
  /\ items (app (world t)) = [Sample.record "product-new"]
  /\ dataCache (app (world t)) !! "products"
     = Some {| data := [Sample.record "product-new"]; timestamp := now |}
  /\ dataCache (app (world (render (now + 951) t))) !! "products"
     = Some {| data := [Sample.record "product-new"]; timestamp := now |}.
Proof. vm_compute. repeat split. Qed.

(** C1, as amended.  The key a fetch targets is the one active when it was
    issued, and it serves only as the cache key.  When the fetch resolves,
    a non-empty primary result replaces the view's items and is written to
    the cache under that key with the time of issue, whatever the active
    key is by then (the live state [w] is arbitrary); the entry of the
    other collection is not touched, and the active key is not changed. *)
Theorem response_applied_under_issue_key
  (c : FetchCall) (fetchedItems fetchedLogs fetchedProductLines : list Obj)
  (w : World) :
  fetchedItems <> [] ->
  shouldFetchMainData c = true ->
  let w' :=
    exec (fetchData_fulfilled c fetchedItems fetchedLogs fetchedProductLines) w
  in
  items (app w') = fetchedItems
  /\ dataCache (app w') !! cachedKey c
     = Some {| data := fetchedItems; timestamp := currentTimestamp c |}
  /\ (forall key : CollectionKey,
        key <> activeCollectionKey (env c) ->
        dataCache (app w') !! key_string key
        = dataCache (app w) !! key_string key)
  /\ activeCollectionKey (app w') = activeCollectionKey (app w).
Proof.
  intros Hne Hneed w'. subst w'. rewrite fulfilled_exec.
  destruct (finally_frame c
    (exec (fetchData_merge c fetchedItems fetchedLogs fetchedProductLines) w))
    as (Hi & _ & _ & Hc & Hk & _).
  cbn zeta in Hi, Hc, Hk. rewrite Hi, Hc, Hk.
  rewrite merge_items, merge_dataCache.
  destruct (merge_frame c fetchedItems fetchedLogs fetchedProductLines w)
    as (Hk' & _).
  assert (Hlen : (0 <? length fetchedItems)%nat = true).
  { destruct fetchedItems; [congruence | reflexivity]. }
  rewrite Hlen, Hneed. cbn [andb].
  pose proof (key_string_not_list (activeCollectionKey (env c))) as Hpl.
  repeat split.
  - destruct (shouldFetchProductLines c && _); cbn [id].
    + rewrite lookup_insert_ne by (unfold cachedKey; congruence).
      apply lookup_insert_eq.
    + apply lookup_insert_eq.
  - intros key Hkey.
    assert (cachedKey c <> key_string key).
    { unfold cachedKey. intros E. apply key_string_inj in E. congruence. }
    destruct (shouldFetchProductLines c && _); cbn [id].
    + rewrite lookup_insert_ne by (pose proof (key_string_not_list key); congruence).
      now rewrite lookup_insert_ne.
    + now rewrite lookup_insert_ne.
  - exact Hk'.
Qed.

(** A response for "products" arriving while product lines are shown. *)
Lemma response_applied_under_issue_key_witness :
  let c := {| env := Sample.signedIn products [] [] Sample.oldCache;
              isUserAction := false; currentTimestamp := 1000000 |} in
  let w := world (Sample.idle
                    (Sample.signedIn product_lines [] [] Sample.oldCache)) in
  let w' := exec (fetchData_fulfilled c [Sample.record "product-new"] [] []) w in
  activeCollectionKey (app w) <> activeCollectionKey (env c)
  /\ items (app w') = [Sample.record "product-new"]
  /\ dataCache (app w') !! "products"
     = Some {| data := [Sample.record "product-new"]; timestamp := 1000000 |}.
Proof.
  cbn zeta. split; [discriminate|].
  pose proof (response_applied_under_issue_key
    {| env := Sample.signedIn products [] [] Sample.oldCache;
       isUserAction := false; currentTimestamp := 1000000 |}
    [Sample.record "product-new"] [] []
    (world (Sample.idle (Sample.signedIn product_lines [] [] Sample.oldCache))))
    as H.
  cbn zeta in H.
  destruct H as (Hitems & Hcache & _); [discriminate | reflexivity |].
  split; [exact Hitems | exact Hcache].
Defined.

(** ** Failed and empty sources *)

(** A network failure or a response that is not ok never rejects the
    promise of [safeFetch]: it is fulfilled with [[]] and the only cell
    written is [apiError]. *)
Lemma safeFetch_failure (errorMessage : string) (o : FetchOutcome) (w : World) :
  isFailure o = true ->
  eval (safeFetch_settle errorMessage o) w = Fulfilled []
  /\ (exists msg,
        exec (safeFetch_settle errorMessage o) w
        = exec (setApiError (Some msg)) w).
Proof.
  destruct o as [msg | status body | status body]; try discriminate;
    intros _; unfold safeFetch_settle.
  - split; [reflexivity | now exists msg].
  - destruct (status =? 204); [|destruct body as [message | msg]];
      (split; [reflexivity | eexists; reflexivity]).
Qed.

Lemma setApiError_frame (v : option string) (w : World) :
  let w' := exec (setApiError v) w in
  apiError (app w') = v
  /\ items (app w') = items (app w)
  /\ allProductLines (app w') = allProductLines (app w)
  /\ logs (app w') = logs (app w)
  /\ dataCache (app w') = dataCache (app w)
  /\ authToken (app w') = authToken (app w)
  /\ trace w' = trace w.
Proof. repeat split. Qed.

(** The promise of [safeFetch] is rejected by one outcome only: a response
    that is ok and whose body does not parse.  It is the only way into the
    [catch] block of [fetchData]. *)
Lemma safeFetch_rejected_iff (errorMessage : string) (o : FetchOutcome)
  (w : World) (message : string) :
  eval (safeFetch_settle errorMessage o) w = RejectedWith message
  <-> exists status, o = Ok status (SyntaxError message).
Proof.
  split.
  - destruct o as [msg | status [rows | msg] | status body]; cbn;
      try discriminate.
    + intros H. injection H as ->. now exists status.
    + destruct (status =? 204); [|destruct body]; discriminate.
  - intros (status & ->). reflexivity.
Qed.

Lemma merge_empty_main (c : FetchCall) (fl fp : list Obj) (w : World) :
  let w' := exec (fetchData_merge c [] fl fp) w in
  items (app w') = cachedData (dataCache (env c)) (cachedKey c)
  /\ dataCache (app w') !! cachedKey c = dataCache (app w) !! cachedKey c.
Proof.
  cbn zeta. rewrite merge_items, merge_dataCache. cbn [length Nat.ltb Nat.leb].
  rewrite andb_false_r. cbn [id]. split; [reflexivity|].
  destruct (shouldFetchProductLines c && _); cbn [id]; [|reflexivity].
  apply lookup_insert_ne. unfold cachedKey.
  pose proof (key_string_not_list (activeCollectionKey (env c))). congruence.
Qed.

Lemma merge_empty_productLines (c : FetchCall) (fi fl : list Obj) (w : World) :
  let w' := exec (fetchData_merge c fi fl []) w in
  allProductLines (app w') = cachedData (dataCache (env c)) productLinesList
  /\ dataCache (app w') !! productLinesList
     = dataCache (app w) !! productLinesList.
Proof.
  cbn zeta. rewrite merge_allProductLines, merge_dataCache.
  cbn [length Nat.ltb Nat.leb]. rewrite andb_false_r. cbn [id].
  split; [reflexivity|].
  destruct (shouldFetchMainData c && _); cbn [id]; [|reflexivity].
  apply lookup_insert_ne. apply key_string_not_list.
Qed.

(** C10, counterexample.  On the products tab, showing three products that
    are also in the cache, the user deletes the first one and the server
    answers 204.  [handleRequest] resets the cache entry and calls a resync
    (flight 0, with the snapshot of the click); the effect of the following
    render finds the entry empty and calls another (flight 1, whose
    snapshot holds the reset entry).  Flight 0 is answered with the two
    products left: they are shown and written to the cache.  Flight 1 is
    then answered 200 with an empty array: its merge falls back to the
    entry of its own snapshot, which is empty, and the view is set to no
    rows while the cache holds the two products.  The cache entry is not
    touched; the effect that runs after that render shows its rows again. *)
Lemma empty_answer_blanks_the_view_over_cached_rows :
  let shown := [Sample.record "1"; Sample.record "2"; Sample.record "3"] in
  let left := [Sample.record "2"; Sample.record "3"] in
  let cache :=
    <["products" := {| data := shown; timestamp := 9000 |}]> Sample.freshCache in
  let s :=
    run [(Request DELETE "/api/products/1" None noCallback, 10000);
         (Respond 0 Sample.noContent, 10100);
         (Arrive 0 SrcLogs (Sample.ok []), 10200);
         (Arrive 0 SrcProductLines (Sample.ok [Sample.record "line-1"]), 10201);
         (Arrive 0 SrcMain (Sample.ok left), 10202);
         (Arrive 1 SrcLogs (Sample.ok []), 10300);
         (Arrive 1 SrcProductLines (Sample.ok [Sample.record "line-1"]), 10301)]
      (Sample.idle (Sample.signedIn products shown [] cache)) in
  let t := handle (Arrive 1 SrcMain (Sample.ok [])) 10302 s in
  (fun f => cachedData (dataCache (env (call f))) (cachedKey (call f)))
    <$> flights s !! 1%nat = Some []
  /\ resumed <$> flights s !! 1%nat = Some false
  /\ items (app (world s)) = left
  /\ dataCache (app (world s)) !! "products"
     = Some {| data := left; timestamp := 10100 |}
  /\ items (app (world t)) = []
  /\ dataCache (app (world t)) !! "products"
     = Some {| data := left; timestamp := 10100 |}
  /\ items (app (world (render 10302 t))) = left.
Proof. vm_compute. repeat split. Qed.

(** C10, as amended.  A fetch that succeeds with an empty array is handed
    to the merge as the same value, [[]], as a fetch that failed (by a
    network error or a response that is not ok) and is merged alike: the
    view shows the data cached for the source in the snapshot of the call,
    and the cache entry of the source keeps its data and timestamp.  This
    holds for the primary source and for the product-lines list. *)
Theorem empty_result_merged_like_failure
  (c : FetchCall) (errorMessage : string) (status failedStatus : Z)
  (networkMessage : string) (errorBody : Parsed (option string))
  (fetchedItems fetchedLogs fetchedProductLines : list Obj) (w : World) :
  let empty := safeFetch_settle errorMessage (Ok status (Json [])) in
  eval empty w = Fulfilled []
  /\ exec empty w = w
  /\ eval (safeFetch_settle errorMessage (NetworkError networkMessage)) w
     = eval empty w
  /\ eval (safeFetch_settle errorMessage (NotOk failedStatus errorBody)) w
     = eval empty w
  /\ (let w' := exec (fetchData_merge c [] fetchedLogs fetchedProductLines) w in
      items (app w') = cachedData (dataCache (env c)) (cachedKey c)
      /\ dataCache (app w') !! cachedKey c = dataCache (app w) !! cachedKey c)
  /\ (let w' := exec (fetchData_merge c fetchedItems fetchedLogs []) w in
      allProductLines (app w')
      = cachedData (dataCache (env c)) productLinesList
      /\ dataCache (app w') !! productLinesList
         = dataCache (app w) !! productLinesList).
Proof.
  cbn zeta. split; [reflexivity|]. split; [reflexivity|].
  split; [apply (safeFetch_failure _ (NetworkError networkMessage)); reflexivity|].
  split; [apply (safeFetch_failure _ (NotOk failedStatus errorBody)); reflexivity|].
  split; [apply merge_empty_main | apply merge_empty_productLines].
Qed.

(** C5, counterexample.  With product lines and an audit log on screen the
    user opens the products tab for the first time; the three sources are
    fetched, the primary and the product-lines list answer, the audit log
    answers 500.  The log view, which held an entry, is now empty. *)
Lemma failed_audit_fetch_blanks_the_log :
  let s0 :=
    Sample.idle
      (Sample.signedIn product_lines [Sample.record "line-1"]
         [Sample.record "log-1"] Sample.linesOnlyCache) in
  let s :=
    run [(SwitchTab products, 2000);
         (Arrive 0 SrcMain (Sample.ok [Sample.record "product-1"]), 2100);
         (Arrive 0 SrcProductLines (Sample.ok [Sample.record "line-1"]), 2101);
         (Arrive 0 SrcLogs (NotOk 500 (Json (Some "Internal error"))), 2102)]
      s0 in
  logs (app (world s0)) = [Sample.record "log-1"]
  /\ (fun f => needed (call f) SrcLogs) <$> flights s !! 0%nat = Some true
  /\ resumed <$> flights s !! 0%nat = Some true
  /\ items (app (world s)) = [Sample.record "product-1"]
  /\ logs (app (world s)) = [].
Proof. vm_compute. repeat split. Qed.

(** C5, as amended.  A network failure or a response that is not ok
    degrades its own source alone: the promise of [safeFetch] is fulfilled
    with an empty result, the error is recorded in [apiError] and nothing
    else is written, so the results of the other sources are merged as
    usual.  In the merge an empty primary result, and likewise an empty
    product-lines result, falls back to the data cached for that source in
    the snapshot of the call and leaves its cache entry as it is.  The
    audit log has no cache to fall back to: when it was requested the log
    view is replaced by the result, empty after a failure. *)
Theorem failed_source_degrades_alone
  (c : FetchCall) (errorMessage : string) (o : FetchOutcome)
  (fetchedItems fetchedLogs fetchedProductLines : list Obj) (w : World) :
  isFailure o = true ->
  let w1 := exec (safeFetch_settle errorMessage o) w in
  eval (safeFetch_settle errorMessage o) w = Fulfilled []
  /\ is_Some (apiError (app w1))
  /\ items (app w1) = items (app w)
  /\ allProductLines (app w1) = allProductLines (app w)
  /\ logs (app w1) = logs (app w)
  /\ dataCache (app w1) = dataCache (app w)
  /\ authToken (app w1) = authToken (app w)
  /\ trace w1 = trace w
  /\ (let w2 := exec (fetchData_merge c [] fetchedLogs fetchedProductLines) w1 in
      items (app w2) = cachedData (dataCache (env c)) (cachedKey c)
      /\ dataCache (app w2) !! cachedKey c = dataCache (app w) !! cachedKey c
      /\ (fetchedProductLines <> [] ->
          allProductLines (app w2) = fetchedProductLines)
      /\ (needed c SrcLogs = true -> logs (app w2) = fetchedLogs))
  /\ (let w2 := exec (fetchData_merge c fetchedItems fetchedLogs []) w1 in
      allProductLines (app w2)
      = cachedData (dataCache (env c)) productLinesList
      /\ dataCache (app w2) !! productLinesList
         = dataCache (app w) !! productLinesList
      /\ (fetchedItems <> [] -> items (app w2) = fetchedItems))
  /\ (let w2 := exec (fetchData_merge c fetchedItems [] fetchedProductLines) w1 in
      logs (app w2) = if needed c SrcLogs then [] else logs (app w)).
Proof.
  intros Hfail w1.
  destruct (safeFetch_failure errorMessage o w Hfail) as (Hval & msg & Hw).
  subst w1. rewrite Hw.
  destruct (setApiError_frame (Some msg) w)
    as (Herr & Hi & Hp & Hl & Hc & Ht & Htr).
  cbn zeta in Herr, Hi, Hp, Hl, Hc, Ht, Htr.
  split; [exact Hval|].
  split; [rewrite Herr; eexists; reflexivity|].
  do 6 (split; [assumption|]).
  split; [|split].
  - destruct (merge_empty_main c fetchedLogs fetchedProductLines
                (exec (setApiError (Some msg)) w)) as (Hitems & Hcache).
    cbn zeta in Hitems, Hcache. rewrite Hc in Hcache.
    split; [exact Hitems|]. split; [exact Hcache|]. split.
    + intros Hne. rewrite merge_allProductLines.
      destruct fetchedProductLines; [congruence | reflexivity].
    + intros Hneed. rewrite merge_logs. cbn in Hneed. now rewrite Hneed.
  - destruct (merge_empty_productLines c fetchedItems fetchedLogs
                (exec (setApiError (Some msg)) w)) as (Hlines & Hcache).
    cbn zeta in Hlines, Hcache. rewrite Hc in Hcache.
    split; [exact Hlines|]. split; [exact Hcache|].
    intros Hne. rewrite merge_items.
    destruct fetchedItems; [congruence | reflexivity].
  - cbn zeta. rewrite merge_logs. cbn [needed]. now rewrite Hl.
Qed.

(** The primary fetch fails on the network, the product-lines list answers. *)
Lemma failed_source_degrades_alone_witness :
  let c := {| env := Sample.signedIn products [] [Sample.record "log-1"]
                       Sample.oldCache;
              isUserAction := true; currentTimestamp := 1000000 |} in
  let w := world (Sample.idle (env c)) in
  let w1 := exec (safeFetch_settle "Failed to fetch Products data."
                    (NetworkError "Failed to fetch")) w in
  eval (safeFetch_settle "Failed to fetch Products data."
          (NetworkError "Failed to fetch")) w = Fulfilled []
  /\ items (app (exec (fetchData_merge c [] [] [Sample.record "line-new"]) w1))
     = [Sample.record "product-old"]
  /\ allProductLines
       (app (exec (fetchData_merge c [] [] [Sample.record "line-new"]) w1))
     = [Sample.record "line-new"].
Proof.
  cbn zeta.
  pose proof (failed_source_degrades_alone
    {| env := Sample.signedIn products [] [Sample.record "log-1"]
                Sample.oldCache;
       isUserAction := true; currentTimestamp := 1000000 |}
    "Failed to fetch Products data." (NetworkError "Failed to fetch")
    [] [] [Sample.record "line-new"]
    (world (Sample.idle
              (Sample.signedIn products [] [Sample.record "log-1"]
                 Sample.oldCache)))
    eq_refl) as H.
  cbn zeta in H.
  destruct H as (Hval & _ & _ & _ & _ & _ & _ & _ & (Hitems & _ & Hlines & _) & _).
  split; [exact Hval|]. split; [exact Hitems|].
  apply Hlines. discriminate.
Defined.

(** ** Authentication failures *)

(** C2, the code at the failing input.  Right after login the first resync
    is answered 401 with the message "Invalid or expired token" by all three
    sources.  Each rejection is caught inside [safeFetch] and becomes an
    empty result, so [Promise.all] is fulfilled and the merge runs: the
    session is kept (token, no logout call, no logout request), the message
    shown is the raw one of the last failure and not the session-expired
    one, and the next render starts another resync.  The [catch] block that
    would tear the session down at this very message is never entered. *)
Theorem auth_rejection_is_not_escalated :
  let s :=
    run [(Render, 5000);
         (Arrive 0 SrcMain Sample.unauthorized, 5100);
         (Arrive 0 SrcLogs Sample.unauthorized, 5101)]
      Sample.justSignedIn in
  let t := handle (Arrive 0 SrcProductLines Sample.unauthorized) 5102 s in
  let t' := render 5102 t in
  (* the only flight is out with its three requests *)
  trace (world s)
  = [ACallFetchData true;
     AFetch "https://product-db-back.azurewebsites.net/api/product_lines";
     AFetch "https://product-db-back.azurewebsites.net/api/audit_logs";
     AFetch "https://product-db-back.azurewebsites.net/api/product_lines"]
  /\ resumed <$> flights s !! 0%nat = Some false
  (* after the last answer the merge has run and the session is intact *)
  /\ resumed <$> flights t !! 0%nat = Some true
  /\ authToken (app (world t)) = Some "token"
  /\ is_Some_b (userData (app (world t))) = true
  /\ List.existsb isLogoutCall (trace (world t)) = false
  /\ logouts t = 0%nat
  /\ apiError (app (world t)) = Some "Invalid or expired token"
  /\ items (app (world t)) = []
  (* and the client goes on fetching with the rejected token *)
  /\ authToken (app (world t')) = Some "token"
  /\ length (flights t') = 2%nat
  /\ List.existsb isLogoutCall (trace (world t')) = false
  (* whereas the catch block, had the rejection reached it, logs out *)
  /\ (forall (c : FetchCall) (w : World),
        let w' := exec (fetchData_rejected c "Invalid or expired token") w in
        List.existsb isLogoutCall (trace w') = true
        /\ apiError (app w')
           = Some "Session expired or API unreachable. Please log in again.").
Proof.
  cbn zeta. do 12 (split; [vm_compute; reflexivity|]).
  intros c w. unfold fetchData_rejected, fetchData_catch, handleLogout,
    handleLogout_teardown, fetchData_finally.
  change (includes "Invalid or expired token" "Failed to fetch"
          || includes "Invalid or expired token" "Invalid or expired token")
    with true.
  cbn iota.
  destruct w as [a tr d].
  destruct (tokenPresent (authToken (env c))),
    (isInitialLoad (env c) || isUserAction c);
    unfold_setters; run_handler; split_ifs;
    (split; [rewrite ?existsb_app; cbn; rewrite ?orb_true_r | ]; reflexivity).
Qed.

(** ** Mutations *)


Lemma exec_bind {A B} (m : M A) (f : A -> M B) (w : World) :
  exec (m ≫= f) w = exec (f (eval m w)) (exec m w).
Proof. unfold exec, eval, mbind, M_bind. destruct (m w). reflexivity. Qed.



Lemma successNotice_spec (r : RequestCall) (w : World) :
  exists notice,
    isNotice notice = true /\ exec (successNotice r) w = exec (emit notice) w.
Proof.
  unfold successNotice.
  destruct (method r); eexists; (split; [|reflexivity]); reflexivity.
Qed.


Lemma invalidate_lookup (key : CollectionKey) (prev : gmap string CacheEntry) :
  invalidate (key_string key) prev !! key_string key = Some emptyEntry
  /\ invalidate (key_string key) prev !! productLinesList = Some emptyEntry.
Proof.
  unfold invalidate. split.
  - rewrite lookup_insert_ne by
      (pose proof (key_string_not_list key); congruence).
    apply lookup_insert_eq.
  - apply lookup_insert_eq.
Qed.


(** C8, counterexample.  Three deletions on the products tab, each
    submitted while the loading flag is down, so with the controls enabled.
    The first succeeds; its resync (flight 0) is still out when the resync
    started by the next render (flight 1) completes.  The second deletion is
    sent; then flight 0 completes and its [finally] lowers the loading flag
    although the second deletion is still pending.  The third deletion is
    sent: two mutations of "products" are in flight together. *)
Lemma two_mutations_in_flight :
  let rows := [Sample.record "2"; Sample.record "3"] in
  let audit := [Sample.record "log-2"] in
  let lines := [Sample.record "line-1"] in
  let s1 :=
    run [(Request DELETE "/api/products/1" None noCallback, 10000);
         (Respond 0 Sample.noContent, 10100);
         (Arrive 1 SrcMain (Sample.ok rows), 10200);
         (Arrive 1 SrcLogs (Sample.ok audit), 10201);
         (Arrive 1 SrcProductLines (Sample.ok lines), 10202)]
      (Sample.idle
         (Sample.signedIn products
            [Sample.record "1"; Sample.record "2"; Sample.record "3"]
            [Sample.record "log-1"] Sample.freshCache)) in
  let s2 :=
    run [(Request DELETE "/api/products/2" None noCallback, 10300);
         (Arrive 0 SrcMain (Sample.ok rows), 10400);
         (Arrive 0 SrcLogs (Sample.ok audit), 10401);
         (Arrive 0 SrcProductLines (Sample.ok lines), 10402)] s1 in
  let s3 := step s2 (Request DELETE "/api/products/3" None noCallback, 10500) in
  let inFlight (s : Sys) :=
    List.map (fun r => (activeCollectionKey (renv r), path r))
      (pendingRequests s) in
  inFlight s1 = []
  /\ isLoading (app (world s1)) = false
  /\ inFlight s2 = [(products, "/api/products/2")]
  /\ isLoading (app (world s2)) = false
  /\ inFlight s3 = [(products, "/api/products/2"); (products, "/api/products/3")].
Proof. vm_compute. repeat split. Qed.

Lemma pendingRequests_app (s : Sys) (r : RequestCall) (w : World) :
  pendingRequests
    (mkSys w (flights s) (requests s ++ [(r, true)]) (logouts s))
  = (pendingRequests s ++ [r])%list.
Proof.
  unfold pendingRequests. cbn [requests].
  now rewrite List.filter_app, List.map_app.
Qed.

(** C8, as amended.  The gateway keeps no account of the requests in
    flight and rejects none.  Whenever a token is present, a call of
    [handleRequest] raises the loading flag and sends its request, whatever
    is pending: the new request joins those in flight, also when one of
    them acts on the same collection key. *)
Theorem request_sent_whatever_is_pending
  (s : Sys) (m : Method) (p : string) (body : option Obj) (callback : M unit)
  (now : Z) :
  tokenPresent (authToken (app (world s))) = true ->
  let s' := handle (Request m p body callback) now s in
  pendingRequests s'
  = (pendingRequests s
       ++ [{| renv := app (world s); method := m; path := p;
              successCallback := callback |}])%list
  /\ trace (world s')
     = (trace (world s)
          ++ [ARequest (method_string m) (BASE_API_URL ++ p) (encodeBody body)])%list
  /\ isLoading (app (world s')) = true.
Proof.
  intros Htoken. cbn zeta. unfold handle, handleRequest.
  rewrite Htoken. cbn [negb].
  set (r := {| renv := app (world s); method := m; path := p;
               successCallback := callback |}).
  set (a := ARequest (method_string m) (BASE_API_URL ++ p) (encodeBody body)).
  assert (Hrun :
    (setIsLoading true ;; setApiError None ;; emit a ;; mret (Some r)) (world s)
    = (Some r, exec (setIsLoading true ;; setApiError None ;; emit a) (world s))).
  { reflexivity. }
  rewrite Hrun. rewrite pendingRequests_app.
  split; [reflexivity|]. split; reflexivity.
Qed.

(** A second deletion sent while the first is pending. *)
Lemma request_sent_whatever_is_pending_witness :
  let s :=
    run [(Request DELETE "/api/products/1" None noCallback, 10000)]
      (Sample.idle
         (Sample.signedIn products [Sample.record "1"; Sample.record "2"] []
            Sample.freshCache)) in
  let s' := handle (Request DELETE "/api/products/2" None noCallback) 10050 s in
  length (pendingRequests s) = 1%nat
  /\ tokenPresent (authToken (app (world s))) = true
  /\ length (pendingRequests s') = 2%nat.
Proof.
  cbn zeta. split; [reflexivity|]. split; [reflexivity|].
  destruct (request_sent_whatever_is_pending
    (run [(Request DELETE "/api/products/1" None noCallback, 10000)]
       (Sample.idle
          (Sample.signedIn products [Sample.record "1"; Sample.record "2"] []
             Sample.freshCache)))
    DELETE "/api/products/2" None noCallback 10050 eq_refl) as (Hpending & _).
  cbn zeta in Hpending. rewrite Hpending. reflexivity.
Defined.

(** ** Objects and string lists *)

Section Objects.

Implicit Types (o : Obj) (k : string) (v : Value).

Lemma get_set_eq o k v : get (Js.set o k v) k = v.
Proof.
  induction o as [|[k' v'] o IH]; cbn.
  - now rewrite String.eqb_refl.
  - destruct (String.eqb k' k) eqn:E; cbn; rewrite E; [reflexivity | exact IH].
Qed.

Lemma get_set_ne o k k' v : k <> k' -> get (Js.set o k v) k' = get o k'.
Proof.
  intros Hne. induction o as [|[k0 v0] o IH]; cbn.
  - apply String.eqb_neq in Hne. now rewrite Hne.
  - destruct (String.eqb k0 k) eqn:E; cbn.
    + apply String.eqb_eq in E. subst k0.
      apply String.eqb_neq in Hne. now rewrite Hne.
    + destruct (String.eqb k0 k'); [reflexivity | exact IH].
Qed.

Lemma get_defined_in_keys o k : get o k <> VUndefined -> In k (keys o).
Proof.
  induction o as [|[k' v'] o IH]; cbn; [congruence|].
  destruct (String.eqb k' k) eqn:E.
  - apply String.eqb_eq in E. now left.
  - intros H. right. now apply IH.
Qed.

Lemma mem_In k (l : list string) : mem k l = true <-> In k l.
Proof.
  unfold mem. rewrite List.existsb_exists. split.
  - intros (x & Hx & E). apply String.eqb_eq in E. now subst.
  - intros H. exists k. split; [exact H | apply String.eqb_refl].
Qed.

Lemma isArray_elements v : isArray v = true -> v = VArr (elements v).
Proof. destruct v; (discriminate || reflexivity). Qed.

End Objects.

(** ** Attachments in the detail modal *)

(** C9.  On a field whose array holds no upload path and no [File],
    choosing one file and then removing entry 0 of the new files leaves the
    field with the empty array. *)
Theorem add_then_remove_local_restores_empty
  (formData : Obj) (field : string) (current : list Value) (f : File) :
  get formData field = VArr current ->
  List.filter isUploadPath current = [] ->
  List.filter isFile current = [] ->
  exists added,
    DetailModal.handleFileChange formData field (VArr [VFile f]) formData
    = Some added
    /\ get added field = VArr [VFile f]
    /\ get (DetailModal.handleRemoveFile added field 0 true added) field
       = VArr [].
Proof.
  intros Hget Hremote Hlocal.
  exists (Js.set formData field (VArr [VFile f])).
  unfold DetailModal.handleFileChange, DetailModal.handleRemoveFile.
  rewrite Hget, Hremote. cbn [List.filter isFile List.app app].
  split; [reflexivity|].
  rewrite !get_set_eq. split; [reflexivity|].
  cbn [elements List.filter isUploadPath isFile dropAt List.app app].
  reflexivity.
Qed.

(** A product line without attachments. *)
Lemma add_then_remove_local_restores_empty_witness :
  let formData := [("id", VStr "7"); ("attachments_raw", VArr [])] in
  let f := {| file_name := "plan.pdf"; file_bytes := [] |} in
  exists added,
    DetailModal.handleFileChange formData "attachments_raw" (VArr [VFile f])
      formData = Some added
    /\ get added "attachments_raw" = VArr [VFile f]
    /\ get (DetailModal.handleRemoveFile added "attachments_raw" 0 true added)
         "attachments_raw" = VArr [].
Proof.
  cbn zeta.
  apply (add_then_remove_local_restores_empty
           [("id", VStr "7"); ("attachments_raw", VArr [])] "attachments_raw"
           [] {| file_name := "plan.pdf"; file_bytes := [] |});
    reflexivity.
Defined.

(** ** The encoding of the request body *)

(** The two encodings of one payload, with and without a new file. *)
Example encodeBody_samples :
  let f := {| file_name := "plan.pdf"; file_bytes := [] |} in
  encodeBody
    (Some [("id", VStr "7"); ("name", VStr "Engine Line X");
           ("history", VNull);
           ("attachments_raw", VArr [VStr "uploads/old.pdf"; VFile f])])
  = Multipart
      [PartValue "name" (VStr "Engine Line X");
       PartValue "attachments_raw_retained" (VStr "uploads/old.pdf");
       PartFile "attachments_raw" f "plan.pdf"]
  /\ encodeBody
       (Some [("id", VStr "7"); ("name", VStr "Engine Line X");
              ("history", VNull);
              ("attachments_raw", VArr [VStr "uploads/old.pdf"])])
     = JsonBody
         (Some [("name", VStr "Engine Line X"); ("history", VNull);
                ("attachments_raw", VArr [VStr "uploads/old.pdf"])])
  /\ encodeBody None = JsonBody None.
Proof. vm_compute. repeat split. Qed.


Lemma someFile_spec (v : Value) :
  someFile v = true <-> exists l f, v = VArr l /\ In (VFile f) l.
Proof.
  split.
  - destruct v as [| | | | | |l]; try discriminate. cbn.
    rewrite List.existsb_exists. intros (x & Hx & Hfile).
    destruct x; try discriminate. eauto.
  - intros (l & f & -> & Hin). cbn. apply List.existsb_exists.
    exists (VFile f). split; [exact Hin | reflexivity].
Qed.

Lemma hasFile_spec (body : Obj) :
  hasFile (Some body) = true <-> hasLocalEntry body.
Proof.
  unfold hasFile, hasLocalEntry. rewrite List.existsb_exists. split.
  - intros (key & Hkey & Hsome). apply someFile_spec in Hsome.
    destruct Hsome as (l & f & Hget & Hin). eauto 6.
  - intros (key & l & f & Hkey & Hget & Hin). exists key. split; [exact Hkey|].
    apply someFile_spec. eauto.
Qed.

Lemma fileField_not_id (key : string) : In key fileFields -> key <> "id".
Proof. cbn. intros [<-|[<-|[]]]; discriminate. Qed.

Lemma appendKey_fileField (body : Obj) (key : string) (l : list Value) :
  In key fileFields -> get body key = VArr l ->
  appendKey body key = List.flat_map (appendFileOrPath key) l.
Proof.
  intros Hkey Hget. unfold appendKey.
  apply mem_In in Hkey. rewrite Hkey, Hget. reflexivity.
Qed.

Lemma formDataOf_fileField (body : Obj) (key : string) (l : list Value)
  (entry : Value) (part : Part) :
  In key fileFields -> get body key = VArr l -> In entry l ->
  In part (appendFileOrPath key entry) -> In part (formDataOf body).
Proof.
  intros Hkey Hget Hentry Hpart. unfold formDataOf.
  apply List.in_flat_map. exists key. split.
  - apply get_defined_in_keys. rewrite Hget. discriminate.
  - rewrite (appendKey_fileField body key l Hkey Hget).
    apply List.in_flat_map. eauto.
Qed.

Lemma formDataOf_file_origin (body : Obj) (k : string) (f : File) (n : string) :
  In (PartFile k f n) (formDataOf body) ->
  In k fileFields /\ n = file_name f
  /\ exists l, get body k = VArr l /\ In (VFile f) l.
Proof.
  unfold formDataOf. rewrite List.in_flat_map.
  intros (key & _ & Hpart). unfold appendKey in Hpart.
  destruct (mem key fileFields && isArray (get body key)) eqn:Hfile.
  - apply andb_true_iff in Hfile. destruct Hfile as [Hmem Harr].
    apply List.in_flat_map in Hpart. destruct Hpart as (entry & Hentry & Hpart).
    destruct entry as [| | | |p|f'|]; cbn in Hpart; try contradiction.
    + destruct (startsWith p "uploads/"); cbn in Hpart;
        [destruct Hpart as [H|[]]; discriminate | contradiction].
    + destruct Hpart as [H|[]]. injection H as -> -> <-.
      split; [now apply mem_In|]. split; [reflexivity|].
      exists (elements (get body k)). split; [now apply isArray_elements|].
      exact Hentry.
  - destruct (negb (mem key fileFields) && negb (isNull (get body key))
              && negb (String.eqb key "id")); cbn in Hpart;
      [destruct Hpart as [H|[]]; discriminate | contradiction].
Qed.

Lemma jsonStep_get (body acc : Obj) (k key : string) :
  key <> "id" ->
  get (jsonStep body acc k) key
  = if String.eqb k key then jsonValue body key else get acc key.
Proof.
  intros Hid. unfold jsonStep, jsonValue.
  destruct (String.eqb k key) eqn:E.
  - apply String.eqb_eq in E. subst k.
    apply String.eqb_neq in Hid. rewrite Hid. cbn [negb].
    destruct (mem key fileFields && isArray (get body key));
      apply get_set_eq.
  - apply String.eqb_neq in E.
    destruct (negb (String.eqb k "id")); [|reflexivity].
    destruct (mem k fileFields && isArray (get body k));
      now apply get_set_ne.
Qed.

Lemma jsonFold_get (body : Obj) (ks : list string) (acc : Obj) (key : string) :
  key <> "id" ->
  get (List.fold_left (jsonStep body) ks acc) key
  = if mem key ks then jsonValue body key else get acc key.
Proof.
  intros Hid. revert acc.
  induction ks as [|k ks IH]; intros acc; cbn [List.fold_left]; [reflexivity|].
  rewrite IH, jsonStep_get by exact Hid.
  unfold mem. cbn [List.existsb]. rewrite (String.eqb_sym key k).
  destruct (String.eqb k key); cbn [orb]; [|reflexivity].
  now destruct (List.existsb (String.eqb key) ks).
Qed.

Lemma filter_isUploadPath_paths (l : list Value) :
  Forall (fun v => exists p, v = VStr p /\ startsWith p "uploads/" = true)
    (List.filter isUploadPath l).
Proof.
  apply List.Forall_forall. intros v Hv.
  apply List.filter_In in Hv. destruct Hv as [_ Hv].
  destruct v; try discriminate. eauto.
Qed.

(** C6.  If some attachment field of the payload holds a [File], the body
    is a multipart form: every [File] of an attachment field is a binary
    part under the field's name, every upload path is a part under the
    field's name followed by "_retained", and no other binary part exists.
    If no attachment field holds a [File], the body is JSON and every
    attachment field carries exactly its upload paths, all plain strings. *)
Theorem payload_encoding (body : Obj) :
  (forall e m p callback w,
     tokenPresent (authToken e) = true ->
     trace (exec (handleRequest e m p (Some body) callback) w)
     = (trace w
          ++ [ARequest (method_string m) (BASE_API_URL ++ p)
                (encodeBody (Some body))])%list)
  /\ (hasLocalEntry body ->
   exists parts,
     encodeBody (Some body) = Multipart parts
     /\ (forall key l f,
           In key fileFields -> get body key = VArr l -> In (VFile f) l ->
           In (PartFile key f (file_name f)) parts)
     /\ (forall key l p,
           In key fileFields -> get body key = VArr l -> In (VStr p) l ->
           startsWith p "uploads/" = true ->
           In (PartValue (key ++ "_retained") (VStr p)) parts)
     /\ (forall k f n,
           In (PartFile k f n) parts ->
           In k fileFields /\ n = file_name f
           /\ exists l, get body k = VArr l /\ In (VFile f) l))
  /\ (~ hasLocalEntry body ->
      exists jsonBody,
        encodeBody (Some body) = JsonBody (Some jsonBody)
        /\ forall key l,
            In key fileFields -> get body key = VArr l ->
            get jsonBody key = VArr (List.filter isUploadPath l)
            /\ Forall (fun v => exists p,
                         v = VStr p /\ startsWith p "uploads/" = true)
                 (List.filter isUploadPath l)).
Proof.
  split; [|split].
  - intros e m p callback w Htoken. unfold handleRequest.
    rewrite Htoken. reflexivity.
  - intros Hlocal. apply hasFile_spec in Hlocal.
    exists (formDataOf body). unfold encodeBody. rewrite Hlocal.
    split; [reflexivity|]. split; [|split].
    + intros key l f Hkey Hget Hin.
      apply (formDataOf_fileField body key l (VFile f)); auto. now left.
    + intros key l p Hkey Hget Hin Hprefix.
      apply (formDataOf_fileField body key l (VStr p)); auto.
      cbn. rewrite Hprefix. now left.
    + apply formDataOf_file_origin.
  - intros Hnone.
    assert (Hfile : hasFile (Some body) = false).
    { destruct (hasFile (Some body)) eqn:E; [|reflexivity].
      apply hasFile_spec in E. contradiction. }
    exists (jsonBodyOf body). unfold encodeBody. rewrite Hfile.
    split; [reflexivity|].
    intros key l Hkey Hget. split; [|apply filter_isUploadPath_paths].
    unfold jsonBodyOf. rewrite jsonFold_get by now apply fileField_not_id.
    assert (Hin : mem key (keys body) = true).
    { apply mem_In, get_defined_in_keys. rewrite Hget. discriminate. }
    rewrite Hin. unfold jsonValue.
    apply mem_In in Hkey. rewrite Hkey, Hget. reflexivity.
Qed.

(** A payload with one stored attachment and one new file. *)
Lemma payload_encoding_witness :
  let f := {| file_name := "plan.pdf"; file_bytes := [] |} in
  let body :=
    [("name", VStr "Engine Line X");
     ("attachments_raw", VArr [VStr "uploads/old.pdf"; VFile f])] in
  hasLocalEntry body
  /\ exists parts,
      encodeBody (Some body) = Multipart parts
      /\ In (PartFile "attachments_raw" f "plan.pdf") parts
      /\ In (PartValue "attachments_raw_retained" (VStr "uploads/old.pdf"))
           parts.
Proof.
  cbn zeta.
  set (f := {| file_name := "plan.pdf"; file_bytes := [] |}).
  set (body := [("name", VStr "Engine Line X");
                ("attachments_raw", VArr [VStr "uploads/old.pdf"; VFile f])]).
  assert (Hlocal : hasLocalEntry body).
  { exists "attachments_raw", [VStr "uploads/old.pdf"; VFile f], f.
    split; [now left|]. split; [reflexivity | right; now left]. }
  split; [exact Hlocal|].
  destruct (payload_encoding body) as (_ & Hmulti & _).
  destruct (Hmulti Hlocal) as (parts & Henc & Hfiles & Hpaths & _).
  exists parts. split; [exact Henc|]. split.
  - apply (Hfiles "attachments_raw" [VStr "uploads/old.pdf"; VFile f] f);
      [now left | reflexivity | right; now left].
  - apply (Hpaths "attachments_raw" [VStr "uploads/old.pdf"; VFile f]
             "uploads/old.pdf"); [now left | reflexivity | now left | reflexivity].
Defined.

(** ** Validation of a new item *)



(** No collection requires the exempt field. *)
Lemma required_not_exempt (key : CollectionKey) (field : string) :
  In field (requiredFields (initialCollections key)) -> exempt key field = false.
Proof.
  destruct key; cbn; intros H;
    repeat (destruct H as [<-|H]; [reflexivity|]); contradiction.
Qed.

(** A form with its required fields filled in is sent as a POST. *)
Example create_complete_form_is_sent :
  let e := Sample.signedIn products [] [] Sample.freshCache in
  let form :=
    [("product_name", VStr "Sensor A1"); ("product_line", VStr "Engine Line X");
     ("created_by", VStr "me"); ("product_pictures", VArr [])] in
  let filled :=
    mkApp (authToken e) (userData e) (isInitialLoad e) (items e)
      (allProductLines e) (logs e) (activeCollectionKey e) form (isLoading e)
      (apiError e) (dataCache e) (isModalOpen e) (modalData e)
      (isFormVisible e) in
  trace (exec (handleCreate (fun v => v) filled) (world (Sample.idle filled)))
  = [ARequest "POST" "https://product-db-back.azurewebsites.net/api/products"
       (JsonBody
          (Some [("product_name", VStr "Sensor A1");
                 ("product_line", VStr "Engine Line X");
                 ("product_pictures", VArr [])]))].
Proof. vm_compute. reflexivity. Qed.



(** * Further properties of the code *)

(** ** The synchronous part of [fetchData] *)

Lemma hasSession_guard (e : AppState) :
  hasSession e = true ->
  negb (tokenPresent (authToken e)) || negb (is_Some_b (userData e)) = false.
Proof.
  unfold hasSession. intros H. apply andb_true_iff in H. destruct H as [-> ->].
  reflexivity.
Qed.

Lemma noSession_guard (e : AppState) :
  hasSession e = false ->
  negb (tokenPresent (authToken e)) || negb (is_Some_b (userData e)) = true.
Proof.
  unfold hasSession. intros H. apply andb_false_iff in H.
  destruct H as [-> | ->]; [reflexivity | apply orb_true_r].
Qed.

(** What a call with a session does before it suspends, in terms of the
    sources it needs. *)
Lemma fetchData_call_spec (e : AppState) (userAction : bool) (now : Z)
  (w : World) :
  hasSession e = true ->
  let c := {| env := e; isUserAction := userAction; currentTimestamp := now |} in
  let w' := exec (fetchData e userAction now) w in
  eval (fetchData e userAction now) w = Some c
  /\ trace w'
     = (trace w ++ [ACallFetchData userAction]
          ++ (if needed c SrcMain then [AFetch (sourceUrl c SrcMain)] else [])
          ++ (if needed c SrcLogs then [AFetch (sourceUrl c SrcLogs)] else [])
          ++ (if needed c SrcProductLines
              then [AFetch (sourceUrl c SrcProductLines)] else []))%list
  /\ isLoading (app w')
     = (if isInitialLoad e || userAction then true else isLoading (app w))
  /\ apiError (app w') = None
  /\ dataCache (app w') = dataCache (app w)
  /\ items (app w') = items (app w)
  /\ logs (app w') = logs (app w)
  /\ depsChanged w' = depsChanged w.
Proof.
  intros Hsession c w'. subst w'. unfold fetchData.
  rewrite (hasSession_guard e Hsession). fold c.
  unfold safeFetch_call.
  generalize (sourceUrl c SrcMain), (sourceUrl c SrcLogs),
    (sourceUrl c SrcProductLines).
  intros u1 u2 u3.
  destruct w as [a tr d].
  destruct (needed c SrcMain), (needed c SrcLogs), (needed c SrcProductLines),
    (isInitialLoad e || userAction);
    unfold_setters; run_handler; rewrite <- ?app_assoc; repeat split.
Qed.

Lemma eval_bind_exec {A B} (m : M A) (f : A -> M B) (w : World) :
  eval (m ≫= f) w = eval (f (eval m w)) (exec m w).
Proof. unfold exec, eval, mbind, M_bind. destruct (m w). reflexivity. Qed.

(** A user-action call with a session: what it returns, sends and raises. *)
Lemma user_action_call_spec
  (e : AppState) (now : Z) (w : World) :
  hasSession e = true ->
  let c := {| env := e; isUserAction := true; currentTimestamp := now |} in
  let w' := exec (fetchData e true now) w in
  eval (fetchData e true now) w = Some c
  /\ trace w' = (trace w ++ ACallFetchData true :: allRequests c)%list
  /\ isLoading (app w') = true
  /\ items (app w') = items (app w).
Proof.
  intros Hsession c w'.
  destruct (fetchData_call_spec e true now w Hsession)
    as (Hval & Htrace & Hload & _ & _ & Hitems & _).
  cbn zeta in Hval, Htrace, Hload, Hitems. fold c in Hval, Htrace.
  assert (Hneed : forall src, needed c src = true) by (intros []; reflexivity).
  rewrite !Hneed in Htrace. rewrite orb_true_r in Hload.
  repeat split; assumption.
Qed.

(** X1.  A resync called as a user action fetches the three sources
    whatever the cache holds: it raises the loading flag, clears the error,
    sends the three requests in the order primary, audit log, product lines,
    and no promise of the call is served from the cache. *)
Theorem user_action_resync_fetches_every_source
  (e : AppState) (now : Z) (w : World) :
  hasSession e = true ->
  let c := {| env := e; isUserAction := true; currentTimestamp := now |} in
  let w' := exec (fetchData e true now) w in
  eval (fetchData e true now) w = Some c
  /\ trace w' = (trace w ++ ACallFetchData true :: allRequests c)%list
  /\ isLoading (app w') = true
  /\ apiError (app w') = None
  /\ (forall src, initialPromise c src = None).
Proof.
  intros Hsession c w'.
  destruct (fetchData_call_spec e true now w Hsession)
    as (Hval & Htrace & Hload & Herr & _).
  cbn zeta in Hval, Htrace, Hload, Herr. fold c in Hval, Htrace.
  assert (Hneed : forall src, needed c src = true) by (intros []; reflexivity).
  rewrite !Hneed in Htrace. rewrite orb_true_r in Hload.
  split; [exact Hval|]. split; [exact Htrace|]. split; [exact Hload|].
  split; [exact Herr|].
  intros src. unfold initialPromise. now rewrite Hneed.
Qed.

(** A signed-in session on the products tab. *)
Lemma user_action_resync_fetches_every_source_witness :
  let e := Sample.signedIn products [] [] Sample.freshCache in
  let w := world (Sample.idle e) in
  hasSession e = true
  /\ trace (exec (fetchData e true 9500) w)
     = [ACallFetchData true;
        AFetch "https://product-db-back.azurewebsites.net/api/products";
        AFetch "https://product-db-back.azurewebsites.net/api/audit_logs";
        AFetch "https://product-db-back.azurewebsites.net/api/product_lines"].
Proof.
  cbn zeta. split; [reflexivity|].
  destruct (user_action_resync_fetches_every_source
              (Sample.signedIn products [] [] Sample.freshCache) 9500
              (world (Sample.idle
                        (Sample.signedIn products [] [] Sample.freshCache)))
              eq_refl) as (_ & Htrace & _).
  cbn zeta in Htrace. rewrite Htrace. reflexivity.
Defined.

(** ** The continuation of [fetchData]: flags *)

Lemma merge_flags (c : FetchCall) (w : World) (fi fl fp : list Obj) :
  let w' := exec (fetchData_merge c fi fl fp) w in
  isLoading (app w') = isLoading (app w)
  /\ isInitialLoad (app w') = isInitialLoad (app w)
  /\ depsChanged w'
     = (depsChanged w
        || (shouldFetchMainData c && (0 <? length fi)%nat)
        || (shouldFetchProductLines c && (0 <? length fp)%nat)
        || (shouldFetchLogs c || isInitialLoad (env c))).
Proof.
  cbn zeta. unfold fetchData_merge. destruct w as [a tr d].
  unfold_setters. run_handler.
  destruct d; split_ifs; repeat split.
Qed.

Lemma finally_flags (c : FetchCall) (w : World) :
  let w' := exec (fetchData_finally c) w in
  isLoading (app w')
  = (if isInitialLoad (env c) || isUserAction c then false
     else isLoading (app w))
  /\ isInitialLoad (app w')
     = (if isInitialLoad (env c) || isUserAction c then false
        else isInitialLoad (app w))
  /\ depsChanged w'
     = (depsChanged w
        || ((isInitialLoad (env c) || isUserAction c) && isInitialLoad (app w))).
Proof.
  cbn zeta. unfold fetchData_finally. destruct w as [a tr d].
  destruct (isInitialLoad (env c) || isUserAction c);
    unfold_setters; run_handler;
    destruct d, (isInitialLoad a) eqn:E; cbn; rewrite ?E; cbn; repeat split.
Qed.

Lemma exec_bind_ret {A} (m : M A) (n : M unit) (w : World) :
  exec (x ← m; n ;; mret x) w = exec n (exec m w).
Proof. now rewrite !exec_bind. Qed.

Lemma rejected_exec (c : FetchCall) (message : string) (w : World) :
  exec (fetchData_rejected c message) w
  = exec (fetchData_finally c) (exec (fetchData_catch c message) w).
Proof. unfold fetchData_rejected. apply exec_bind_ret. Qed.

(** The [catch] block never touches the flags; with a token in the
    snapshot the logout it may start only sends its request, so the view,
    the cache and the session are as they were. *)
Lemma catch_frame (c : FetchCall) (message : string) (w : World) :
  let w' := exec (fetchData_catch c message) w in
  isLoading (app w') = isLoading (app w)
  /\ isInitialLoad (app w') = isInitialLoad (app w)
  /\ (exists shown, apiError (app w') = Some shown)
  /\ (tokenPresent (authToken (env c)) = true ->
      items (app w') = items (app w)
      /\ allProductLines (app w') = allProductLines (app w)
      /\ logs (app w') = logs (app w)
      /\ dataCache (app w') = dataCache (app w)
      /\ authToken (app w') = authToken (app w)
      /\ userData (app w') = userData (app w)
      /\ depsChanged w' = depsChanged w).
Proof.
  cbn zeta. unfold fetchData_catch, handleLogout, handleLogout_teardown.
  destruct w as [a tr d].
  destruct (includes message "Failed to fetch"
            || includes message "Invalid or expired token");
    destruct (tokenPresent (authToken (env c)));
    unfold_setters; run_handler; split_ifs;
    (split; [reflexivity|]); (split; [reflexivity|]);
    (split; [eexists; reflexivity|]);
    intros H; try discriminate; repeat split.
Qed.

(** X2.  The loading flag follows the trigger.  A call with a session
    raises it exactly when it is the initial load or a user action, and in
    that case the continuation lowers it whether the fetches were merged or
    the [catch] block ran; a background resync leaves the flag as it finds
    it on every path.  A call without a session only lowers it. *)
Theorem loading_flag_follows_the_trigger
  (c : FetchCall) (w : World) (fi fl fp : list Obj) (message : string) :
  let raised := isInitialLoad (env c) || isUserAction c in
  let after := if raised then false else isLoading (app w) in
  isLoading (app (exec (fetchData_fulfilled c fi fl fp) w)) = after
  /\ isLoading (app (exec (fetchData_rejected c message) w)) = after
  /\ (hasSession (env c) = true ->
      isLoading
        (app (exec (fetchData (env c) (isUserAction c) (currentTimestamp c)) w))
      = (if raised then true else isLoading (app w)))
  /\ (hasSession (env c) = false ->
      isLoading
        (app (exec (fetchData (env c) (isUserAction c) (currentTimestamp c)) w))
      = false
      /\ eval (fetchData (env c) (isUserAction c) (currentTimestamp c)) w = None).
Proof.
  cbn zeta. split; [|split; [|split]].
  - rewrite fulfilled_exec.
    destruct (finally_flags c (exec (fetchData_merge c fi fl fp) w)) as (H & _).
    cbn zeta in H. rewrite H.
    destruct (merge_flags c w fi fl fp) as (Hm & _). cbn zeta in Hm.
    now rewrite Hm.
  - rewrite rejected_exec.
    destruct (finally_flags c (exec (fetchData_catch c message) w)) as (H & _).
    cbn zeta in H. rewrite H.
    destruct (catch_frame c message w) as (Hc & _). cbn zeta in Hc.
    now rewrite Hc.
  - intros Hsession.
    destruct (fetchData_call_spec (env c) (isUserAction c) (currentTimestamp c)
                w Hsession) as (_ & _ & H & _).
    exact H.
  - intros Hnone. unfold fetchData.
    rewrite (noSession_guard _ Hnone). split; reflexivity.
Qed.

(** A user action pending on the products tab, and a signed-out state. *)
Lemma loading_flag_follows_the_trigger_witness :
  let e := Sample.signedIn products [] [] Sample.freshCache in
  let c := {| env := e; isUserAction := true; currentTimestamp := 9500 |} in
  let w := world (Sample.idle e) in
  hasSession e = true
  /\ isLoading (app (exec (fetchData e true 9500) w)) = true
  /\ isLoading (app (exec (fetchData_fulfilled c [] [] [])
                       (exec (fetchData e true 9500) w))) = false.
Proof.
  cbn zeta. split; [reflexivity|].
  set (e := Sample.signedIn products [] [] Sample.freshCache).
  set (c := {| env := e; isUserAction := true; currentTimestamp := 9500 |}).
  destruct (loading_flag_follows_the_trigger c (world (Sample.idle e))
              [] [] [] "") as (_ & _ & Hcall & _).
  destruct (loading_flag_follows_the_trigger c
              (exec (fetchData e true 9500) (world (Sample.idle e)))
              [] [] [] "") as (Hdone & _).
  split; [exact (Hcall eq_refl) | exact Hdone].
Defined.

(** ** Resyncs served from the cache *)

Lemma resume_launch_offline (c : FetchCall) (w : World) :
  (forall src, needed c src = false) ->
  resume (launch c) w
  = ((markResumed (launch c), false),
     exec (fetchData_fulfilled c (resolvedFromCache c SrcMain)
             (resolvedFromCache c SrcLogs)
             (resolvedFromCache c SrcProductLines)) w).
Proof.
  intros Hneed. unfold launch, initialPromise. rewrite !Hneed.
  unfold resume.
  cbn [resumed itemsPromise logsPromise productLinesPromise call].
  unfold exec, mbind, M_bind.
  destruct (fetchData_fulfilled c _ _ _ w) as [[] w']. reflexivity.
Qed.

(** X3.  After the initial load, a resync that is not a user action and
    finds both cache entries within their time to live sends no request:
    its promises are all served from the snapshot, so it resumes in the
    same task, shows the cached rows and product lines, and leaves the
    cache, the audit log, the loading flag and the effect's dependencies as
    they were. *)
Theorem fresh_background_resync_stays_offline
  (e : AppState) (now : Z) (w : World) :
  hasSession e = true ->
  isInitialLoad e = false ->
  expired (dataCache e) (key_string (activeCollectionKey e)) now = false ->
  expired (dataCache e) productLinesList now = false ->
  let c := {| env := e; isUserAction := false; currentTimestamp := now |} in
  let w1 := exec (fetchData e false now) w in
  let w2 := exec (resume (launch c)) w1 in
  eval (fetchData e false now) w = Some c
  /\ trace w1 = (trace w ++ [ACallFetchData false])%list
  /\ eval (resume (launch c)) w1 = (markResumed (launch c), false)
  /\ trace w2 = trace w1
  /\ items (app w2)
     = cachedData (dataCache e) (key_string (activeCollectionKey e))
  /\ allProductLines (app w2) = cachedData (dataCache e) productLinesList
  /\ logs (app w2) = logs (app w)
  /\ dataCache (app w2) = dataCache (app w)
  /\ isLoading (app w2) = isLoading (app w)
  /\ depsChanged w2 = depsChanged w.
Proof.
  intros Hsession Hinit Hmain Hlist c w1 w2.
  assert (Hneed : forall src, needed c src = false).
  { intros []; cbn; unfold shouldFetchMainData, shouldFetchProductLines,
      shouldFetchLogs, cachedKey; cbn; rewrite ?Hmain, ?Hlist, ?Hinit;
      reflexivity. }
  assert (HsM : shouldFetchMainData c = false) by apply (Hneed SrcMain).
  assert (HsP : shouldFetchProductLines c = false)
    by apply (Hneed SrcProductLines).
  assert (HsL : shouldFetchLogs c || isInitialLoad (env c) = false)
    by apply (Hneed SrcLogs).
  destruct (fetchData_call_spec e false now w Hsession)
    as (Hval & Htrace & Hload & _ & Hcache & _ & Hlogs & Hdeps).
  cbn zeta in Hval, Htrace, Hload, Hcache, Hlogs, Hdeps.
  fold c in Hval, Htrace. fold w1 in Htrace, Hload, Hcache, Hlogs, Hdeps.
  rewrite !Hneed in Htrace. rewrite Hinit in Hload. cbn in Htrace, Hload.
  set (fi := resolvedFromCache c SrcMain).
  set (fl := resolvedFromCache c SrcLogs).
  set (fp := resolvedFromCache c SrcProductLines).
  assert (Hev : eval (resume (launch c)) w1 = (markResumed (launch c), false)).
  { unfold eval. now rewrite (resume_launch_offline c w1 Hneed). }
  assert (Hw2 : w2 = exec (fetchData_finally c)
                       (exec (fetchData_merge c fi fl fp) w1)).
  { subst w2. unfold exec at 1.
    rewrite (resume_launch_offline c w1 Hneed). apply fulfilled_exec. }
  clearbody w2. subst w2.
  destruct (finally_frame c (exec (fetchData_merge c fi fl fp) w1))
    as (Fi & Fp & Fl & Fc & _ & _ & _ & Ft).
  destruct (finally_flags c (exec (fetchData_merge c fi fl fp) w1))
    as (Gl & _ & Gd).
  destruct (merge_flags c w1 fi fl fp) as (Ml & Mi & Md).
  destruct (merge_frame c fi fl fp w1) as (_ & _ & _ & _ & Mt).
  cbn zeta in Fi, Fp, Fl, Fc, Ft, Gl, Gd, Ml, Mi, Md, Mt.
  assert (Hraise : isInitialLoad (env c) || isUserAction c = false)
    by (cbn; now rewrite Hinit).
  rewrite Hraise in Gl, Gd. cbn [andb] in Gd. rewrite orb_false_r in Gd.
  rewrite HsM, HsP, HsL in Md. cbn [andb] in Md. rewrite !orb_false_r in Md.
  split; [exact Hval|]. split; [exact Htrace|]. split; [exact Hev|].
  split; [now rewrite Ft, Mt|].
  split.
  { rewrite Fi, merge_items. subst fi. cbn [resolvedFromCache].
    now destruct (0 <? length _)%nat. }
  split.
  { rewrite Fp, merge_allProductLines. subst fp. cbn [resolvedFromCache].
    now destruct (0 <? length _)%nat. }
  split; [rewrite Fl, merge_logs, HsL; exact Hlogs|].
  split; [rewrite Fc, merge_dataCache, HsM, HsP; exact Hcache|].
  split; [rewrite Gl, Ml; exact Hload|].
  rewrite Gd, Md. exact Hdeps.
Qed.

(** Everything was loaded half a second ago. *)
Lemma fresh_background_resync_stays_offline_witness :
  let e := Sample.signedIn products [Sample.record "product-1"] []
             Sample.freshCache in
  let c := {| env := e; isUserAction := false; currentTimestamp := 9500 |} in
  let w := world (Sample.idle e) in
  hasSession e = true
  /\ expired (dataCache e) "products" 9500 = false
  /\ trace (exec (fetchData e false 9500) w) = [ACallFetchData false]
  /\ items (app (exec (resume (launch c)) (exec (fetchData e false 9500) w)))
     = [Sample.record "product-1"].
Proof.
  cbn zeta. split; [reflexivity|]. split; [reflexivity|].
  destruct (fresh_background_resync_stays_offline
              (Sample.signedIn products [Sample.record "product-1"] []
                 Sample.freshCache) 9500
              (world (Sample.idle
                        (Sample.signedIn products [Sample.record "product-1"]
                           [] Sample.freshCache))))
    as (_ & Htrace & _ & _ & Hitems & _); try reflexivity.
  split; [exact Htrace | exact Hitems].
Defined.

(** ** The collection-switch effect *)

(** X4.  When the effect runs with a session, it resets the new-item form
    and hides it.  If the cache holds rows for the active key it shows them
    at once and calls a background resync, which raises the loading flag
    only during the initial load; if it holds none it leaves the items as
    they are and calls a user-action resync, which raises the flag and
    fetches the three sources. *)
Theorem effect_shows_cached_rows_or_forces_a_fetch
  (e : AppState) (now : Z) (w : World) :
  hasSession e = true ->
  let rows := cachedData (dataCache e) (key_string (activeCollectionKey e)) in
  let w' := exec (switchEffect e now) w in
  newItemData (app w')
  = defaultValues (initialCollections (activeCollectionKey e))
  /\ isFormVisible (app w') = false
  /\ (rows <> [] ->
      items (app w') = rows
      /\ eval (switchEffect e now) w
         = Some {| env := e; isUserAction := false; currentTimestamp := now |}
      /\ isLoading (app w')
         = (if isInitialLoad e then true else isLoading (app w)))
  /\ (rows = [] ->
      items (app w') = items (app w)
      /\ eval (switchEffect e now) w
         = Some {| env := e; isUserAction := true; currentTimestamp := now |}
      /\ isLoading (app w') = true
      /\ trace w'
         = (trace w
              ++ ACallFetchData true
                 :: allRequests {| env := e; isUserAction := true;
                                   currentTimestamp := now |})%list).
Proof.
  intros Hsession rows w'. subst w'. unfold switchEffect. fold rows.
  set (w0 := exec (setNewItemData
                     (defaultValues (initialCollections (activeCollectionKey e))))
               w).
  set (w1 := exec (setIsFormVisible false) w0).
  assert (Hform : forall (ua : bool) (wa : World),
    newItemData (app (exec (fetchData e ua now) wa)) = newItemData (app wa)
    /\ isFormVisible (app (exec (fetchData e ua now) wa))
       = isFormVisible (app wa)).
  { intros ua [a tr d]. unfold fetchData.
    rewrite (hasSession_guard e Hsession). unfold safeFetch_call.
    destruct (isInitialLoad e || ua);
      generalize (needed {| env := e; isUserAction := ua;
                            currentTimestamp := now |});
      intros n; destruct (n SrcMain), (n SrcLogs), (n SrcProductLines);
      split; reflexivity. }
  destruct (0 <? length rows)%nat eqn:Hlen.
  - rewrite !exec_bind, !eval_bind_exec.
    fold w0. fold w1.
    set (w2 := exec (setItems rows) w1).
    destruct (Hform false w2) as [Hn Hv].
    destruct (fetchData_call_spec e false now w2 Hsession)
      as (Hval & _ & Hload & _ & _ & Hitems & _).
    cbn zeta in Hval, Hload, Hitems.
    split; [rewrite Hn; reflexivity|]. split; [rewrite Hv; reflexivity|].
    split.
    + intros _. split; [rewrite Hitems; reflexivity|].
      split; [exact Hval|].
      rewrite Hload, orb_false_r. reflexivity.
    + intros Hnil. rewrite Hnil in Hlen. discriminate.
  - rewrite !exec_bind, !eval_bind_exec.
    fold w0. fold w1.
    destruct (Hform true w1) as [Hn Hv].
    destruct (user_action_call_spec e now w1 Hsession)
      as (Hval & Htrace & Hload & Hitems).
    split; [rewrite Hn; reflexivity|]. split; [rewrite Hv; reflexivity|].
    split.
    + intros Hne. destruct rows; [congruence | discriminate].
    + intros _. split; [rewrite Hitems; reflexivity|].
      split; [exact Hval|]. split; [exact Hload|]. exact Htrace.
Qed.

(** Opening the products tab for the first time, product lines cached. *)
Lemma effect_shows_cached_rows_or_forces_a_fetch_witness :
  let e := Sample.signedIn products [Sample.record "line-1"] []
             Sample.linesOnlyCache in
  let w := world (Sample.idle e) in
  hasSession e = true
  /\ cachedData (dataCache e) "products" = []
  /\ items (app (exec (switchEffect e 2000) w)) = [Sample.record "line-1"]
  /\ isLoading (app (exec (switchEffect e 2000) w)) = true.
Proof.
  cbn zeta. split; [reflexivity|]. split; [reflexivity|].
  destruct (effect_shows_cached_rows_or_forces_a_fetch
              (Sample.signedIn products [Sample.record "line-1"] []
                 Sample.linesOnlyCache) 2000
              (world (Sample.idle
                        (Sample.signedIn products [Sample.record "line-1"] []
                           Sample.linesOnlyCache))) eq_refl)
    as (_ & _ & _ & Hempty).
  destruct (Hempty eq_refl) as (Hitems & _ & Hload & _).
  split; [exact Hitems | exact Hload].
Defined.

(** ** Logout *)

Lemma teardown_spec (w : World) :
  let w1 := exec handleLogout_teardown w in
  authToken (app w1) = None
  /\ userData (app w1) = None
  /\ items (app w1) = []
  /\ logs (app w1) = []
  /\ dataCache (app w1) = initialDataCache
  /\ allProductLines (app w1) = allProductLines (app w)
  /\ trace w1
     = (trace w ++ [AStorageRemove "authToken"; AStorageRemove "userData"])%list
  /\ depsChanged w1 = true.
Proof.
  cbn zeta. destruct w as [a tr d].
  unfold handleLogout_teardown. unfold_setters.
  generalize initialDataCache. intros cache0.
  run_handler. split_ifs; rewrite <- ?app_assoc; repeat split.
Qed.

Lemma fetchData_without_session (e : AppState) (ua : bool) (now : Z)
  (w : World) :
  hasSession e = false ->
  fetchData e ua now w
  = (None, exec (setIsLoading false) (exec (emit (ACallFetchData ua)) w)).
Proof.
  intros Hnone. unfold fetchData. rewrite (noSession_guard e Hnone).
  reflexivity.
Qed.

(** X5.  The teardown of [handleLogout] removes the token and the user
    from the state and from session storage, empties the items and the audit
    log and resets the three cache entries, but keeps the list of product
    lines.  The effect that runs next calls a resync that stops at the
    session guard: it sends nothing and lowers the loading flag. *)
Theorem nothing_is_fetched_after_logout (w : World) (now : Z) :
  let w1 := exec handleLogout_teardown w in
  let w2 := exec (switchEffect (app w1) now) w1 in
  authToken (app w1) = None
  /\ userData (app w1) = None
  /\ items (app w1) = []
  /\ logs (app w1) = []
  /\ dataCache (app w1) = initialDataCache
  /\ allProductLines (app w1) = allProductLines (app w)
  /\ trace w1
     = (trace w ++ [AStorageRemove "authToken"; AStorageRemove "userData"])%list
  /\ depsChanged w1 = true
  /\ eval (switchEffect (app w1) now) w1 = None
  /\ trace w2 = (trace w1 ++ [ACallFetchData true])%list
  /\ isLoading (app w2) = false
  /\ authToken (app w2) = None.
Proof.
  cbn zeta.
  destruct (teardown_spec w) as (Ht & Hu & Hi & Hl & Hc & Hp & Htr & Hd).
  cbn zeta in Ht, Hu, Hi, Hl, Hc, Hp, Htr, Hd.
  set (w1 := exec handleLogout_teardown w) in *. clearbody w1.
  do 8 (split; [assumption|]).
  assert (Hnone : hasSession (app w1) = false).
  { unfold hasSession. now rewrite Ht. }
  assert (Hrows : cachedData (dataCache (app w1))
                    (key_string (activeCollectionKey (app w1))) = []).
  { rewrite Hc. destruct (activeCollectionKey (app w1)); reflexivity. }
  unfold switchEffect. rewrite Hrows. cbn [length Nat.ltb Nat.leb].
  rewrite !exec_bind, !eval_bind_exec.
  set (w0 := exec (setIsFormVisible false) (exec (setNewItemData _) w1)).
  assert (H0 : trace w0 = trace w1 /\ authToken (app w0) = authToken (app w1))
    by (split; reflexivity).
  destruct H0 as [Htr0 Ht0].
  unfold eval, exec at 1 2 3.
  rewrite (fetchData_without_session (app w1) true now w0 Hnone).
  cbn [fst snd].
  split; [reflexivity|]. split; [now rewrite <- Htr0|].
  split; [reflexivity|]. cbn. now rewrite <- Ht.
Qed.

(** ** The cache between two resyncs *)

(** The entry a merge writes for its own key. *)
Lemma merge_writes_own_entry
  (c : FetchCall) (fi fl fp : list Obj) (w : World) :
  fi <> [] ->
  shouldFetchMainData c = true ->
  dataCache (app (exec (fetchData_fulfilled c fi fl fp) w)) !! cachedKey c
  = Some {| data := fi; timestamp := currentTimestamp c |}.
Proof.
  intros Hne Hneed. rewrite fulfilled_exec.
  destruct (finally_frame c (exec (fetchData_merge c fi fl fp) w))
    as (_ & _ & _ & Hc & _).
  cbn zeta in Hc. rewrite Hc, merge_dataCache.
  assert (Hlen : (0 <? length fi)%nat = true)
    by (destruct fi; [congruence | reflexivity]).
  rewrite Hlen, Hneed. cbn [andb].
  destruct (shouldFetchProductLines c && _); cbn [id].
  - rewrite lookup_insert_ne.
    + apply lookup_insert_eq.
    + unfold cachedKey.
      pose proof (key_string_not_list (activeCollectionKey (env c))).
      congruence.
  - apply lookup_insert_eq.
Qed.

(** X6.  Rows written to the cache by a resync are what a later background
    resync for the same key shows without a request, as long as it is
    called at most 300000 ms after the first one was called: the entry
    carries the time of the call that fetched it, not the time of arrival,
    and it is refetched once that age is exceeded. *)
Theorem written_entry_is_served_within_ttl
  (c : FetchCall) (fetchedItems fetchedLogs fetchedProductLines : list Obj)
  (w : World) (later : FetchCall) :
  fetchedItems <> [] ->
  shouldFetchMainData c = true ->
  let w' :=
    exec (fetchData_fulfilled c fetchedItems fetchedLogs fetchedProductLines) w
  in
  dataCache (env later) = dataCache (app w') ->
  cachedKey later = cachedKey c ->
  isUserAction later = false ->
  resolvedFromCache later SrcMain = fetchedItems
  /\ (needed later SrcMain = false
      <-> currentTimestamp later - currentTimestamp c <= 300000).
Proof.
  intros Hne Hneed w' Hcache Hkey Hbackground.
  pose proof (merge_writes_own_entry c fetchedItems fetchedLogs
                fetchedProductLines w Hne Hneed) as Hentry.
  fold w' in Hentry. rewrite <- Hcache, <- Hkey in Hentry.
  split.
  - cbn [resolvedFromCache]. unfold cachedData. now rewrite Hentry.
  - cbn [needed]. unfold shouldFetchMainData. rewrite Hbackground. cbn [orb].
    apply (expired_spec _ _ _ _ Hentry).
Qed.

(** A response for "products" and a background resync five minutes later. *)
Lemma written_entry_is_served_within_ttl_witness :
  let e := Sample.signedIn products [] [] Sample.oldCache in
  let c := {| env := e; isUserAction := false; currentTimestamp := 1000000 |} in
  let w' := exec (fetchData_fulfilled c [Sample.record "product-new"] [] [])
              (world (Sample.idle e)) in
  let later := {| env := app w'; isUserAction := false;
                  currentTimestamp := 1300000 |} in
  shouldFetchMainData c = true
  /\ resolvedFromCache later SrcMain = [Sample.record "product-new"]
  /\ needed later SrcMain = false.
Proof.
  cbn zeta. split; [reflexivity|].
  set (e := Sample.signedIn products [] [] Sample.oldCache).
  set (c := {| env := e; isUserAction := false; currentTimestamp := 1000000 |}).
  set (w' := exec (fetchData_fulfilled c [Sample.record "product-new"] [] [])
               (world (Sample.idle e))).
  destruct (written_entry_is_served_within_ttl c
              [Sample.record "product-new"] [] [] (world (Sample.idle e))
              {| env := app w'; isUserAction := false;
                 currentTimestamp := 1300000 |})
    as (Hrows & Hfresh); try reflexivity; [discriminate|].
  split; [exact Hrows|]. apply Hfresh. cbn. lia.
Defined.

(** ** A resync that is rejected *)

Lemma finally_session (c : FetchCall) (w : World) :
  userData (app (exec (fetchData_finally c) w)) = userData (app w).
Proof.
  unfold fetchData_finally. destruct w as [a tr d].
  destruct (isInitialLoad (env c) || isUserAction c);
    unfold_setters; run_handler; split_ifs; reflexivity.
Qed.

Lemma catch_message (c : FetchCall) (message : string) (w : World) :
  let session :=
    includes message "Failed to fetch"
    || includes message "Invalid or expired token" in
  apiError (app (exec (fetchData_catch c message) w))
  = Some (if session
          then "Session expired or API unreachable. Please log in again."
          else if String.eqb message ""
               then "Failed to fetch data from API. Check server status."
               else message)
  /\ (tokenPresent (authToken (env c)) = true ->
      eval (fetchData_catch c message) w = session
      /\ trace (exec (fetchData_catch c message) w)
         = (trace w
              ++ (if session then [ACallHandleLogout; ALogoutRequest] else []))%list).
Proof.
  cbn zeta. unfold fetchData_catch, handleLogout, handleLogout_teardown.
  destruct w as [a tr d].
  destruct (includes message "Failed to fetch"
            || includes message "Invalid or expired token");
    destruct (tokenPresent (authToken (env c)));
    unfold_setters; run_handler; split_ifs;
    (split; [reflexivity|]); intros H; try discriminate;
    rewrite <- ?app_assoc, ?app_nil_r; split; reflexivity.
Qed.

(** X7.  When the promise of one source is rejected, the resync merges
    nothing: items, product lines, audit log, cache and session are as
    they were, whatever the other sources returned.  The message shown is
    the one of the rejection, unless it contains "Failed to fetch" or
    "Invalid or expired token": then a logout is called, its request is
    sent, and the session-expired message is shown instead. *)
Theorem rejected_resync_merges_nothing
  (c : FetchCall) (message : string) (w : World) :
  tokenPresent (authToken (env c)) = true ->
  let session :=
    includes message "Failed to fetch"
    || includes message "Invalid or expired token" in
  let w' := exec (fetchData_rejected c message) w in
  items (app w') = items (app w)
  /\ allProductLines (app w') = allProductLines (app w)
  /\ logs (app w') = logs (app w)
  /\ dataCache (app w') = dataCache (app w)
  /\ authToken (app w') = authToken (app w)
  /\ userData (app w') = userData (app w)
  /\ apiError (app w')
     = Some (if session
             then "Session expired or API unreachable. Please log in again."
             else if String.eqb message ""
                  then "Failed to fetch data from API. Check server status."
                  else message)
  /\ eval (fetchData_rejected c message) w = session
  /\ trace w'
     = (trace w
          ++ (if session then [ACallHandleLogout; ALogoutRequest] else []))%list.
Proof.
  intros Htoken session w'. subst w'. rewrite rejected_exec.
  destruct (finally_frame c (exec (fetchData_catch c message) w))
    as (Fi & Fp & Fl & Fc & _ & Ft & Fe & Ftr).
  cbn zeta in Fi, Fp, Fl, Fc, Ft, Fe, Ftr.
  rewrite Fi, Fp, Fl, Fc, Ft, Fe, Ftr, finally_session.
  destruct (catch_frame c message w) as (_ & _ & _ & Hframe).
  destruct (Hframe Htoken) as (Ci & Cp & Cl & Cc & Ct & Cu & _).
  destruct (catch_message c message w) as (Hmsg & Hlogout).
  destruct (Hlogout Htoken) as (Hval & Htrace).
  cbn zeta in Hmsg, Hval, Htrace. fold session in Hmsg, Hval, Htrace.
  do 6 (split; [assumption|]).
  split; [exact Hmsg|]. split; [|exact Htrace].
  unfold fetchData_rejected. rewrite eval_bind_exec, eval_bind_exec.
  exact Hval.
Qed.

(** The body of the primary response does not parse. *)
Lemma rejected_resync_merges_nothing_witness :
  let e := Sample.signedIn products [Sample.record "product-1"]
             [Sample.record "log-1"] Sample.freshCache in
  let c := {| env := e; isUserAction := true; currentTimestamp := 9500 |} in
  let w' := exec (fetchData_rejected c "Unexpected token < in JSON")
              (world (Sample.idle e)) in
  tokenPresent (authToken (env c)) = true
  /\ items (app w') = [Sample.record "product-1"]
  /\ apiError (app w') = Some "Unexpected token < in JSON".
Proof.
  cbn zeta. split; [reflexivity|].
  set (e := Sample.signedIn products [Sample.record "product-1"]
              [Sample.record "log-1"] Sample.freshCache).
  destruct (rejected_resync_merges_nothing
              {| env := e; isUserAction := true; currentTimestamp := 9500 |}
              "Unexpected token < in JSON" (world (Sample.idle e)) eq_refl)
    as (Hitems & _ & _ & _ & _ & _ & Herr & _).
  split; [exact Hitems | exact Herr].
Defined.

(** ** Mutations that fail *)

Lemma handleRequest_failed_frame (message : string) (w : World) :
  let w' := exec (handleRequest_failed message ;; setIsLoading false) w in
  trace w' = (trace w ++ [ASwal "Error!" message "error"])%list
  /\ apiError (app w')
     = Some (if String.eqb message ""
             then "An unknown error occurred during API operation."
             else message)
  /\ isLoading (app w') = false
  /\ dataCache (app w') = dataCache (app w)
  /\ items (app w') = items (app w)
  /\ allProductLines (app w') = allProductLines (app w)
  /\ logs (app w') = logs (app w)
  /\ newItemData (app w') = newItemData (app w)
  /\ modalData (app w') = modalData (app w)
  /\ isModalOpen (app w') = isModalOpen (app w)
  /\ isFormVisible (app w') = isFormVisible (app w)
  /\ depsChanged w' = depsChanged w.
Proof. cbn zeta. destruct w as [a tr d]. repeat split. Qed.

(** X8.  A mutation that fails (no response, or a response that is not ok)
    shows one error dialog with the message of the failure, which for a
    response carrying a [message] is that message, records it in [apiError]
    and lowers the loading flag.  Nothing else happens: the success callback
    does not run, no resync is called, no cache entry is reset, and the
    items, the new-item form and the modal keep their contents, so the user
    can submit again. *)
Theorem failed_mutation_touches_nothing
  (r : RequestCall) (o : FetchOutcome) (now : Z) (w : World) :
  isFailure o = true ->
  let w' := exec (handleRequest_settle r o now) w in
  eval (handleRequest_settle r o now) w = None
  /\ exists message,
      trace w' = (trace w ++ [ASwal "Error!" message "error"])%list
      /\ (forall status m,
            o = NotOk status (Json (Some m)) -> status <> 204 -> message = m)
      /\ (forall m, o = NetworkError m -> message = m)
      /\ apiError (app w')
         = Some (if String.eqb message ""
                 then "An unknown error occurred during API operation."
                 else message)
      /\ isLoading (app w') = false
      /\ dataCache (app w') = dataCache (app w)
      /\ items (app w') = items (app w)
      /\ newItemData (app w') = newItemData (app w)
      /\ modalData (app w') = modalData (app w)
      /\ isModalOpen (app w') = isModalOpen (app w)
      /\ isFormVisible (app w') = isFormVisible (app w)
      /\ depsChanged w' = depsChanged w.
Proof.
  intros Hfail w'. subst w'.
  assert (Hshape : exists message,
    handleRequest_settle r o now
    = (handleRequest_failed message ;; setIsLoading false ;; mret None)
    /\ (forall status m,
          o = NotOk status (Json (Some m)) -> status <> 204 -> message = m)
    /\ (forall m, o = NetworkError m -> message = m)).
  { destruct o as [msg | status body | status body]; try discriminate.
    - exists msg. split; [reflexivity|]. split; [discriminate|].
      intros m H. now injection H as ->.
    - unfold handleRequest_settle.
      destruct (status =? 204) eqn:E204.
      + eexists. split; [reflexivity|]. split; [|discriminate].
        intros st m H Hne. injection H as -> _.
        apply Z.eqb_eq in E204. contradiction.
      + destruct body as [message | msg].
        * eexists. split; [reflexivity|]. split; [|discriminate].
          intros st m H _. injection H as _ ->. reflexivity.
        * exists msg. split; [reflexivity|]. split; discriminate. }
  destruct Hshape as (message & -> & Hserver & Hnetwork).
  destruct (handleRequest_failed_frame message w)
    as (Htr & Herr & Hload & Hc & Hi & _ & _ & Hn & Hm & Ho & Hv & Hd).
  cbn zeta in Htr, Herr, Hload, Hc, Hi, Hn, Hm, Ho, Hv, Hd.
  split; [reflexivity|].
  exists message. split; [exact Htr|]. split; [exact Hserver|].
  split; [exact Hnetwork|].
  repeat split; assumption.
Qed.

(** The server answers 409 with a message. *)
Lemma failed_mutation_touches_nothing_witness :
  let e := Sample.signedIn products [Sample.record "7"] [] Sample.freshCache in
  let r := {| renv := e; method := PUT; path := "/api/products/7";
              successCallback := updateCallback |} in
  let o := NotOk 409 (Json (Some "Name already in use")) in
  let w' := exec (handleRequest_settle r o 9500) (world (Sample.idle e)) in
  isFailure o = true
  /\ eval (handleRequest_settle r o 9500) (world (Sample.idle e)) = None
  /\ dataCache (app w') = Sample.freshCache.
Proof.
  cbn zeta. split; [reflexivity|].
  set (e := Sample.signedIn products [Sample.record "7"] [] Sample.freshCache).
  destruct (failed_mutation_touches_nothing
              {| renv := e; method := PUT; path := "/api/products/7";
                 successCallback := updateCallback |}
              (NotOk 409 (Json (Some "Name already in use"))) 9500
              (world (Sample.idle e)) eq_refl)
    as (Hnone & message & _ & _ & _ & _ & _ & Hcache & _).
  split; [exact Hnone | exact Hcache].
Defined.

(** ** Resyncs started by the render *)

Lemma resume_launch_pending (c : FetchCall) (w : World) :
  needed c SrcMain = true -> resume (launch c) w = ((launch c, false), w).
Proof.
  intros Hneed. unfold launch, initialPromise. rewrite Hneed. unfold resume.
  cbn [resumed itemsPromise logsPromise productLinesPromise].
  destruct (needed c SrcLogs), (needed c SrcProductLines); reflexivity.
Qed.

(** The effect on a snapshot with a session and no cached rows. *)
Lemma effect_empty_cache_spec (e : AppState) (now : Z) (w : World) :
  hasSession e = true ->
  cachedData (dataCache e) (key_string (activeCollectionKey e)) = [] ->
  let c := {| env := e; isUserAction := true; currentTimestamp := now |} in
  switchEffect e now w = (Some c, exec (switchEffect e now) w)
  /\ trace (exec (switchEffect e now) w)
     = (trace w ++ ACallFetchData true :: allRequests c)%list
  /\ isLoading (app (exec (switchEffect e now) w)) = true.
Proof.
  intros Hsession Hrows c.
  assert (Hval : eval (switchEffect e now) w = Some c
                 /\ trace (exec (switchEffect e now) w)
                    = (trace w ++ ACallFetchData true :: allRequests c)%list
                 /\ isLoading (app (exec (switchEffect e now) w)) = true).
  { unfold switchEffect. rewrite Hrows. cbn [length Nat.ltb Nat.leb].
    rewrite !exec_bind, !eval_bind_exec.
    set (w1 := exec (setIsFormVisible false) (exec (setNewItemData _) w)).
    destruct (user_action_call_spec e now w1 Hsession)
      as (H1 & H2 & H3 & _).
    split; [exact H1|]. split; [exact H2 | exact H3]. }
  destruct Hval as (Hv & Ht & Hl).
  split; [|split; assumption].
  unfold eval in Hv. unfold exec.
  destruct (switchEffect e now w) as [oc w']. cbn in Hv |- *. now subst oc.
Qed.

(** A render whose effect is due, with a session and no cached rows for
    the active key, puts a user-action resync in flight. *)
Lemma render_forces_a_fetch (s : Sys) (now : Z) :
  depsChanged (world s) = true ->
  hasSession (app (world s)) = true ->
  cachedData (dataCache (app (world s)))
    (key_string (activeCollectionKey (app (world s)))) = [] ->
  let c := {| env := app (world s); isUserAction := true;
              currentTimestamp := now |} in
  flights (render now s) = (flights s ++ [launch c])%list
  /\ requests (render now s) = requests s
  /\ trace (world (render now s))
     = (trace (world s) ++ ACallFetchData true :: allRequests c)%list
  /\ isLoading (app (world (render now s))) = true.
Proof.
  intros Hdeps Hsession Hrows c. unfold render. rewrite Hdeps.
  set (w0 := {| app := app (world s); trace := trace (world s);
                depsChanged := false |}).
  change (app w0) with (app (world s)).
  destruct (effect_empty_cache_spec (app (world s)) now w0 Hsession Hrows)
    as (Heq & Htrace & Hload).
  fold c in Heq, Htrace. rewrite Heq.
  unfold takeOff. rewrite resume_launch_pending by reflexivity.
  cbn [flights requests world]. repeat split; assumption.
Qed.

(** The effect and the synchronous part of [fetchData] leave the session
    as it is. *)
Lemma effect_keeps_session (e : AppState) (now : Z) (w : World) :
  hasSession (app (exec (switchEffect e now) w)) = hasSession (app w).
Proof.
  unfold switchEffect, fetchData, safeFetch_call. destruct w as [a tr d].
  set (c1 := {| env := e; isUserAction := false; currentTimestamp := now |}).
  set (c2 := {| env := e; isUserAction := true; currentTimestamp := now |}).
  generalize (needed c1), (needed c2). intros n1 n2.
  generalize (cachedData (dataCache e) (key_string (activeCollectionKey e))).
  intros rows.
  generalize (defaultValues (initialCollections (activeCollectionKey e))).
  intros defaults.
  destruct (0 <? length rows)%nat,
    (negb (tokenPresent (authToken e)) || negb (is_Some_b (userData e))),
    (isInitialLoad e); cbn [orb]; try reflexivity;
    try (destruct (n1 SrcMain), (n1 SrcLogs), (n1 SrcProductLines);
         reflexivity);
    destruct (n2 SrcMain), (n2 SrcLogs), (n2 SrcProductLines); reflexivity.
Qed.

Lemma fulfilled_frame (c : FetchCall) (fi fl fp : list Obj) (w : World) :
  let w' := exec (fetchData_fulfilled c fi fl fp) w in
  activeCollectionKey (app w') = activeCollectionKey (app w)
  /\ hasSession (app w') = hasSession (app w)
  /\ (isUserAction c = true -> depsChanged w' = true)
  /\ (fi = [] ->
      dataCache (app w') !! cachedKey c = dataCache (app w) !! cachedKey c).
Proof.
  cbn zeta. rewrite fulfilled_exec.
  set (wm := exec (fetchData_merge c fi fl fp) w).
  destruct (finally_frame c wm) as (_ & _ & _ & Fc & Fk & Ft & _).
  destruct (finally_flags c wm) as (_ & _ & Fd).
  pose proof (finally_session c wm) as Fu.
  destruct (merge_frame c fi fl fp w) as (Mk & Mt & Mu & _).
  destruct (merge_flags c w fi fl fp) as (_ & _ & Md).
  cbn zeta in Fc, Fk, Ft, Fd, Md. fold wm in Mk, Mt, Mu, Md.
  split; [now rewrite Fk|].
  split; [unfold hasSession; now rewrite Ft, Fu, Mt, Mu|].
  split.
  - intros Hua. rewrite Fd, Md. unfold shouldFetchLogs. rewrite Hua.
    cbn [orb]. now rewrite !orb_true_r.
  - intros ->. rewrite Fc. subst wm. apply merge_empty_main.
Qed.

(** The last promise of a flight is fulfilled with an empty primary
    result: [Promise.all] is fulfilled and the continuation runs. *)
Lemma empty_arrival_completes (s : Sys) (fid : nat) (f : Flight)
  (fl fp : list Obj) (status now : Z) :
  flights s !! fid = Some f ->
  resumed f = false ->
  itemsPromise f = None ->
  logsPromise f = Some (Fulfilled fl) ->
  productLinesPromise f = Some (Fulfilled fp) ->
  handle (Arrive fid SrcMain (Ok status (Json []))) now s
  = mkSys (exec (fetchData_fulfilled (call f) [] fl fp) (world s))
      (<[fid := markResumed (settlePromise f SrcMain (Fulfilled []))]>
         (flights s))
      (requests s) (logouts s + 0).
Proof.
  intros Hf Hres Hi Hl Hp. unfold handle. rewrite Hf.
  cbn [promiseOf]. rewrite Hi.
  change (safeFetch_settle (sourceErrorMessage (call f) SrcMain)
            (Ok status (Json [])) (world s)) with (Fulfilled [] : Settled, world s).
  cbn iota. unfold resume.
  cbn [settlePromise resumed itemsPromise logsPromise productLinesPromise call].
  rewrite Hres, Hl, Hp. unfold exec, mbind, M_bind.
  destruct (fetchData_fulfilled (call f) [] fl fp (world s)) as [[] w1].
  reflexivity.
Qed.

(** X9.  A user-action resync whose primary fetch returns an empty array
    writes no cache entry, and its merge changes the audit log, on which
    the effect depends.  So when the cache holds no rows for the active key,
    the render that follows puts another user-action resync in flight, with
    its three requests, and the session and the empty cache are as before:
    for a collection that is empty on the server the client goes on
    fetching after every answer. *)
Theorem empty_collection_is_fetched_again
  (s : Sys) (fid : nat) (f : Flight) (fl fp : list Obj) (status now : Z) :
  flights s !! fid = Some f ->
  resumed f = false ->
  isUserAction (call f) = true ->
  itemsPromise f = None ->
  logsPromise f = Some (Fulfilled fl) ->
  productLinesPromise f = Some (Fulfilled fp) ->
  hasSession (app (world s)) = true ->
  activeCollectionKey (app (world s)) = activeCollectionKey (env (call f)) ->
  cachedData (dataCache (app (world s))) (cachedKey (call f)) = [] ->
  let s' := step s (Arrive fid SrcMain (Ok status (Json [])), now) in
  exists c',
    flights s'
    = (<[fid := markResumed (settlePromise f SrcMain (Fulfilled []))]>
         (flights s) ++ [launch c'])%list
    /\ isUserAction c' = true
    /\ currentTimestamp c' = now
    /\ activeCollectionKey (env c') = activeCollectionKey (env (call f))
    /\ resumed (launch c') = false
    /\ (forall src, promiseOf (launch c') src = None)
    /\ (exists before,
          trace (world s')
          = (before ++ ACallFetchData true :: allRequests c')%list)
    /\ hasSession (app (world s')) = hasSession (env c')
    /\ hasSession (env c') = true
    /\ cachedData (dataCache (env c')) (cachedKey c') = [].
Proof.
  intros Hf Hres Hua Hi Hl Hp Hsession Hkey Hrows s'. subst s'.
  unfold step. cbn [fst snd].
  rewrite (empty_arrival_completes s fid f fl fp status now Hf Hres Hi Hl Hp).
  set (w1 := exec (fetchData_fulfilled (call f) [] fl fp) (world s)).
  set (s1 := mkSys w1 _ (requests s) (logouts s + 0)).
  destruct (fulfilled_frame (call f) [] fl fp (world s))
    as (Fk & Fs & Fd & Fc).
  cbn zeta in Fk, Fs, Fd, Fc. fold w1 in Fk, Fs, Fd, Fc.
  assert (Hrows1 : cachedData (dataCache (app w1))
                     (key_string (activeCollectionKey (app w1))) = []).
  { rewrite Fk, Hkey. unfold cachedData. fold (cachedKey (call f)).
    rewrite (Fc eq_refl). exact Hrows. }
  assert (Hsession1 : hasSession (app w1) = true) by now rewrite Fs.
  destruct (render_forces_a_fetch s1 now (Fd Hua) Hsession1 Hrows1)
    as (Hflights & _ & Htrace & _).
  cbn [world flights] in Hflights, Htrace.
  set (c' := {| env := app w1; isUserAction := true;
                currentTimestamp := now |}) in *.
  exists c'. split; [exact Hflights|].
  split; [reflexivity|]. split; [reflexivity|].
  split; [cbn; now rewrite Fk|]. split; [reflexivity|].
  split; [intros []; reflexivity|].
  split; [eexists; exact Htrace|].
  split; [|split; [exact Hsession1 | exact Hrows1]].
  cbn [env c'].
  unfold render. cbn [world s1]. rewrite (Fd Hua).
  set (w0 := {| app := app w1; trace := trace w1; depsChanged := false |}).
  change (app w0) with (app w1).
  destruct (effect_empty_cache_spec (app w1) now w0 Hsession1 Hrows1)
    as (Heq & _).
  rewrite Heq. unfold takeOff. rewrite resume_launch_pending by reflexivity.
  cbn [world]. rewrite effect_keeps_session. reflexivity.
Qed.

(** The first load of an empty collection: audit log and product lines
    have answered, the primary answer is the empty array. *)
Lemma empty_collection_is_fetched_again_witness :
  let s :=
    run [(Render, 5000);
         (Arrive 0 SrcLogs (Sample.ok [Sample.record "log-1"]), 5100);
         (Arrive 0 SrcProductLines (Sample.ok []), 5101)]
      Sample.justSignedIn in
  let s' := step s (Arrive 0 SrcMain (Ok 200 (Json [])), 5102) in
  (resumed <$> flights s !! 0%nat) = Some false
  /\ length (flights s) = 1%nat
  /\ length (flights s') = 2%nat.
Proof.
  cbn zeta.
  set (s := run [(Render, 5000);
                 (Arrive 0 SrcLogs (Sample.ok [Sample.record "log-1"]), 5100);
                 (Arrive 0 SrcProductLines (Sample.ok []), 5101)]
              Sample.justSignedIn).
  split; [reflexivity|]. split; [reflexivity|].
  destruct (flights s !! 0%nat) as [f|] eqn:Hf; [|discriminate Hf].
  assert (Hshape : resumed f = false /\ isUserAction (call f) = true
                   /\ itemsPromise f = None
                   /\ logsPromise f = Some (Fulfilled [Sample.record "log-1"])
                   /\ productLinesPromise f = Some (Fulfilled [])
                   /\ activeCollectionKey (app (world s))
                      = activeCollectionKey (env (call f))
                   /\ cachedData (dataCache (app (world s)))
                        (cachedKey (call f)) = []).
  { vm_compute in Hf. injection Hf as <-. vm_compute. repeat split. }
  destruct Hshape as (H1 & H2 & H3 & H4 & H5 & H6 & H7).
  destruct (empty_collection_is_fetched_again s 0 f
              [Sample.record "log-1"] [] 200 5102 Hf H1 H2 H3 H4 H5
              eq_refl H6 H7) as (c' & Hflights & _).
  rewrite Hflights, length_app, length_insert. reflexivity.
Defined.

(** ** Mutations that succeed *)

Lemma fetchData_keeps_session (e : AppState) (ua : bool) (now : Z) (w : World) :
  let w' := exec (fetchData e ua now) w in
  hasSession (app w') = hasSession (app w)
  /\ activeCollectionKey (app w') = activeCollectionKey (app w).
Proof.
  cbn zeta. unfold fetchData, safeFetch_call. destruct w as [a tr d].
  set (c := {| env := e; isUserAction := ua; currentTimestamp := now |}).
  generalize (needed c). intros n.
  destruct (negb (tokenPresent (authToken e)) || negb (is_Some_b (userData e))),
    (isInitialLoad e || ua); try (split; reflexivity);
    destruct (n SrcMain), (n SrcLogs), (n SrcProductLines); split; reflexivity.
Qed.

(** What the continuation of a successful mutation leaves behind, for the
    callback its caller passes. *)
Lemma settle_success_spec (r : RequestCall) (status : Z)
  (body : Parsed (list Obj)) (now : Z) (w : World) :
  successCallback r = callbackOf (method r) (renv r) ->
  hasSession (renv r) = true ->
  let c := {| env := renv r; isUserAction := true; currentTimestamp := now |} in
  let w' := exec (handleRequest_settle r (Ok status body) now) w in
  handleRequest_settle r (Ok status body) now w = (Some c, w')
  /\ (exists notice,
        isNotice notice = true
        /\ trace w'
           = (trace w ++ [notice; ASuccessCallback]
                ++ ACallFetchData true :: allRequests c)%list)
  /\ depsChanged w' = true
  /\ hasSession (app w') = hasSession (app w)
  /\ activeCollectionKey (app w') = activeCollectionKey (app w)
  /\ dataCache (app w')
     = invalidate (key_string (activeCollectionKey (renv r))) (dataCache (app w))
  /\ isLoading (app w') = false.
Proof.
  intros Hcb Hsession c w'.
  assert (Hpair : handleRequest_settle r (Ok status body) now w
                  = (eval (handleRequest_settle r (Ok status body) now) w, w')).
  { subst w'. unfold eval, exec.
    now destruct (handleRequest_settle r (Ok status body) now w). }
  rewrite Hpair. subst w'. unfold handleRequest_settle. rewrite Hcb.
  rewrite !exec_bind, !eval_bind_exec.
  destruct (successNotice_spec r w) as (notice & Hnotice & Hw1).
  rewrite Hw1.
  set (w2 := exec (emit ASuccessCallback)
               (exec (setDataCache
                        (invalidate (key_string (activeCollectionKey (renv r)))))
                  (exec (emit notice) w))).
  assert (H2 : dataCache (app w2)
               = invalidate (key_string (activeCollectionKey (renv r)))
                   (dataCache (app w))
               /\ trace w2 = (trace w ++ [notice; ASuccessCallback])%list
               /\ depsChanged w2 = true
               /\ hasSession (app w2) = hasSession (app w)
               /\ activeCollectionKey (app w2) = activeCollectionKey (app w)).
  { subst w2. split; [reflexivity|]. split.
    - unfold_setters; run_handler. now rewrite <- app_assoc.
    - repeat split. }
  destruct H2 as (Hc2 & Ht2 & Hd2 & Hs2 & Hk2).
  set (w3 := exec (callbackOf (method r) (renv r)) w2).
  assert (H3 : dataCache (app w3) = dataCache (app w2)
               /\ trace w3 = trace w2 /\ depsChanged w3 = depsChanged w2
               /\ hasSession (app w3) = hasSession (app w2)
               /\ activeCollectionKey (app w3) = activeCollectionKey (app w2)).
  { subst w3. destruct (method r); repeat split. }
  destruct H3 as (Hc3 & Ht3 & Hd3 & Hs3 & Hk3).
  destruct (fetchData_call_spec (renv r) true now w3 Hsession)
    as (Hval & _ & _ & _ & Hc4 & _ & _ & Hd4).
  destruct (user_action_call_spec (renv r) now w3 Hsession)
    as (_ & Ht4 & _).
  destruct (fetchData_keeps_session (renv r) true now w3) as (Hs4 & Hk4).
  cbn zeta in Hval, Hc4, Hd4, Ht4, Hs4, Hk4. fold c in Hval, Ht4.
  set (w4 := exec (fetchData (renv r) true now) w3) in *.
  rewrite Hval.
  change (exec (mret (Some c)) (exec (setIsLoading false) w4))
    with (exec (setIsLoading false) w4).
  change (eval (mret (Some c)) (exec (setIsLoading false) w4)) with (Some c).
  split; [reflexivity|].
  split.
  { exists notice. split; [exact Hnotice|].
    change (trace (exec (setIsLoading false) w4)) with (trace w4).
    rewrite Ht4, Ht3, Ht2, <- !app_assoc. reflexivity. }
  change (depsChanged (exec (setIsLoading false) w4)) with (depsChanged w4).
  change (hasSession (app (exec (setIsLoading false) w4)))
    with (hasSession (app w4)).
  change (activeCollectionKey (app (exec (setIsLoading false) w4)))
    with (activeCollectionKey (app w4)).
  change (dataCache (app (exec (setIsLoading false) w4)))
    with (dataCache (app w4)).
  split; [now rewrite Hd4, Hd3|].
  split; [now rewrite Hs4, Hs3|].
  split; [now rewrite Hk4, Hk3|].
  split; [now rewrite Hc4, Hc3|]. reflexivity.
Qed.

(** X10.  A mutation that succeeds while the tab it was sent from is still
    active starts two user-action resyncs, each with the three requests:
    the one [handleRequest] calls after the success callback, which reads
    the snapshot taken when the request was sent, and the one the effect
    calls in the following render because the cache entry of the active key
    was reset. *)
Theorem successful_mutation_resyncs_twice
  (s : Sys) (rid : nat) (r : RequestCall) (status : Z)
  (body : Parsed (list Obj)) (now : Z) :
  requests s !! rid = Some (r, true) ->
  successCallback r = callbackOf (method r) (renv r) ->
  hasSession (renv r) = true ->
  hasSession (app (world s)) = true ->
  activeCollectionKey (app (world s)) = activeCollectionKey (renv r) ->
  let s' := step s (Respond rid (Ok status body), now) in
  let c1 := {| env := renv r; isUserAction := true; currentTimestamp := now |} in
  exists c2 notice,
    flights s' = (flights s ++ [launch c1; launch c2])%list
    /\ requests s' = <[rid := (r, false)]> (requests s)
    /\ isUserAction c2 = true
    /\ currentTimestamp c2 = now
    /\ (forall src, promiseOf (launch c1) src = None
                    /\ promiseOf (launch c2) src = None)
    /\ cachedData (dataCache (env c2)) (cachedKey c2) = []
    /\ trace (world s')
       = (trace (world s) ++ [notice; ASuccessCallback]
            ++ (ACallFetchData true :: allRequests c1)
            ++ ACallFetchData true :: allRequests c2)%list.
Proof.
  intros Hreq Hcb Hsnap Hlive Hkey s' c1. subst s'.
  unfold step. cbn [fst snd]. unfold handle. rewrite Hreq.
  destruct (settle_success_spec r status body now (world s) Hcb Hsnap)
    as (Heq & (notice & _ & Htrace) & Hdeps & Hs & Hk & Hcache & _).
  cbn zeta in Heq, Htrace, Hdeps, Hs, Hk, Hcache. fold c1 in Heq, Htrace.
  rewrite Heq.
  set (w1 := exec (handleRequest_settle r (Ok status body) now) (world s)) in *.
  unfold takeOff. rewrite resume_launch_pending by reflexivity.
  cbn [world flights requests logouts].
  set (s1 := mkSys w1 (flights s ++ [launch c1])
               (<[rid := (r, false)]> (requests s)) (logouts s + b2n false)).
  assert (Hrows : cachedData (dataCache (app w1))
                    (key_string (activeCollectionKey (app w1))) = []).
  { rewrite Hk, Hkey, Hcache. unfold cachedData.
    destruct (invalidate_lookup (activeCollectionKey (renv r))
                (dataCache (app (world s)))) as [-> _]. reflexivity. }
  assert (Hsession1 : hasSession (app w1) = true) by now rewrite Hs.
  destruct (render_forces_a_fetch s1 now Hdeps Hsession1 Hrows)
    as (Hflights & Hrequests & Htrace2 & _).
  cbn [world flights requests s1] in Hflights, Hrequests, Htrace2.
  exists {| env := app w1; isUserAction := true; currentTimestamp := now |}.
  exists notice.
  rewrite <- app_assoc in Hflights.
  split; [exact Hflights|]. split; [exact Hrequests|].
  split; [reflexivity|]. split; [reflexivity|].
  split; [intros []; split; reflexivity|].
  split; [exact Hrows|].
  rewrite Htrace2, Htrace, <- !app_assoc. reflexivity.
Qed.

(** A deletion on the products tab is answered 204. *)
Lemma successful_mutation_resyncs_twice_witness :
  let s :=
    run [(Request DELETE "/api/products/1" None noCallback, 10000)]
      (Sample.idle
         (Sample.signedIn products [Sample.record "1"] [] Sample.freshCache)) in
  let s' := step s (Respond 0 Sample.noContent, 10100) in
  length (flights s) = 0%nat /\ length (flights s') = 2%nat.
Proof.
  cbn zeta.
  set (s := run [(Request DELETE "/api/products/1" None noCallback, 10000)]
              (Sample.idle
                 (Sample.signedIn products [Sample.record "1"] []
                    Sample.freshCache))).
  split; [reflexivity|].
  destruct (requests s !! 0%nat) as [[r pending]|] eqn:Hr; [|discriminate Hr].
  assert (Hshape : pending = true
                   /\ successCallback r = callbackOf (method r) (renv r)
                   /\ hasSession (renv r) = true
                   /\ activeCollectionKey (app (world s))
                      = activeCollectionKey (renv r)).
  { vm_compute in Hr. injection Hr as <- <-. repeat split. }
  destruct Hshape as (-> & H1 & H2 & H3).
  destruct (successful_mutation_resyncs_twice s 0 r 204
              (SyntaxError "Unexpected end of JSON input") 10100
              Hr H1 H2 eq_refl H3) as (c2 & notice & Hflights & _).
  change (step s (Respond 0 Sample.noContent, 10100))
    with (step s (Respond 0 (Ok 204 (SyntaxError "Unexpected end of JSON input")),
                  10100)).
  rewrite Hflights, length_app. reflexivity.
Defined.

(** ** Objects built by a [reduce] *)

Lemma keys_set (o : Obj) (k k' : string) (v : Value) :
  In k' (keys (Js.set o k v)) <-> k' = k \/ In k' (keys o).
Proof.
  induction o as [|[k0 v0] o IH]; cbn.
  - split; [intros [H|[]]; auto | intros [H|[]]; auto].
  - destruct (String.eqb k0 k) eqn:E; cbn.
    + apply String.eqb_eq in E. subst k0. intuition congruence.
    + rewrite IH. intuition congruence.
Qed.

Section Reduce.

(** A step that sets the key it visits to a value computed from the key,
    or passes over it. *)
Variables (cond : string -> bool) (val : string -> Value).
Variable step : Obj -> string -> Obj.
Hypothesis step_spec :
  forall acc k, step acc k = if cond k then Js.set acc k (val k) else acc.

Lemma reduce_get (ks : list string) (acc : Obj) (key : string) :
  get (List.fold_left step ks acc) key
  = if mem key ks && cond key then val key else get acc key.
Proof.
  revert acc. induction ks as [|k ks IH]; intros acc; cbn [List.fold_left].
  - reflexivity.
  - rewrite IH, step_spec. unfold mem. cbn [List.existsb].
    rewrite (String.eqb_sym key k).
    destruct (String.eqb k key) eqn:E.
    + apply String.eqb_eq in E. subst k. cbn [orb].
      destruct (cond key) eqn:C.
      * rewrite get_set_eq. now destruct (List.existsb _ ks).
      * now rewrite andb_false_r.
    + cbn [orb]. destruct (List.existsb (String.eqb key) ks && cond key);
        [reflexivity|].
      destruct (cond k); [|reflexivity].
      apply get_set_ne. now apply String.eqb_neq.
Qed.

Lemma reduce_keys (ks : list string) (acc : Obj) (key : string) :
  In key (keys (List.fold_left step ks acc))
  <-> In key (keys acc) \/ (In key ks /\ cond key = true).
Proof.
  revert acc. induction ks as [|k ks IH]; intros acc; cbn [List.fold_left].
  - cbn. tauto.
  - rewrite IH, step_spec. cbn [In].
    destruct (cond k) eqn:C.
    + rewrite keys_set. split.
      * intros [[->|H]|[H1 H2]]; auto.
      * intros [H|[[->|H1] H2]]; auto.
    + split.
      * intros [H|[H1 H2]]; auto.
      * intros [H|[[->|H1] H2]]; auto. congruence.
Qed.

End Reduce.

Lemma jsonStep_spec (body acc : Obj) (k : string) :
  jsonStep body acc k
  = if negb (String.eqb k "id") then Js.set acc k (jsonValue body k) else acc.
Proof.
  unfold jsonStep, jsonValue. destruct (negb (String.eqb k "id")); [|reflexivity].
  now destruct (mem k fileFields && isArray (get body k)).
Qed.

(** X12.  The text parts of a multipart body are exactly these: one for
    every field of the payload that is not an attachment field, is not
    "id" and does not hold [null], under the field's name and with its
    value; and one under "<field>_retained" for every upload path of an
    attachment field.  So a field holding [null] is left out, a string of an
    attachment field that is no upload path is dropped, and no part is
    named "id". *)
Theorem multipart_text_parts (body : Obj) (name : string) (v : Value) :
  In (PartValue name v) (formDataOf body)
  <-> (In name (keys body) /\ ~ In name fileFields /\ name <> "id"
       /\ v = get body name /\ v <> VNull)
      \/ (exists field l p,
            In field fileFields /\ name = field ++ "_retained"
            /\ get body field = VArr l /\ v = VStr p /\ In (VStr p) l
            /\ startsWith p "uploads/" = true).
Proof.
  unfold formDataOf. rewrite List.in_flat_map. split.
  - intros (key & Hkey & Hpart). unfold appendKey in Hpart.
    destruct (mem key fileFields && isArray (get body key)) eqn:Hfile.
    + apply andb_true_iff in Hfile. destruct Hfile as [Hmem Harr].
      apply List.in_flat_map in Hpart.
      destruct Hpart as (entry & Hentry & Hpart).
      destruct entry as [| | | |p|f|]; cbn in Hpart; try contradiction.
      * destruct (startsWith p "uploads/") eqn:Hprefix; [|contradiction].
        destruct Hpart as [H|[]]. injection H as <- <-.
        right. exists key, (elements (get body key)), p.
        split; [now apply mem_In|]. split; [reflexivity|].
        split; [now apply isArray_elements|]. auto.
      * destruct Hpart as [H|[]]. discriminate.
    + destruct (negb (mem key fileFields) && negb (isNull (get body key))
                && negb (String.eqb key "id")) eqn:Hplain; [|contradiction].
      destruct Hpart as [H|[]]. injection H as <- <-.
      apply andb_true_iff in Hplain. destruct Hplain as [Hplain Hid].
      apply andb_true_iff in Hplain. destruct Hplain as [Hmem Hnull].
      left. split; [exact Hkey|]. split.
      * intros Hin. apply mem_In in Hin. rewrite Hin in Hmem. discriminate.
      * split; [now apply String.eqb_neq, negb_true_iff|].
        split; [reflexivity|]. intros E. rewrite E in Hnull. discriminate.
  - intros [(Hkey & Hnot & Hid & -> & Hnull)
           | (field & l & p & Hfield & -> & Hget & -> & Hin & Hprefix)].
    + exists name. split; [exact Hkey|]. unfold appendKey.
      assert (Hmem : mem name fileFields = false).
      { destruct (mem name fileFields) eqn:E; [|reflexivity].
        apply mem_In in E. contradiction. }
      rewrite Hmem. cbn [andb negb].
      apply String.eqb_neq in Hid. rewrite Hid.
      destruct (get body name); try (now left). contradiction.
    + exists field. split.
      * apply get_defined_in_keys. rewrite Hget. discriminate.
      * rewrite (appendKey_fileField body field l Hfield Hget).
        apply List.in_flat_map. exists (VStr p). split; [exact Hin|].
        cbn. rewrite Hprefix. now left.
Qed.

(** ** The payload of a create or an update *)

Lemma payloadStep_spec (parseFloat : Value -> Value) (allowed : list string)
  (source acc : Obj) (k : string) :
  payloadStep parseFloat allowed source acc k
  = if mem k allowed
    then Js.set acc k
           (if isFileField k
            then (if isArray (get source k) then get source k else VArr [])
            else if String.eqb k "gmdc_pct" || String.eqb k "estimated_price"
                 then parseFloat (get source k)
                 else get source k)
    else acc.
Proof.
  unfold payloadStep. destruct (mem k allowed); [|reflexivity].
  destruct (isFileField k); [reflexivity|].
  now destruct (String.eqb k "gmdc_pct" || String.eqb k "estimated_price").
Qed.

Lemma allowedFieldsOf_spec (d : CollectionDescriptor) (key : string) :
  mem key (allowedFieldsOf d) = true
  <-> In key (fields d) /\ ~ In key EXCLUDED_INTERNAL_COLUMNS.
Proof.
  rewrite mem_In. unfold allowedFieldsOf. rewrite List.filter_In.
  split; intros [H1 H2]; split; auto.
  - intros Hin. apply mem_In in Hin. rewrite Hin in H2. discriminate.
  - destruct (mem key EXCLUDED_INTERNAL_COLUMNS) eqn:E; [|reflexivity].
    apply mem_In in E. contradiction.
Qed.

(** X13.  The payload built for a create or an update has exactly the keys
    of the form that are fields of the collection and are not among the
    columns managed by the server.  Each attachment field in it holds an
    array, the empty one when the form held something else; "gmdc_pct" and
    "estimated_price" hold what [parseFloat] returns; every other field
    holds the value of the form as it is, the text of
    "estimated_price_per_product" included. *)
Theorem payload_has_the_editable_fields
  (parseFloat : Value -> Value) (d : CollectionDescriptor) (source : Obj)
  (key : string) :
  let payload := finalPayloadOf parseFloat d source in
  (In key (keys payload)
   <-> In key (keys source) /\ In key (fields d)
       /\ ~ In key EXCLUDED_INTERNAL_COLUMNS)
  /\ (In key (keys payload) ->
      get payload key
      = if isFileField key
        then (if isArray (get source key) then get source key else VArr [])
        else if String.eqb key "gmdc_pct" || String.eqb key "estimated_price"
             then parseFloat (get source key)
             else get source key)
  /\ (~ In key (keys payload) -> get payload key = VUndefined).
Proof.
  cbn zeta. unfold finalPayloadOf.
  set (cond := fun k => mem k (allowedFieldsOf d)).
  set (val := fun k =>
    if isFileField k
    then (if isArray (get source k) then get source k else VArr [])
    else if String.eqb k "gmdc_pct" || String.eqb k "estimated_price"
         then parseFloat (get source k)
         else get source k).
  pose proof (reduce_keys cond val
                (payloadStep parseFloat (allowedFieldsOf d) source)
                (payloadStep_spec parseFloat (allowedFieldsOf d) source)
                (keys source) [] key) as Hkeys.
  pose proof (reduce_get cond val
                (payloadStep parseFloat (allowedFieldsOf d) source)
                (payloadStep_spec parseFloat (allowedFieldsOf d) source)
                (keys source) [] key) as Hget.
  assert (Hiff : In key (keys (List.fold_left
                    (payloadStep parseFloat (allowedFieldsOf d) source)
                    (keys source) []))
                 <-> In key (keys source) /\ cond key = true).
  { rewrite Hkeys. cbn. tauto. }
  split; [|split].
  - rewrite Hiff. subst cond. cbn beta. rewrite allowedFieldsOf_spec. tauto.
  - intros Hin. apply Hiff in Hin. destruct Hin as [Hsrc Hcond].
    rewrite Hget, Hcond. apply mem_In in Hsrc. now rewrite Hsrc.
  - intros Hnot. rewrite Hget.
    destruct (mem key (keys source) && cond key) eqn:E; [|reflexivity].
    apply andb_true_iff in E. destruct E as [E1 E2]. apply mem_In in E1.
    exfalso. apply Hnot, Hiff. auto.
Qed.

(** Membership in a list of field names, by evaluation. *)
Ltac prove_in := apply mem_In; vm_compute; reflexivity.
Ltac prove_not_in :=
  let H := fresh in intros H; apply mem_In in H; vm_compute in H; discriminate.

(** A payload with a cleared field, a stored attachment and a new file. *)
Lemma multipart_text_parts_witness :
  let f := {| file_name := "plan.pdf"; file_bytes := [] |} in
  let body :=
    [("id", VStr "7"); ("name", VStr "Engine Line X"); ("history", VNull);
     ("attachments_raw", VArr [VStr "uploads/old.pdf"; VStr "draft"; VFile f])]
  in
  In (PartValue "name" (VStr "Engine Line X")) (formDataOf body)
  /\ ~ In (PartValue "history" VNull) (formDataOf body)
  /\ ~ In (PartValue "id" (VStr "7")) (formDataOf body).
Proof.
  cbn zeta.
  set (body := [("id", VStr "7"); ("name", VStr "Engine Line X");
                ("history", VNull);
                ("attachments_raw",
                 VArr [VStr "uploads/old.pdf"; VStr "draft";
                       VFile {| file_name := "plan.pdf"; file_bytes := [] |}])]).
  split; [|split].
  - apply (multipart_text_parts body). left.
    split; [prove_in|]. split; [prove_not_in|].
    split; [discriminate|]. split; [reflexivity | discriminate].
  - intros H. apply (multipart_text_parts body) in H.
    destruct H as [(_ & _ & _ & _ & H) | (field & l & p & _ & _ & _ & H & _)];
      [now apply H | discriminate].
  - intros H. apply (multipart_text_parts body) in H.
    destruct H as [(_ & _ & H & _) | (field & l & p & Hf & H & _)];
      [now apply H|].
    cbn in Hf. destruct Hf as [<-|[<-|[]]]; discriminate.
Defined.

(** The form of a new product with a price, a server column and a field
    of another collection. *)
Lemma payload_has_the_editable_fields_witness :
  let source :=
    [("product_name", VStr "Sensor A1");
     ("estimated_price_per_product", VStr "12.50");
     ("created_by", VStr "me"); ("history", VStr "none");
     ("product_pictures", VNull)] in
  let payload := finalPayloadOf (fun _ => VNull) (initialCollections products)
                   source in
  In "estimated_price_per_product" (keys payload)
  /\ get payload "estimated_price_per_product" = VStr "12.50"
  /\ get payload "product_pictures" = VArr []
  /\ ~ In "created_by" (keys payload)
  /\ ~ In "history" (keys payload).
Proof.
  cbn zeta.
  set (source := [("product_name", VStr "Sensor A1");
                  ("estimated_price_per_product", VStr "12.50");
                  ("created_by", VStr "me"); ("history", VStr "none");
                  ("product_pictures", VNull)]).
  destruct (payload_has_the_editable_fields (fun _ => VNull)
              (initialCollections products) source
              "estimated_price_per_product") as (Hkeys & Hget & _).
  destruct (payload_has_the_editable_fields (fun _ => VNull)
              (initialCollections products) source "product_pictures")
    as (Hkeys2 & Hget2 & _).
  destruct (payload_has_the_editable_fields (fun _ => VNull)
              (initialCollections products) source "created_by")
    as (Hkeys3 & _).
  destruct (payload_has_the_editable_fields (fun _ => VNull)
              (initialCollections products) source "history")
    as (Hkeys4 & _).
  cbn zeta in Hkeys, Hget, Hkeys2, Hget2, Hkeys3, Hkeys4.
  assert (H1 : In "estimated_price_per_product"
                 (keys (finalPayloadOf (fun _ => VNull)
                          (initialCollections products) source))).
  { apply Hkeys. split; [prove_in|]. split; [prove_in | prove_not_in]. }
  split; [exact H1|]. split; [rewrite (Hget H1); reflexivity|].
  split.
  { rewrite Hget2; [reflexivity|]. apply Hkeys2.
    split; [prove_in|]. split; [prove_in | prove_not_in]. }
  split.
  - intros H. apply Hkeys3 in H. destruct H as (_ & _ & H). apply H. prove_in.
  - intros H. apply Hkeys4 in H. destruct H as (_ & H & _). revert H.
    prove_not_in.
Defined.

(** ** Attachments of the modal: stored paths and chosen files *)

Lemma filter_idem {A} (p : A -> bool) (l : list A) :
  List.filter p (List.filter p l) = List.filter p l.
Proof.
  induction l as [|x l IH]; cbn; [reflexivity|].
  destruct (p x) eqn:E; cbn; [rewrite E; now f_equal | exact IH].
Qed.

Lemma filter_disjoint {A} (p q : A -> bool) (l : list A) :
  (forall x, q x = true -> p x = false) ->
  List.filter p (List.filter q l) = [].
Proof.
  intros H. induction l as [|x l IH]; cbn; [reflexivity|].
  destruct (q x) eqn:E; cbn; [rewrite (H x E)|]; exact IH.
Qed.

Lemma file_is_no_path (v : Value) : isFile v = true -> isUploadPath v = false.
Proof. destruct v; (discriminate || reflexivity). Qed.

Lemma path_is_no_file (v : Value) : isUploadPath v = true -> isFile v = false.
Proof. destruct v; (discriminate || reflexivity). Qed.

Lemma dropAt_length {A} (i : nat) (l : list A) :
  length (dropAt i l)
  = if (i <? length l)%nat then (length l - 1)%nat else length l.
Proof.
  revert i. induction l as [|x l IH]; intros i; [now destruct i|].
  destruct i as [|i]; cbn [dropAt length].
  - cbn. now rewrite Nat.sub_0_r.
  - rewrite IH. change (S i <? S (length l))%nat with (i <? length l)%nat.
    destruct (Nat.ltb_spec i (length l)); [|reflexivity].
    destruct l; cbn in *; lia.
Qed.

Lemma dropAt_out_of_range {A} (i : nat) (l : list A) :
  (length l <= i)%nat -> dropAt i l = l.
Proof.
  revert i. induction l as [|x l IH]; intros i Hi; [now destruct i|].
  destruct i as [|i]; cbn in *; [lia|]. f_equal. apply IH. lia.
Qed.

Lemma dropAt_In {A} (i : nat) (l : list A) (x : A) :
  In x (dropAt i l) -> In x l.
Proof.
  revert i. induction l as [|y l IH]; intros i; [now destruct i|].
  destruct i as [|i]; cbn; [auto|]. intros [H|H]; [auto | right; eauto].
Qed.

Lemma filter_all {A} (p : A -> bool) (l : list A) :
  (forall x, In x l -> p x = true) -> List.filter p l = l.
Proof.
  induction l as [|y l IH]; intros H; cbn; [reflexivity|].
  rewrite (H y) by now left. f_equal. apply IH. intros x Hx. apply H. now right.
Qed.

Lemma filter_none {A} (p : A -> bool) (l : list A) :
  (forall x, In x l -> p x = false) -> List.filter p l = [].
Proof.
  induction l as [|y l IH]; intros H; cbn; [reflexivity|].
  rewrite (H y) by now left. apply IH. intros x Hx. apply H. now right.
Qed.

(** Dropping an entry of the entries of one kind leaves entries of that
    kind only. *)
Lemma dropAt_keeps_kind {A} (p q : A -> bool) (i : nat) (l : list A) :
  (forall x, p x = true -> q x = false) ->
  List.filter p (dropAt i (List.filter p l)) = dropAt i (List.filter p l)
  /\ List.filter q (dropAt i (List.filter p l)) = [].
Proof.
  intros Hpq.
  assert (Hall : forall x, In x (dropAt i (List.filter p l)) -> p x = true).
  { intros x Hx. apply dropAt_In, List.filter_In in Hx. tauto. }
  split; [now apply filter_all | apply filter_none; auto].
Qed.

(** The stored paths and the chosen files of an array, each in order. *)
Lemma split_kinds (remote local : list Value) :
  List.filter isUploadPath (List.filter isUploadPath remote
                            ++ List.filter isFile local)
  = List.filter isUploadPath remote
  /\ List.filter isFile (List.filter isUploadPath remote
                         ++ List.filter isFile local)
     = List.filter isFile local.
Proof.
  rewrite !List.filter_app, !filter_idem.
  rewrite (filter_disjoint isUploadPath isFile) by apply file_is_no_path.
  rewrite (filter_disjoint isFile isUploadPath) by apply path_is_no_file.
  now rewrite app_nil_r.
Qed.

(** X14.  Choosing files in the modal keeps the stored upload paths of the
    field, in their order, and puts the chosen files after them; files
    chosen earlier and not yet uploaded are replaced by the new selection,
    and anything that is neither an upload path nor a file is dropped.
    Other fields of the form are as they were.  If the field of the
    snapshot holds no array the handler throws, and an argument that is no
    array empties the field. *)
Theorem choosing_files_replaces_the_selection
  (formData prev : Obj) (field : string) (current files : list Value) :
  get formData field = VArr current ->
  exists next l,
    DetailModal.handleFileChange formData field (VArr files) prev = Some next
    /\ get next field = VArr l
    /\ l = (List.filter isUploadPath current ++ List.filter isFile files)%list
    /\ List.filter isUploadPath l = List.filter isUploadPath current
    /\ List.filter isFile l = List.filter isFile files
    /\ (forall k, k <> field -> get next k = get prev k)
    /\ (forall other v,
          isArray (get other field) = false ->
          DetailModal.handleFileChange other field (VArr files) prev = None
          /\ (isArray v = false ->
              DetailModal.handleFileChange other field v prev
              = Some (Js.set prev field (VArr [])))).
Proof.
  intros Hget.
  exists (Js.set prev field
            (VArr (List.filter isUploadPath current ++ List.filter isFile files))).
  exists (List.filter isUploadPath current ++ List.filter isFile files)%list.
  unfold DetailModal.handleFileChange. rewrite Hget.
  destruct (split_kinds current files) as [Hr Hl].
  split; [reflexivity|]. split; [apply get_set_eq|]. split; [reflexivity|].
  split; [exact Hr|]. split; [exact Hl|].
  split; [intros k Hk; apply get_set_ne; congruence|].
  intros other v Hother. split.
  - destruct (get other field); (discriminate || reflexivity).
  - intros Hv. destruct v; (discriminate || reflexivity).
Qed.

(** One stored attachment and one file chosen earlier; a new choice. *)
Lemma choosing_files_replaces_the_selection_witness :
  let old := {| file_name := "old.png"; file_bytes := [] |} in
  let new := {| file_name := "new.png"; file_bytes := [] |} in
  let formData :=
    [("product_pictures", VArr [VStr "uploads/a.png"; VFile old])] in
  exists next,
    DetailModal.handleFileChange formData "product_pictures"
      (VArr [VFile new]) formData = Some next
    /\ get next "product_pictures" = VArr [VStr "uploads/a.png"; VFile new].
Proof.
  cbn zeta.
  destruct (choosing_files_replaces_the_selection
              [("product_pictures",
                VArr [VStr "uploads/a.png";
                      VFile {| file_name := "old.png"; file_bytes := [] |}])]
              [("product_pictures",
                VArr [VStr "uploads/a.png";
                      VFile {| file_name := "old.png"; file_bytes := [] |}])]
              "product_pictures"
              [VStr "uploads/a.png";
               VFile {| file_name := "old.png"; file_bytes := [] |}]
              [VFile {| file_name := "new.png"; file_bytes := [] |}] eq_refl)
    as (next & l & Hnext & Hget & -> & _).
  exists next. split; [exact Hnext | exact Hget].
Defined.

(** X15.  Removing an entry in the modal acts on one kind only.  With the
    index counted among the chosen files, the stored upload paths stay as
    they are and the chosen files lose the entry at that index; with the
    index counted among the stored paths it is the other way round.  An
    index within range removes exactly one entry, an index out of range
    removes none; in both cases the field is left with its upload paths
    followed by its files and nothing else. *)
Theorem removing_an_entry_acts_on_one_kind
  (formData prev : Obj) (field : string) (index : nat) (isNewFile : bool) :
  let current := elements (get formData field) in
  let stored := List.filter isUploadPath current in
  let chosen := List.filter isFile current in
  exists l,
    get (DetailModal.handleRemoveFile formData field index isNewFile prev) field
    = VArr l
    /\ List.filter isUploadPath l
       = (if isNewFile then stored else dropAt index stored)
    /\ List.filter isFile l
       = (if isNewFile then dropAt index chosen else chosen)
    /\ l = (List.filter isUploadPath l ++ List.filter isFile l)%list
    /\ length l
       = (length stored + length chosen
          - (if (index <? length (if isNewFile then chosen else stored))%nat
             then 1 else 0))%nat
    /\ (forall k, k <> field ->
         get (DetailModal.handleRemoveFile formData field index isNewFile prev) k
         = get prev k).
Proof.
  cbn zeta. unfold DetailModal.handleRemoveFile.
  set (current := elements (get formData field)).
  set (stored := List.filter isUploadPath current).
  set (chosen := List.filter isFile current).
  assert (Hdrop_stored : List.filter isUploadPath (dropAt index stored)
                         = dropAt index stored
                         /\ List.filter isFile (dropAt index stored) = []).
  { apply dropAt_keeps_kind, path_is_no_file. }
  assert (Hdrop_chosen : List.filter isFile (dropAt index chosen)
                         = dropAt index chosen
                         /\ List.filter isUploadPath (dropAt index chosen) = []).
  { apply dropAt_keeps_kind, file_is_no_path. }
  destruct Hdrop_stored as [Hs1 Hs2]. destruct Hdrop_chosen as [Hc1 Hc2].
  assert (Hstored : List.filter isUploadPath stored = stored
                    /\ List.filter isFile stored = []).
  { subst stored. split; [apply filter_idem|].
    apply filter_disjoint, path_is_no_file. }
  assert (Hchosen : List.filter isFile chosen = chosen
                    /\ List.filter isUploadPath chosen = []).
  { subst chosen. split; [apply filter_idem|].
    apply filter_disjoint, file_is_no_path. }
  destruct Hstored as [Hs3 Hs4]. destruct Hchosen as [Hc3 Hc4].
  destruct isNewFile; eexists; (split; [apply get_set_eq|]);
    rewrite !List.filter_app, ?Hs1, ?Hs2, ?Hs3, ?Hs4, ?Hc1, ?Hc2, ?Hc3, ?Hc4,
      ?app_nil_r;
    (split; [reflexivity|]); (split; [reflexivity|]);
    (split; [reflexivity|]);
    (split; [|intros k Hk; apply get_set_ne; congruence]);
    rewrite length_app, dropAt_length.
  - destruct (Nat.ltb_spec index (length chosen)); lia.
  - destruct (Nat.ltb_spec index (length stored)); lia.
Qed.

(** Two stored pictures and two chosen ones; the second stored is removed. *)
Lemma removing_an_entry_acts_on_one_kind_witness :
  let f := {| file_name := "c.png"; file_bytes := [] |} in
  let g := {| file_name := "d.png"; file_bytes := [] |} in
  let formData :=
    [("product_pictures",
      VArr [VStr "uploads/a.png"; VStr "uploads/b.png"; VFile f; VFile g])] in
  get (DetailModal.handleRemoveFile formData "product_pictures" 1 false formData)
    "product_pictures"
  = VArr [VStr "uploads/a.png"; VFile f; VFile g]
  /\ get (DetailModal.handleRemoveFile formData "product_pictures" 5 true
            formData) "product_pictures"
     = VArr [VStr "uploads/a.png"; VStr "uploads/b.png"; VFile f; VFile g].
Proof.
  cbn zeta.
  set (formData := [("product_pictures",
                     VArr [VStr "uploads/a.png"; VStr "uploads/b.png";
                           VFile {| file_name := "c.png"; file_bytes := [] |};
                           VFile {| file_name := "d.png"; file_bytes := [] |}])]).
  destruct (removing_an_entry_acts_on_one_kind formData formData
              "product_pictures" 1 false) as (l & Hget & Hs & Hc & Hl & _).
  destruct (removing_an_entry_acts_on_one_kind formData formData
              "product_pictures" 5 true) as (l' & Hget' & Hs' & Hc' & Hl' & _).
  rewrite Hget, Hget', Hl, Hl', Hs, Hc, Hs', Hc'. split; reflexivity.
Defined.

(** X16.  After the modal's reset both attachment fields of the form hold
    an array, whatever the record held: an array is kept, any other truthy
    value becomes the only entry, and a missing or falsy one gives the empty
    array.  So choosing files for either field does not throw. *)
Theorem reset_makes_attachment_fields_arrays
  (parseFloat : Value -> Value) (item prev : Obj) (field : string)
  (files : list Value) :
  In field fileFields ->
  let formData := resetFormData parseFloat item in
  exists l,
    get formData field = VArr l
    /\ l = (match get item field with
            | VArr entries => entries
            | v => if truthy v then [v] else []
            end)
    /\ DetailModal.handleFileChange formData field (VArr files) prev
       = Some (Js.set prev field
                 (VArr (List.filter isUploadPath l ++ List.filter isFile files))).
Proof.
  intros Hfield formData.
  assert (Hget : get formData field = asArray (get item field)).
  { subst formData. unfold resetFormData.
    destruct Hfield as [<-|[<-|[]]].
    - rewrite get_set_ne by discriminate. apply get_set_eq.
    - apply get_set_eq. }
  assert (Harr : exists l, asArray (get item field) = VArr l
                           /\ l = match get item field with
                                  | VArr entries => entries
                                  | v => if truthy v then [v] else []
                                  end).
  { unfold asArray. destruct (get item field) as [| |b|n|str|f|entries];
      cbn [isArray]; try (eexists; split; reflexivity);
      destruct (truthy _); eexists; split; reflexivity. }
  destruct Harr as (l & Harr & Hl).
  exists l. rewrite Hget, Harr. split; [reflexivity|]. split; [exact Hl|].
  unfold DetailModal.handleFileChange. now rewrite Hget, Harr.
Qed.

(** A record whose pictures column holds one path, not an array. *)
Lemma reset_makes_attachment_fields_arrays_witness :
  let item := [("id", VStr "7"); ("product_pictures", VStr "uploads/a.png")] in
  let formData := resetFormData (fun v => v) item in
  In "product_pictures" fileFields
  /\ get formData "product_pictures" = VArr [VStr "uploads/a.png"]
  /\ get formData "attachments_raw" = VArr [].
Proof.
  cbn zeta. split; [right; now left|].
  destruct (reset_makes_attachment_fields_arrays (fun v => v)
              [("id", VStr "7"); ("product_pictures", VStr "uploads/a.png")]
              [] "product_pictures" []) as (l & Hget & -> & _);
    [right; now left|].
  destruct (reset_makes_attachment_fields_arrays (fun v => v)
              [("id", VStr "7"); ("product_pictures", VStr "uploads/a.png")]
              [] "attachments_raw" []) as (l' & Hget' & -> & _);
    [now left|].
  split; [exact Hget | exact Hget'].
Defined.

(** No collection requires an attachment field. *)
Lemma required_not_file (key : CollectionKey) (field : string) :
  In field (requiredFields (initialCollections key)) -> isFileField field = false.
Proof.
  destruct key; cbn [initialCollections requiredFields]; intros H;
    repeat (destruct H as [<-|H]; [vm_compute; reflexivity|]); contradiction.
Qed.

Lemma requiredPresent_required (key : CollectionKey) (item : Obj)
  (field : string) :
  In field (requiredFields (initialCollections key)) ->
  requiredPresent key item field = negb (isMissing item field).
Proof.
  intros Hin. unfold requiredPresent, isMissing.
  pose proof (required_not_exempt key field Hin) as Hex. unfold exempt in Hex.
  rewrite Hex, (required_not_file key field Hin).
  now rewrite negb_involutive.
Qed.

Lemma submitPresent_required (key : CollectionKey) (formData : Obj)
  (field : string) :
  In field (requiredFields (initialCollections key)) ->
  submitPresent (requiredFields (initialCollections key)) formData field
  = negb (isMissing formData field).
Proof.
  intros Hin. unfold submitPresent, isMissing.
  rewrite (required_not_file key field Hin).
  apply mem_In in Hin. rewrite Hin. now rewrite negb_involutive.
Qed.

Lemma submitMissing_required (key : CollectionKey) (formData : Obj)
  (field : string) :
  In field (requiredFields (initialCollections key)) ->
  submitMissing formData field = isMissing formData field.
Proof.
  intros Hin. unfold submitMissing, isMissing.
  now rewrite (required_not_file key field Hin).
Qed.

Lemma forallb_negb_filter {A} (p q : A -> bool) (l : list A) :
  (forall x, In x l -> p x = negb (q x)) ->
  List.forallb p l = match List.filter q l with [] => true | _ => false end.
Proof.
  induction l as [|x l IH]; intros H; [reflexivity|].
  cbn [List.forallb List.filter]. rewrite (H x) by now left.
  destruct (q x); cbn [negb andb]; [reflexivity|].
  apply IH. intros y Hy. apply H. now right.
Qed.

Lemma filter_ext_in' {A} (p q : A -> bool) (l : list A) :
  (forall x, In x l -> p x = q x) -> List.filter p l = List.filter q l.
Proof.
  induction l as [|x l IH]; intros H; [reflexivity|].
  cbn [List.filter]. rewrite (H x) by now left.
  rewrite IH; [reflexivity|]. intros y Hy. apply H. now right.
Qed.

(** X17.  The modal validates an edit before it is sent.  When a required
    field of the active collection is missing from the form, [handleSubmit]
    sends nothing, leaves the application state as it was, and opens one
    warning dialog that names the missing required fields, all of them, in
    the order of the registry.  When none is missing it is [handleUpdate]
    that runs, with the form's id and the form. *)
Theorem modal_submit_validates_required_fields
  (parseFloat : Value -> Value) (idText : Value -> string) (e : AppState)
  (formData : Obj) (w : World) :
  let required := requiredFields (initialCollections (activeCollectionKey e)) in
  let missing := List.filter (isMissing formData) required in
  let submit := handleSubmit parseFloat idText e formData in
  (missing <> [] ->
   eval submit w = None
   /\ app (exec submit w) = app w
   /\ trace (exec submit w)
      = (trace w
         ++ [ASwal "Validation Error"
               ("Missing required fields: " ++ join ", " missing)
               "warning"])%list)
  /\ (missing = [] ->
      submit w
      = handleUpdate parseFloat e (idText (get formData "id")) formData w).
Proof.
  intros required missing submit. subst submit. unfold handleSubmit.
  fold required.
  rewrite (forallb_negb_filter _ (isMissing formData))
    by (intros x Hx; now apply submitPresent_required).
  rewrite (filter_ext_in' (submitMissing formData) (isMissing formData))
    by (intros x Hx; eapply submitMissing_required; exact Hx).
  fold missing. split.
  - intros Hne. destruct missing as [|x l]; [congruence|]. cbn [negb].
    repeat split.
  - intros ->. reflexivity.
Qed.

(** A user record as the table holds it has no password, which the registry
    requires of a user: its edit is not sent. *)
Lemma modal_submit_validates_required_fields_witness :
  let e := Sample.signedIn users [] [] Sample.freshCache in
  let formData :=
    [("id", VStr "3"); ("email", VStr "a@b.c"); ("displayName", VStr "Ada");
     ("user_role", VStr "admin")] in
  let w := world (Sample.idle e) in
  let submit := handleSubmit (fun v => v) (fun _ => "3") e formData in
  eval submit w = None
  /\ trace (exec submit w)
     = [ASwal "Validation Error" "Missing required fields: password" "warning"].
Proof.
  cbn zeta.
  destruct (modal_submit_validates_required_fields (fun v => v) (fun _ => "3")
              (Sample.signedIn users [] [] Sample.freshCache)
              [("id", VStr "3"); ("email", VStr "a@b.c");
               ("displayName", VStr "Ada"); ("user_role", VStr "admin")]
              (world (Sample.idle (Sample.signedIn users [] [] Sample.freshCache))))
    as [Hblocked _].
  destruct Hblocked as (Hev & _ & Htr); [vm_compute; discriminate|].
  split; [exact Hev|]. rewrite Htr. vm_compute. reflexivity.
Defined.

(** X18.  With a token, a Create is sent exactly when no required field
    of the active collection is missing from the form; it is then one POST
    to the collection's path whose body is the payload of the form without
    its id, and the loading flag is raised and the error cleared. *)
Theorem create_is_sent_iff_form_is_complete
  (parseFloat : Value -> Value) (e : AppState) (w : World) :
  tokenPresent (authToken e) = true ->
  let d := initialCollections (activeCollectionKey e) in
  let complete :=
    forall field, In field (requiredFields d) ->
                  isMissing (newItemData e) field = false in
  let create := handleCreate parseFloat e in
  (eval create w <> None <-> complete)
  /\ (complete ->
      eval create w
      = Some {| renv := e; method := POST; path := apiPath d;
                successCallback := createCallback e |}
      /\ trace (exec create w)
         = (trace w
            ++ [ARequest "POST" (BASE_API_URL ++ apiPath d)
                  (encodeBody
                     (Some (Js.remove
                              (finalPayloadOf parseFloat d (newItemData e))
                              "id")))])%list
      /\ isLoading (app (exec create w)) = true
      /\ apiError (app (exec create w)) = None).
Proof.
  intros Htok d complete create. subst create. unfold handleCreate.
  fold d.
  rewrite (forallb_negb_filter _ (isMissing (newItemData e)))
    by (intros x Hx; now apply requiredPresent_required).
  assert (Hcomplete :
    complete <-> List.filter (isMissing (newItemData e)) (requiredFields d) = []).
  { subst complete. split.
    - intros H. apply filter_none. intros x Hx. now apply H.
    - intros H field Hin.
      destruct (isMissing (newItemData e) field) eqn:Hm; [|reflexivity].
      assert (Hf : In field
                     (List.filter (isMissing (newItemData e)) (requiredFields d)))
        by (apply List.filter_In; now split).
      rewrite H in Hf. destruct Hf. }
  destruct (List.filter (isMissing (newItemData e)) (requiredFields d))
    as [|x l] eqn:Hfilter; cbn [negb].
  - unfold handleRequest. rewrite Htok. cbn [negb].
    split.
    + split; [intros _; now apply Hcomplete | intros _; discriminate].
    + intros _. repeat split.
  - split.
    + split; [intros H; now destruct H | intros H].
      apply Hcomplete in H. discriminate.
    + intros H. apply Hcomplete in H. discriminate.
Qed.

(** A new product with its two required fields filled in. *)
Lemma create_is_sent_iff_form_is_complete_witness :
  let e := Sample.signedIn products [] [] Sample.freshCache in
  let form :=
    [("id", VStr "0"); ("product_name", VStr "Sensor A1");
     ("product_line", VStr "Engine Line X"); ("product_pictures", VArr [])] in
  let filled :=
    mkApp (authToken e) (userData e) (isInitialLoad e) (items e)
      (allProductLines e) (logs e) (activeCollectionKey e) form (isLoading e)
      (apiError e) (dataCache e) (isModalOpen e) (modalData e)
      (isFormVisible e) in
  tokenPresent (authToken filled) = true
  /\ trace (exec (handleCreate (fun v => v) filled) (world (Sample.idle filled)))
     = [ARequest "POST" "https://product-db-back.azurewebsites.net/api/products"
          (JsonBody
             (Some [("product_name", VStr "Sensor A1");
                    ("product_line", VStr "Engine Line X");
                    ("product_pictures", VArr [])]))].
Proof.
  cbn zeta. split; [reflexivity|].
  match goal with
  | |- trace (exec (handleCreate ?pf ?e) ?w) = _ =>
      destruct (create_is_sent_iff_form_is_complete pf e w) as [_ Hsent];
        [reflexivity|]
  end.
  destruct Hsent as (_ & Htr & _).
  - intros field Hin. cbn in Hin.
    destruct Hin as [<-|[<-|[]]]; vm_compute; reflexivity.
  - rewrite Htr. vm_compute. reflexivity.
Defined.

(** On the columns of the registry the two tests for an attachment field,
    the one by [getFieldType] and the one by the list of [handleRequest],
    agree. *)
Lemma registry_file_fields (k : CollectionKey) (field : string) :
  In field (fields (initialCollections k)) ->
  isFileField field = mem field fileFields.
Proof.
  intros Hin.
  assert (Hall : List.forallb
                   (fun f => Bool.eqb (isFileField f) (mem f fileFields))
                   (fields (initialCollections k)) = true)
    by (destruct k; vm_compute; reflexivity).
  rewrite List.forallb_forall in Hall. apply Hall in Hin.
  now apply Bool.eqb_prop in Hin.
Qed.

Lemma fileField_isFileField (key : string) :
  In key fileFields -> isFileField key = true.
Proof. cbn. intros [<-|[<-|[]]]; vm_compute; reflexivity. Qed.

Lemma finalPayloadOf_get (parseFloat : Value -> Value)
  (d : CollectionDescriptor) (source : Obj) (key : string) :
  get (finalPayloadOf parseFloat d source) key
  = if mem key (keys source) && mem key (allowedFieldsOf d)
    then (if isFileField key
          then (if isArray (get source key) then get source key else VArr [])
          else if String.eqb key "gmdc_pct" || String.eqb key "estimated_price"
               then parseFloat (get source key)
               else get source key)
    else VUndefined.
Proof.
  unfold finalPayloadOf.
  exact (reduce_get (fun k => mem k (allowedFieldsOf d)) _
           (payloadStep parseFloat (allowedFieldsOf d) source)
           (payloadStep_spec parseFloat (allowedFieldsOf d) source)
           (keys source) [] key).
Qed.

Lemma finalPayloadOf_keys (parseFloat : Value -> Value)
  (d : CollectionDescriptor) (source : Obj) (key : string) :
  In key (keys (finalPayloadOf parseFloat d source))
  <-> In key (keys source) /\ mem key (allowedFieldsOf d) = true.
Proof.
  unfold finalPayloadOf.
  rewrite (reduce_keys (fun k => mem k (allowedFieldsOf d)) _
             (payloadStep parseFloat (allowedFieldsOf d) source)
             (payloadStep_spec parseFloat (allowedFieldsOf d) source)).
  cbn [keys List.map In]. tauto.
Qed.

Lemma jsonBodyOf_get (body : Obj) (key : string) :
  get (jsonBodyOf body) key
  = if mem key (keys body) && negb (String.eqb key "id")
    then jsonValue body key else VUndefined.
Proof.
  unfold jsonBodyOf.
  exact (reduce_get (fun k => negb (String.eqb k "id")) (jsonValue body)
           (jsonStep body) (jsonStep_spec body) (keys body) [] key).
Qed.

Lemma jsonBodyOf_keys (body : Obj) (key : string) :
  In key (keys (jsonBodyOf body)) <-> In key (keys body) /\ key <> "id".
Proof.
  unfold jsonBodyOf.
  rewrite (reduce_keys (fun k => negb (String.eqb k "id")) (jsonValue body)
             (jsonStep body) (jsonStep_spec body)).
  cbn [keys List.map In]. rewrite negb_true_iff, String.eqb_neq. tauto.
Qed.

(** The payload holds a chosen file only where the form does. *)
Lemma payload_local_entry (parseFloat : Value -> Value)
  (d : CollectionDescriptor) (source : Obj) :
  hasLocalEntry (finalPayloadOf parseFloat d source) -> hasLocalEntry source.
Proof.
  intros (key & l & f & Hkey & Hget & Hin). exists key, l, f.
  split; [exact Hkey|]. split; [|exact Hin].
  rewrite finalPayloadOf_get, (fileField_isFileField key Hkey) in Hget.
  destruct (mem key (keys source) && mem key (allowedFieldsOf d));
    [|discriminate].
  destruct (isArray (get source key)); [exact Hget|].
  injection Hget as <-. destruct Hin.
Qed.

(** ** The body as sent *)

Lemma lookupMember_stringify (o : Obj) (ks : list string) (k : string) :
  lookupMember
    (List.flat_map
       (fun k' =>
          match stringifyValue (get o k') with
          | Some j => [(k', j)]
          | None => []
          end) ks) k
  = if mem k ks then stringifyValue (get o k) else None.
Proof.
  induction ks as [|k' ks IH]; [reflexivity|].
  unfold mem in *. cbn [List.flat_map List.existsb].
  rewrite (String.eqb_sym k k').
  destruct (String.eqb_spec k' k) as [->|Hne]; cbn [orb].
  - destruct (stringifyValue (get o k)) as [j|] eqn:E.
    + cbn. now rewrite String.eqb_refl.
    + cbn [Datatypes.app]. rewrite IH. now destruct (List.existsb _ ks).
  - destruct (stringifyValue (get o k')) as [j|]; cbn [Datatypes.app lookupMember].
    + apply String.eqb_neq in Hne. rewrite Hne. exact IH.
    + exact IH.
Qed.

Lemma member_stringify (o : Obj) (k : string) :
  member (JSON_stringify o) k
  = if mem k (keys o) then stringifyValue (get o k) else None.
Proof. apply lookupMember_stringify. Qed.

(** The members of the text sent for a payload. *)
Lemma member_jsonBodyOf (body : Obj) (key : string) :
  member (JSON_stringify (jsonBodyOf body)) key
  = if mem key (keys body) && negb (String.eqb key "id")
    then stringifyValue (jsonValue body key) else None.
Proof.
  rewrite member_stringify, jsonBodyOf_get.
  destruct (mem key (keys body) && negb (String.eqb key "id")) eqn:E.
  - assert (Hin : In key (keys (jsonBodyOf body))).
    { apply jsonBodyOf_keys. apply andb_true_iff in E. destruct E as [E1 E2].
      split; [now apply mem_In|].
      now apply negb_true_iff, String.eqb_neq in E2. }
    apply mem_In in Hin. now rewrite Hin.
  - now destruct (mem key (keys (jsonBodyOf body))).
Qed.

Lemma stringify_upload_paths (l : list Value) :
  stringifyValue (VArr (List.filter isUploadPath l))
  = Some (JArr (List.map JStr (pathStrings l))).
Proof.
  cbn [stringifyValue]. do 2 f_equal.
  induction l as [|v l IH]; [reflexivity|].
  cbn [List.filter pathStrings List.flat_map]. fold (pathStrings l).
  destruct v; cbn [isUploadPath]; try exact IH.
  destruct (startsWith s "uploads/"); [|exact IH].
  cbn [List.map Datatypes.app stringifyValue default from_option id]. now rewrite IH.
Qed.

(** X11.  The JSON body as sent, that is, the text [JSON.stringify] makes of
    [jsonBody] when the payload holds no [File].  It has no member "id".
    Its members are the keys of the payload other than "id" whose value
    serialises to something: a key holding [undefined] is dropped.  Under a
    key that is not an attachment field the member is the serialised value
    of the payload: [null], booleans, strings and finite numbers as they
    are, a number that is not finite (the [NaN] of a [parseFloat] that
    failed) as [null].  Under an attachment field holding an array it is
    the array of its upload paths. *)
Theorem json_body_is_payload_without_id (body : Obj) :
  hasFile (Some body) = false ->
  exists sent,
    requestBody (encodeBody (Some body)) = TextBody sent
    /\ member sent "id" = None
    /\ (forall key j,
          member sent key = Some j
          <-> In key (keys body) /\ key <> "id"
              /\ stringifyValue (jsonValue body key) = Some j)
    /\ (forall key, ~ In key fileFields -> jsonValue body key = get body key)
    /\ (forall key l,
          In key fileFields -> get body key = VArr l ->
          stringifyValue (jsonValue body key)
          = Some (JArr (List.map JStr (pathStrings l)))).
Proof.
  intros Hfile. exists (JSON_stringify (jsonBodyOf body)).
  unfold encodeBody. rewrite Hfile. cbn [fmap option_fmap option_map requestBody].
  split; [reflexivity|]. split; [|split; [|split]].
  - rewrite member_jsonBodyOf. cbn [String.eqb Ascii.eqb Bool.eqb negb].
    now rewrite andb_false_r.
  - intros key j. rewrite member_jsonBodyOf. split.
    + destruct (mem key (keys body) && negb (String.eqb key "id")) eqn:E;
        [|discriminate].
      apply andb_true_iff in E. destruct E as [E1 E2]. intros Hj.
      split; [now apply mem_In|]. split; [|exact Hj].
      now apply negb_true_iff, String.eqb_neq in E2.
    + intros (Hin & Hid & Hj). apply mem_In in Hin. rewrite Hin.
      apply String.eqb_neq in Hid. rewrite Hid. exact Hj.
  - intros key Hnot. unfold jsonValue.
    destruct (mem key fileFields) eqn:E; [|reflexivity].
    apply mem_In in E. contradiction.
  - intros key l Hkey Hget. unfold jsonValue. apply mem_In in Hkey.
    rewrite Hkey, Hget. cbn [isArray andb elements].
    apply stringify_upload_paths.
Qed.

(** A payload with a cleared number, a field holding [undefined], a field
    holding [null] and a stored picture. *)
Lemma json_body_is_payload_without_id_witness :
  let body := [("id", VStr "7"); ("product_name", VStr "Sensor A1");
               ("gmdc_pct", VNum PrimFloat.nan); ("capacity", VUndefined);
               ("description", VNull);
               ("product_pictures", VArr [VStr "uploads/a.png"; VStr "draft"])]
  in
  hasFile (Some body) = false
  /\ requestBody (encodeBody (Some body))
     = TextBody
         (JObj [("product_name", JStr "Sensor A1"); ("gmdc_pct", JNull);
                ("description", JNull);
                ("product_pictures", JArr [JStr "uploads/a.png"])])
  /\ exists sent,
      requestBody (encodeBody (Some body)) = TextBody sent
      /\ member sent "id" = None
      /\ member sent "gmdc_pct" = Some JNull
      /\ member sent "capacity" = None.
Proof.
  cbn zeta. split; [reflexivity|]. split; [vm_compute; reflexivity|].
  destruct (json_body_is_payload_without_id
              [("id", VStr "7"); ("product_name", VStr "Sensor A1");
               ("gmdc_pct", VNum PrimFloat.nan); ("capacity", VUndefined);
               ("description", VNull);
               ("product_pictures",
                VArr [VStr "uploads/a.png"; VStr "draft"])] eq_refl)
    as (sent & Hsent & Hid & Hmem & _).
  exists sent. split; [exact Hsent|]. split; [exact Hid|]. split.
  - apply Hmem. split; [prove_in|]. split; [discriminate|].
    vm_compute. reflexivity.
  - destruct (member sent "capacity") as [j|] eqn:E; [|reflexivity].
    apply Hmem in E. destruct E as (_ & _ & E). vm_compute in E. discriminate.
Defined.

(** X19.  An edit in which no new file was chosen, from the form to the
    wire.  With a token, [handleUpdate] sends one PUT to the path of the
    collection followed by the id, and the body sent is the text
    [JSON.stringify] makes of [jsonBody].  Its members are the keys of the
    form that are columns of the collection, are not managed by the server,
    are not "id" and whose value serialises to something (a key left
    holding [undefined] is dropped).  Under an attachment field the member
    is the array of the upload paths stored in the form, in order, and
    nothing else (the empty array when the form held no array); under
    "gmdc_pct" and "estimated_price" the serialised result of [parseFloat],
    which is [null] when that is [NaN]; under every other key the
    serialised value of the form. *)
Theorem update_without_new_files_sends_the_form
  (parseFloat : Value -> Value) (e : AppState) (id : string) (formData : Obj)
  (w : World) :
  tokenPresent (authToken e) = true ->
  ~ hasLocalEntry formData ->
  let d := initialCollections (activeCollectionKey e) in
  exists encoded sent,
    trace (exec (handleUpdate parseFloat e id formData) w)
    = (trace w
       ++ [ARequest "PUT" (BASE_API_URL ++ apiPath d ++ "/" ++ id) encoded])%list
    /\ requestBody encoded = TextBody sent
    /\ forall key j,
        member sent key = Some j
        <-> In key (keys formData) /\ In key (fields d)
            /\ ~ In key EXCLUDED_INTERNAL_COLUMNS /\ key <> "id"
            /\ (if mem key fileFields
                then Some (JArr (List.map JStr
                                   (pathStrings (elements (get formData key)))))
                else if String.eqb key "gmdc_pct"
                        || String.eqb key "estimated_price"
                     then stringifyValue (parseFloat (get formData key))
                     else stringifyValue (get formData key)) = Some j.
Proof.
  intros Htok Hlocal d.
  set (payload := finalPayloadOf parseFloat d formData).
  assert (Hfile : hasFile (Some payload) = false).
  { apply not_true_is_false. intros H. apply hasFile_spec in H.
    apply Hlocal. exact (payload_local_entry parseFloat d formData H). }
  exists (JsonBody (Some (jsonBodyOf payload))),
         (JSON_stringify (jsonBodyOf payload)).
  split; [|split; [reflexivity|]].
  - unfold handleUpdate, handleRequest. fold d. fold payload. rewrite Htok.
    cbn [negb]. unfold encodeBody. rewrite Hfile. reflexivity.
  - intros key j. rewrite member_jsonBodyOf.
    assert (Hvalue :
      In key (keys formData) -> In key (fields d) ->
      ~ In key EXCLUDED_INTERNAL_COLUMNS ->
      stringifyValue (jsonValue payload key)
      = if mem key fileFields
        then Some (JArr (List.map JStr
                           (pathStrings (elements (get formData key)))))
        else if String.eqb key "gmdc_pct" || String.eqb key "estimated_price"
             then stringifyValue (parseFloat (get formData key))
             else stringifyValue (get formData key)).
    { intros Hform Hfield Hex. unfold jsonValue. subst payload.
      rewrite finalPayloadOf_get.
      apply mem_In in Hform. rewrite Hform.
      assert (Hallowed : mem key (allowedFieldsOf d) = true)
        by now apply allowedFieldsOf_spec.
      rewrite Hallowed. cbn [andb].
      rewrite (registry_file_fields (activeCollectionKey e) key Hfield).
      destruct (mem key fileFields); cbn [andb];
        [|now destruct (String.eqb key "gmdc_pct"
                        || String.eqb key "estimated_price")].
      destruct (get formData key); cbn [isArray elements];
        try apply (stringify_upload_paths []).
      apply stringify_upload_paths. }
    split.
    + destruct (mem key (keys payload) && negb (String.eqb key "id")) eqn:E;
        [|discriminate].
      apply andb_true_iff in E. destruct E as [E1 E2].
      apply mem_In in E1. subst payload. apply finalPayloadOf_keys in E1.
      destruct E1 as [Hform Hallowed]. apply allowedFieldsOf_spec in Hallowed.
      destruct Hallowed as [Hfield Hex].
      apply negb_true_iff, String.eqb_neq in E2. intros Hj.
      rewrite (Hvalue Hform Hfield Hex) in Hj. auto.
    + intros (Hform & Hfield & Hex & Hid & Hj).
      assert (Hpk : In key (keys payload)).
      { subst payload. apply finalPayloadOf_keys. split; [exact Hform|].
        now apply allowedFieldsOf_spec. }
      apply mem_In in Hpk. rewrite Hpk.
      apply String.eqb_neq in Hid. rewrite Hid. cbn [negb andb].
      now rewrite (Hvalue Hform Hfield Hex).
Qed.

(** A product whose margin was cleared: [parseFloat] gives [NaN] for the
    empty text, the stored picture is kept and a server column is left
    out. *)
Lemma update_without_new_files_sends_the_form_witness :
  let parseFloat := fun v =>
    match v with VStr "" => VNum PrimFloat.nan | _ => v end in
  let e := Sample.signedIn products [] [] Sample.freshCache in
  let formData :=
    [("id", VStr "7"); ("product_name", VStr "Sensor A1");
     ("gmdc_pct", VStr ""); ("updated_by", VStr "ada");
     ("product_pictures", VArr [VStr "uploads/a.png"; VStr "draft"])] in
  tokenPresent (authToken e) = true
  /\ ~ hasLocalEntry formData
  /\ exists sent,
      trace (exec (handleUpdate parseFloat e "7" formData)
               (world (Sample.idle e)))
      = [ARequest "PUT"
           "https://product-db-back.azurewebsites.net/api/products/7"
           (JsonBody
              (Some [("product_name", VStr "Sensor A1");
                     ("gmdc_pct", VNum PrimFloat.nan);
                     ("product_pictures", VArr [VStr "uploads/a.png"])]))]
      /\ member sent "gmdc_pct" = Some JNull
      /\ member sent "product_pictures" = Some (JArr [JStr "uploads/a.png"])
      /\ member sent "updated_by" = None.
Proof.
  cbn zeta.
  set (parseFloat := fun v =>
         match v with VStr "" => VNum PrimFloat.nan | _ => v end).
  set (e := Sample.signedIn products [] [] Sample.freshCache).
  set (formData := [("id", VStr "7"); ("product_name", VStr "Sensor A1");
                    ("gmdc_pct", VStr ""); ("updated_by", VStr "ada");
                    ("product_pictures",
                     VArr [VStr "uploads/a.png"; VStr "draft"])]).
  assert (Hlocal : ~ hasLocalEntry formData).
  { intros (key & l & f & Hkey & Hget & Hin).
    cbn in Hkey. destruct Hkey as [<-|[<-|[]]]; vm_compute in Hget.
    - discriminate.
    - injection Hget as <-. cbn in Hin. intuition discriminate. }
  split; [reflexivity|]. split; [exact Hlocal|].
  destruct (update_without_new_files_sends_the_form parseFloat e "7" formData
              (world (Sample.idle e)) eq_refl Hlocal)
    as (encoded & sent & Htr & Hsent & Hmem).
  exists sent. split; [|split; [|split]].
  - vm_compute. reflexivity.
  - apply Hmem. repeat split; try prove_in; try prove_not_in; discriminate.
  - apply Hmem. repeat split; try prove_in; try prove_not_in; discriminate.
  - destruct (member sent "updated_by") as [j|] eqn:E; [|reflexivity].
    apply Hmem in E. destruct E as (_ & _ & Hex & _).
    exfalso. apply Hex. prove_in.
Defined.

Lemma setAuthToken_frame (v : option string) (w : World) :
  let w' := exec (setAuthToken v) w in
  authToken (app w') = v /\ userData (app w') = userData (app w)
  /\ isLoading (app w') = isLoading (app w) /\ trace w' = trace w.
Proof.
  unfold setAuthToken. run_handler.
  destruct (negb (bool_decide (authToken (app w) = v))); repeat split.
Qed.

Lemma setUserData_frame (v : option Obj) (w : World) :
  let w' := exec (setUserData v) w in
  authToken (app w') = authToken (app w) /\ userData (app w') = v
  /\ isLoading (app w') = isLoading (app w) /\ trace w' = trace w.
Proof.
  unfold setUserData. run_handler.
  destruct (is_Some_b v || is_Some_b (userData (app w))); repeat split.
Qed.

Lemma handleAuth_failed_spec (msg : string) (w : World) :
  let r := eval (LoginScreen.handleAuth_failed msg) w in
  let w' := exec (LoginScreen.handleAuth_failed msg) w in
  authToken (app w') = authToken (app w)
  /\ userData (app w') = userData (app w)
  /\ isLoading (app w') = false
  /\ trace w' = trace w
  /\ LoginScreen.setItemCalls r = []
  /\ exists shown, LoginScreen.shownError r = Some shown /\ shown <> "".
Proof.
  cbn zeta. unfold LoginScreen.handleAuth_failed. run_handler.
  repeat split. eexists. split; [reflexivity|].
  destruct (String.eqb_spec msg ""); [discriminate | assumption].
Qed.

Lemma handleAuth_settle_failure (stringify : option Obj -> string)
  (o : LoginScreen.AuthOutcome) :
  signsIn o = false ->
  exists msg,
    LoginScreen.handleAuth_settle stringify o
    = LoginScreen.handleAuth_failed msg.
Proof.
  destruct o as [msg | [|] status [data | msg]];
    cbn [signsIn LoginScreen.handleAuth_settle negb];
    try discriminate; intros _; eauto.
  destruct (LoginScreen.message data) as [m|]; [|eauto].
  destruct (includes m "secretOrPrivateKey"); eauto.
Qed.

Lemma signsIn_inv (o : LoginScreen.AuthOutcome) :
  signsIn o = true ->
  exists status data, o = LoginScreen.AuthResponse true status (Json data).
Proof.
  destruct o as [msg | [|] status [data | msg]]; cbn; try discriminate; eauto.
Qed.

(** X20.  An authentication that fails leaves no session behind.  When the
    request fails, the body does not parse or the response is not ok, the
    token and the user of the application are as before, nothing is written
    to the session storage, the screen is given an error message that is
    not empty, and the loading flag is lowered.  When the response is ok
    and parses, the token and the user of the body become the session,
    both are copied to the session storage in that order, no error is set,
    and the loading flag is lowered. *)
Theorem failed_authentication_leaves_no_session
  (stringify : option Obj -> string) (o : LoginScreen.AuthOutcome) (w : World) :
  let r := eval (LoginScreen.handleAuth_settle stringify o) w in
  let w' := exec (LoginScreen.handleAuth_settle stringify o) w in
  isLoading (app w') = false
  /\ trace w' = trace w
  /\ (signsIn o = false ->
      authToken (app w') = authToken (app w)
      /\ userData (app w') = userData (app w)
      /\ LoginScreen.setItemCalls r = []
      /\ exists shown, LoginScreen.shownError r = Some shown /\ shown <> "")
  /\ (signsIn o = true ->
      exists status data,
        o = LoginScreen.AuthResponse true status (Json data)
        /\ authToken (app w') = LoginScreen.token data
        /\ userData (app w') = LoginScreen.user data
        /\ LoginScreen.shownError r = None
        /\ LoginScreen.setItemCalls r
           = [("authToken", default "undefined" (LoginScreen.token data));
              ("userData", stringify (LoginScreen.user data))]).
Proof.
  cbn zeta. destruct (signsIn o) eqn:Hsigns.
  - destruct (signsIn_inv o Hsigns) as (status & data & ->).
    cbn [LoginScreen.handleAuth_settle negb].
    rewrite !exec_bind, !eval_bind_exec.
    set (w1 := exec (setAuthToken (LoginScreen.token data)) w).
    set (w2 := exec (setUserData (LoginScreen.user data)) w1).
    destruct (setAuthToken_frame (LoginScreen.token data) w)
      as (At & Au & Al & Atr).
    destruct (setUserData_frame (LoginScreen.user data) w1)
      as (Bt & Bu & Bl & Btr).
    fold w1 in At, Au, Al, Atr. fold w2 in Bt, Bu, Bl, Btr.
    split; [reflexivity|]. split; [cbn; congruence|]. split; [discriminate|].
    intros _. exists status, data. split; [reflexivity|].
    split; [cbn; congruence|]. split; [cbn; congruence|].
    split; reflexivity.
  - destruct (handleAuth_settle_failure stringify o Hsigns) as (msg & ->).
    destruct (handleAuth_failed_spec msg w) as (Ft & Fu & Fl & Ftr & Fs & Fe).
    split; [exact Fl|]. split; [exact Ftr|]. split; [|discriminate].
    intros _. repeat split; assumption.
Qed.

(** A login that the server refuses with status 401 and no message. *)
Lemma failed_authentication_leaves_no_session_witness :
  let o := LoginScreen.AuthResponse false 401
             (Json {| LoginScreen.message := None; LoginScreen.token := None;
                      LoginScreen.user := None |}) in
  let signedOut :=
    mkApp None None true [] [] [] product_lines
      (defaultValues (initialCollections product_lines)) true None
      initialDataCache false None false in
  let w := {| app := signedOut; trace := []; depsChanged := false |} in
  signsIn o = false
  /\ authToken (app (exec (LoginScreen.handleAuth_settle (fun _ => "null") o) w))
     = None
  /\ LoginScreen.setItemCalls
       (eval (LoginScreen.handleAuth_settle (fun _ => "null") o) w) = []
  /\ LoginScreen.shownError
       (eval (LoginScreen.handleAuth_settle (fun _ => "null") o) w)
     = Some "Authentication failed with status 401".
Proof.
  cbn zeta. split; [reflexivity|].
  match goal with
  | |- authToken (app (exec (LoginScreen.handleAuth_settle ?f ?o) ?w)) = _ /\ _ =>
      destruct (failed_authentication_leaves_no_session f o w)
        as (_ & _ & Hfail & _)
  end.
  destruct Hfail as (Ht & _ & Hs & _); [reflexivity|].
  split; [exact Ht|]. split; [exact Hs|]. vm_compute. reflexivity.
Defined.
